(** * gpumon: GPU telemetry collectors

    A shallow embedding of the collectors of [main.go] (both revisions of the
    file that the repository carries) together with the properties that the
    design document states about them.

    Conventions.
    - A Go [string] is a sequence of bytes: Rocq's [string].
    - A Go [int64] is a [Z] kept in the signed 64-bit range by [wrap64].
    - A Go [float64] is an IEEE 754 binary64 number: [spec_float] of the
      Standard Library with precision 53 and maximal exponent 1024.
    - A Go result pair [(v, err)] is a pair whose second component is
      [option error]; [None] is [nil].
    - Calls into the Go library are modelled in modules named after the
      package ([GoStrings], [GoStrconv], ...); the compiled pattern keeps
      its name [dataRegex].  The decoders of
      [encoding/xml] and [encoding/json] and the shortest float printer of
      [strconv] are parameters of the development.
    - The scanner of [bufio] runs over the lines of the error stream of the
      subprocess, whatever their length, and keeps the limit of
      [MaxScanTokenSize] bytes of its buffer: a line that does not fit
      stops it with [ErrTooLong].
    - The callers of the collectors (the callbacks, the runners and the
      commands) are modelled over a meter and an SDK of OpenTelemetry that
      are records of their methods, over the answer of the operating
      system to the start of the subprocess, and over the process
      environment.  A runner returns the events of its run, in order, and
      whether it returns at all. *)

From Stdlib Require Import ZArith Lia Ascii String List Bool.
From Stdlib Require Import Floats.SpecFloat.
From stdpp Require Import base option gmap strings.

Local Open Scope Z_scope.

(** ** Machine integers and errors *)

Definition int64 := Z.
Definition minInt64 : Z := - 2 ^ 63.
Definition maxInt64 : Z := 2 ^ 63 - 1.
Definition maxUint64 : Z := 2 ^ 64 - 1.

(** Two's complement wrap-around of signed 64-bit arithmetic. *)
Definition wrap64 (z : Z) : int64 := (z + 2 ^ 63) mod 2 ^ 64 - 2 ^ 63.

Definition mul64 (a b : int64) : int64 := wrap64 (a * b).

Definition in_int64 (z : Z) : Prop := minInt64 <= z <= maxInt64.

(** Go's [error] values as far as the collectors build or inspect them. *)
Inductive error : Type :=
| ErrSyntax                                   (* strconv.ErrSyntax *)
| ErrRange                                    (* strconv.ErrRange *)
| NumError (Func Num : string) (Err : error)   (* *strconv.NumError *)
| errorString (msg : string)                  (* errors.New, fmt.Errorf without %w *)
| wrapError (msg : string) (err : error).     (* fmt.Errorf("msg: %w", err) *)

(** The code of a byte. *)
Definition code (c : ascii) : Z := Z.of_N (N_of_ascii c).

Definition byte_eqb (a b : ascii) : bool := code a =? code b.

(** ** Binary64 floating point *)

Definition float64 := spec_float.

Module Float64.

Definition prec : Z := 53.
Definition emax : Z := 1024.

Definition mul (x y : float64) : float64 := SFmul prec emax x y.

(** The conversion of an integer constant, exact for the constants of
    the collectors. *)
Definition of_Z (z : Z) : float64 := binary_normalize prec emax z 0 false.

Definition is_finite (x : float64) : bool :=
  match x with
  | S754_zero _ | S754_finite _ _ _ => true
  | S754_infinity _ | S754_nan => false
  end.

(** The integer part of a finite number, the fraction discarded. *)
Definition trunc (x : float64) : Z :=
  match x with
  | S754_finite s m e => cond_Zopp s (Z.shiftl (Zpos m) e)
  | _ => 0
  end.

(** The nearest binary64 number, ties to even, of [(-1)^neg * m / d];
    an infinity when it is out of range. *)
Definition round_quotient (neg : bool) (m d : positive) : float64 :=
  let '(q, e, l) := SFdiv_core_binary prec emax (Zpos m) 0 (Zpos d) 0 in
  binary_round_aux prec emax neg q e l.

(** The nearest binary64 number of [(-1)^neg * m * base^e]. *)
Definition round_scaled (neg : bool) (m : positive) (base : Z) (e : Z) : float64 :=
  if 0 <=? e
  then binary_normalize prec emax (cond_Zopp neg (Zpos m * base ^ e)) 0 neg
  else round_quotient neg m (Z.to_pos (base ^ (- e))).

End Float64.

(** ** Package [strings] *)
Module GoStrings.

Fixpoint HasPrefix (s prefix : string) : bool :=
  match prefix, s with
  | EmptyString, _ => true
  | String p prefix', String c s' => byte_eqb c p && HasPrefix s' prefix'
  | String _ _, EmptyString => false
  end.

(** The copying loop of [strings.Replace] for a non-empty [old] and an
    empty replacement: [skip] counts the bytes of a matched occurrence
    that are still to be dropped. *)
Fixpoint remove_all (old : string) (skip : nat) (s : string) : string :=
  match s with
  | EmptyString => EmptyString
  | String c t =>
      match skip with
      | S k => remove_all old k t
      | O =>
          if HasPrefix s old
          then remove_all old (Nat.pred (String.length old)) t
          else String c (remove_all old O t)
      end
  end.

(** [strings.ReplaceAll(s, old, "")]: every non-overlapping occurrence of
    [old] is deleted, left to right.  With [old] empty the replacement
    equals the pattern and Go returns [s] unchanged. *)
Definition ReplaceAll (s old : string) : string :=
  match old with
  | EmptyString => s
  | String _ _ => remove_all old O s
  end.

(** [asciiSpace]: '\t', '\n', '\v', '\f', '\r', ' '. *)
Definition asciiSpace (c : ascii) : bool :=
  let b := code c in ((9 <=? b) && (b <=? 13)) || (b =? 32).

(** UTF-8 encodings of the two-byte white space runes U+0085 and U+00A0. *)
Definition space2 (c1 c2 : ascii) : bool :=
  (code c1 =? 194) && ((code c2 =? 133) || (code c2 =? 160)).

(** UTF-8 encodings of the three-byte white space runes: U+1680,
    U+2000..U+200A, U+2028, U+2029, U+202F, U+205F and U+3000. *)
Definition space3 (c1 c2 c3 : ascii) : bool :=
  let b1 := code c1 in let b2 := code c2 in let b3 := code c3 in
  ((b1 =? 225) && (b2 =? 154) && (b3 =? 128))
  || ((b1 =? 226) && (b2 =? 128)
      && (((128 <=? b3) && (b3 <=? 138)) || (b3 =? 168) || (b3 =? 169) || (b3 =? 175)))
  || ((b1 =? 226) && (b2 =? 129) && (b3 =? 159))
  || ((b1 =? 227) && (b2 =? 128) && (b3 =? 128)).

(** Drops white space runes ([unicode.IsSpace]) from the front.  With
    [back] set the string is read back to front, as the reversal of the
    original, so that the bytes of an encoding come in reverse order. *)
Fixpoint trim_front (back : bool) (s : string) : string :=
  match s with
  | EmptyString => EmptyString
  | String c1 t1 =>
      if asciiSpace c1 then trim_front back t1 else
      match t1 with
      | EmptyString => s
      | String c2 t2 =>
          if (if back then space2 c2 c1 else space2 c1 c2) then trim_front back t2 else
          match t2 with
          | EmptyString => s
          | String c3 t3 =>
              if (if back then space3 c3 c2 c1 else space3 c1 c2 c3)
              then trim_front back t3 else s
          end
      end
  end.

Definition TrimLeftSpace (s : string) : string := trim_front false s.

Definition TrimRightSpace (s : string) : string :=
  String.rev (trim_front true (String.rev s)).

(** [strings.TrimSpace]: leading and trailing white space removed. *)
Definition TrimSpace (s : string) : string := TrimRightSpace (TrimLeftSpace s).

End GoStrings.

(** ** Package [strconv]: integers *)
Module GoStrconv.

(** The smallest number whose tenfold exceeds [maxUint64]. *)
Definition cutoff10 : Z := maxUint64 / 10 + 1.

(** The digit loop of [strconv.ParseUint(s, 10, 64)], [n] being the value
    accumulated so far.  The result is the pair of the value and the kind
    of failure. *)
Fixpoint ParseUint_loop (s : string) (n : Z) : Z * option error :=
  match s with
  | EmptyString => (n, None)
  | String c rest =>
      let b := code c in
      if (48 <=? b) && (b <=? 57) then
        let d := b - 48 in
        if cutoff10 <=? n then (maxUint64, Some ErrRange) else
        let n10 := n * 10 in
        let n1 := (n10 + d) mod 2 ^ 64 in
        if (n1 <? n10) || (maxUint64 <? n1) then (maxUint64, Some ErrRange)
        else ParseUint_loop rest n1
      else (0, Some ErrSyntax)
  end.

Definition ParseUint (s : string) : Z * option error :=
  match s with
  | EmptyString => (0, Some ErrSyntax)
  | String _ _ => ParseUint_loop s 0
  end.

(** [strconv.ParseInt(s, 10, 64)]. *)
Definition ParseInt (s0 : string) : int64 * option error :=
  match s0 with
  | EmptyString => (0, Some (NumError "ParseInt" s0 ErrSyntax))
  | String c rest =>
      let neg := code c =? 45 in
      let s := if (code c =? 43) || neg then rest else s0 in
      let '(un, err) := ParseUint s in
      match err with
      | Some ErrRange | None =>
          let cutoff := 2 ^ 63 in
          if negb neg && (cutoff <=? un)
          then (cutoff - 1, Some (NumError "ParseInt" s0 ErrRange))
          else if neg && (cutoff <? un)
          then (- cutoff, Some (NumError "ParseInt" s0 ErrRange))
          else ((if neg then - un else un), None)
      | Some _ => (0, Some (NumError "ParseInt" s0 ErrSyntax))
      end
  end.


(** *** Floating point *)

Definition is_digit (b : Z) : bool := (48 <=? b) && (b <=? 57).

Definition lower (b : Z) : Z := Z.lor b 32.

Definition is_hex_letter (b : Z) : bool := (97 <=? lower b) && (lower b <=? 102).

Fixpoint commonPrefixLenIgnoreCase (s prefix : string) : nat :=
  match s, prefix with
  | String c s', String p prefix' =>
      let b := code c in
      let b := if (65 <=? b) && (b <=? 90) then b + 32 else b in
      if b =? code p then S (commonPrefixLenIgnoreCase s' prefix') else O
  | _, _ => O
  end.

(** [special]: the infinities, with an optional sign, and the unsigned
    NaN; the result carries the number of bytes consumed. *)
Definition special (s : string) : option (float64 * nat) :=
  let infinity (sign : bool) (nsign : nat) (s : string) :=
    let n := commonPrefixLenIgnoreCase s "infinity" in
    let n := if (Nat.ltb 3 n && Nat.ltb n 8)%bool then 3%nat else n in
    if (Nat.eqb n 3 || Nat.eqb n 8)%bool
    then Some (S754_infinity sign, (nsign + n)%nat) else None in
  match s with
  | EmptyString => None
  | String c t =>
      let b := code c in
      if (b =? 43) || (b =? 45) then infinity (b =? 45) 1%nat t
      else if (b =? 105) || (b =? 73) then infinity false 0%nat s
      else if (b =? 110) || (b =? 78) then
        if Nat.eqb (commonPrefixLenIgnoreCase s "nan") 3
        then Some (S754_nan, 3%nat) else None
      else None
  end.

(** [underscoreOK]: an underscore stands only between digits or between
    a base prefix and a digit.  [saw] is the kind of the last byte: ['0']
    for a digit or the base prefix, ['_'] for an underscore, ['!'] for
    anything else and ['^'] at the beginning. *)
Fixpoint underscoreOK_loop (hex : bool) (s : string) (saw : Z) : bool :=
  match s with
  | EmptyString => negb (saw =? 95)
  | String c t =>
      let b := code c in
      if is_digit b || (hex && is_hex_letter b) then underscoreOK_loop hex t 48
      else if b =? 95 then
        if saw =? 48 then underscoreOK_loop hex t 95 else false
      else if saw =? 95 then false
      else underscoreOK_loop hex t 33
  end.

Definition underscoreOK (s : string) : bool :=
  let s := match s with
           | String c t => if (code c =? 45) || (code c =? 43) then t else s
           | EmptyString => s
           end in
  match s with
  | String c1 (String c2 t) =>
      if (code c1 =? 48)
         && ((lower (code c2) =? 98) || (lower (code c2) =? 111) || (lower (code c2) =? 120))
      then underscoreOK_loop (lower (code c2) =? 120) t 48
      else underscoreOK_loop false s 94
  | _ => underscoreOK_loop false s 94
  end.

(** What the mantissa loop of [readFloat] has seen. *)
Record mantissa : Type := {
  sawdot : bool;
  sawdigits : bool;
  underscores : bool;
  digits : Z;       (* the digits read as one number in the base *)
  fraction : Z      (* how many of them follow the point *)
}.

Fixpoint read_mantissa (hex : bool) (s : string) (st : mantissa) : mantissa * string :=
  match s with
  | EmptyString => (st, s)
  | String c t =>
      let b := code c in
      let digit (d : Z) :=
        {| sawdot := sawdot st; sawdigits := true; underscores := underscores st;
           digits := digits st * (if hex then 16 else 10) + d;
           fraction := if sawdot st then fraction st + 1 else fraction st |} in
      if b =? 95 then
        read_mantissa hex t
          {| sawdot := sawdot st; sawdigits := sawdigits st; underscores := true;
             digits := digits st; fraction := fraction st |}
      else if b =? 46 then
        if sawdot st then (st, s) else
        read_mantissa hex t
          {| sawdot := true; sawdigits := sawdigits st; underscores := underscores st;
             digits := digits st; fraction := fraction st |}
      else if is_digit b then read_mantissa hex t (digit (b - 48))
      else if hex && is_hex_letter b then read_mantissa hex t (digit (lower b - 97 + 10))
      else (st, s)
  end.

(** The digits of the exponent; the accumulated value stops growing at
    10000 as in [readFloat]. *)
Fixpoint read_exponent (s : string) (e : Z) (us : bool) : Z * bool * string :=
  match s with
  | EmptyString => (e, us, s)
  | String c t =>
      let b := code c in
      if b =? 95 then read_exponent t e true
      else if is_digit b then read_exponent t (if e <? 10000 then e * 10 + (b - 48) else e) us
      else (e, us, s)
  end.

(** A number as [readFloat] reads it: the value is
    [(-1)^neg * digits * base^scale] with base 2 when [hex] and 10
    otherwise. *)
Record number : Type := { neg : bool; hex : bool; mant : Z; scale : Z }.

Definition take (n : nat) (s : string) : string := String.substring 0 n s.

(** [readFloat]: the number at the front of [s] and the unread rest, or
    [None] when [ok] is false. *)
Definition readFloat (s : string) : option (number * string) :=
  match s with
  | EmptyString => None
  | String c0 t0 =>
      let neg := code c0 =? 45 in
      let s1 := if (code c0 =? 43) || neg then t0 else s in
      let '(hex, s2) :=
        match s1 with
        | String z (String x (String y t)) =>
            if (code z =? 48) && (lower (code x) =? 120)
            then (true, String y t) else (false, s1)
        | _ => (false, s1)
        end in
      let '(st, r) :=
        read_mantissa hex s2
          {| sawdot := false; sawdigits := false; underscores := false;
             digits := 0; fraction := 0 |} in
      if negb (sawdigits st) then None else
      let dp := if hex then - (4 * fraction st) else - fraction st in
      let finish (dp : Z) (us : bool) (r : string) :=
        if us && negb (underscoreOK (take (String.length s - String.length r) s))
        then None
        else Some ({| neg := neg; hex := hex; mant := digits st; scale := dp |}, r) in
      match r with
      | String ce te =>
          if lower (code ce) =? (if hex then 112 else 101) then
            match te with
            | EmptyString => None
            | String cs ts =>
                let esign := if code cs =? 45 then -1 else 1 in
                let r1 := if (code cs =? 43) || (code cs =? 45) then ts else te in
                match r1 with
                | EmptyString => None
                | String cd _ =>
                    if is_digit (code cd) then
                      let '(e, us, r2) := read_exponent r1 0 (underscores st) in
                      finish (dp + e * esign) us r2
                    else None
                end
            end
          else if hex then None
          else finish dp (underscores st) r
      | EmptyString => if hex then None else finish dp (underscores st) r
      end
  end.

(** [strconv.ParseFloat(s, 64)]: the nearest binary64 number; zero with a
    syntax error when [s] is not a number in its whole length; an infinity
    with a range error when the number is too large. *)
Definition ParseFloat (s : string) : float64 * option error :=
  let syntax := (S754_zero false, Some (NumError "ParseFloat" s ErrSyntax)) in
  match special s with
  | Some (f, n) => if Nat.eqb n (String.length s) then (f, None) else syntax
  | None =>
      match readFloat s with
      | Some (x, EmptyString) =>
          match mant x with
          | Zpos m =>
              let f := Float64.round_scaled (neg x) m (if hex x then 2 else 10) (scale x) in
              if Float64.is_finite f then (f, None)
              else (f, Some (NumError "ParseFloat" s ErrRange))
          | _ => (S754_zero (neg x), None)
          end
      | _ => syntax
      end
  end.

End GoStrconv.

(** ** Helpers of [main.go] *)

Definition parsePercentage (val : string) : int64 * option error :=
  let s := GoStrings.ReplaceAll val "%" in
  let s := GoStrings.TrimSpace s in
  GoStrconv.ParseInt s.

Definition parseMemory (val : string) : int64 * option error :=
  let s := GoStrings.ReplaceAll val "MiB" in
  let s := GoStrings.TrimSpace s in
  match GoStrconv.ParseInt s with
  | (_, Some err) => (0, Some err)
  | (num, None) => (mul64 (mul64 num 1024) 1024, None)
  end.

(** ** Data model *)

(** The Canonical Reading. *)
Record GPUData : Type := mkGPUData {
  ID : string;
  Name : string;
  MemoryUsedBytes : int64;
  GPUUtilPercent : int64
}.

(** The document that [xml.Unmarshal] fills in [NvidiaSMICollector.Collect]:
    one entry per [gpu] element. *)
Module SmiLog.
Record fb_memory_usage : Type := { Used : string }.
Record utilization : Type := { GPUUtil : string }.
Record gpu : Type := {
  ID : string;
  ProductName : string;
  FBMemory : fb_memory_usage;
  Utilization : utilization
}.
Record t : Type := { GPUs : list gpu }.
End SmiLog.

(** ** NVIDIA SMI collector (the Snapshot Collector)

    The function is the same in both revisions of [main.go]. *)
Module NvidiaSMICollector.
Section Collect.

(** [xml.Unmarshal(out, &smiLog)]: the decoded document or the error. *)
Variable xml_Unmarshal : string -> SmiLog.t + error.

(** The body of the [for _, g := range smiLog.GPUs] loop. *)
Definition reading (g : SmiLog.gpu) : GPUData :=
  let '(mem, _) := parseMemory (SmiLog.Used (SmiLog.FBMemory g)) in
  let '(util, _) := parsePercentage (SmiLog.GPUUtil (SmiLog.Utilization g)) in
  {| ID := SmiLog.ID g;
     Name := SmiLog.ProductName g;
     MemoryUsedBytes := mem;
     GPUUtilPercent := util |}.

(** [Collect]; [cmd_Output] is what
    [exec.CommandContext(ctx, "nvidia-smi", "-q", "-x").Output()]
    returned. *)
Definition Collect (cmd_Output : string * option error)
  : list GPUData * option error :=
  let '(out, err) := cmd_Output in
  match err with
  | Some err => ([], Some (wrapError "exec error: " err))
  | None =>
      match xml_Unmarshal out with
      | inr err => ([], Some (wrapError "unmarshal error: " err))
      | inl smiLog => (map reading (SmiLog.GPUs smiLog), None)
      end
  end.

End Collect.
End NvidiaSMICollector.

(** ** Package [regexp]: the compiled pattern [dataRegex] *)
Module dataRegex.

(** The class [\s] of RE2: tab, line feed, form feed, carriage return
    and space. *)
Definition perl_space (c : ascii) : bool :=
  let b := code c in
  (b =? 9) || (b =? 10) || (b =? 12) || (b =? 13) || (b =? 32).

(** [\s*], greedy. *)
Fixpoint skip_spaces (s : string) : string :=
  match s with
  | String c t => if perl_space c then skip_spaces t else s
  | EmptyString => s
  end.

(** [.*$]: no line feed up to the end of the text. *)
Fixpoint no_newline (s : string) : bool :=
  match s with
  | String c t => negb (code c =? 10) && no_newline t
  | EmptyString => true
  end.

Fixpoint drop (n : nat) (s : string) : string :=
  match n, s with
  | S k, String _ t => drop k t
  | _, _ => s
  end.

(** A match of [dataRegex] that starts at the first byte of [s]: the
    literal [data], white space, [=], white space, then the capture group,
    which is an opening brace and any bytes but a line feed up to the end
    of the text.  The result is the text of the capture group. *)
Definition match_here (s : string) : option string :=
  if GoStrings.HasPrefix s "data" then
    match skip_spaces (drop 4 s) with
    | String c1 t1 =>
        if code c1 =? 61 then
          match skip_spaces t1 with
          | String c2 t2 =>
              if (code c2 =? 123) && no_newline t2
              then Some (String c2 t2) else None
          | EmptyString => None
          end
        else None
    | EmptyString => None
    end
  else None.

(** The capture group of the leftmost match, if the pattern matches:
    [m[1]] of [dataRegex.FindStringSubmatch(line)], whose result has two
    elements on a match and is [nil] otherwise. *)
Fixpoint FindStringSubmatch (line : string) : option string :=
  match match_here line with
  | Some m => Some m
  | None =>
      match line with
      | String _ t => FindStringSubmatch t
      | EmptyString => None
      end
  end.

End dataRegex.

(** ** Package [bufio]: the line scanner *)
Module GoBufio.

(** [MaxScanTokenSize]: the buffer of a scanner that [NewScanner] makes
    grows to this size and no further. *)
Definition MaxScanTokenSize : Z := 64 * 1024.

(** [ErrTooLong]. *)
Definition ErrTooLong : error := errorString "bufio.Scanner: token too long".

(** [dropCR] of the split function [ScanLines]: the data without the
    carriage return at its end. *)
Fixpoint dropCR (data : string) : string :=
  match data with
  | EmptyString => EmptyString
  | String c t =>
      match t with
      | EmptyString => if code c =? 13 then EmptyString else data
      | String _ _ => String c (dropCR t)
      end
  end.

(** [data[0:n]], or all of [data] if it is shorter. *)
Fixpoint first_bytes (n : nat) (data : string) : string :=
  match n, data with
  | S k, String c t => String c (first_bytes k t)
  | _, _ => EmptyString
  end.

(** A line fits when the buffer holds it together with its newline (or,
    for a last line without a newline, up to the end of the stream): it
    has fewer bytes than the buffer, a carriage return at its end counted
    in. *)
Definition fits (line : string) : bool :=
  Z.of_nat (String.length line) <? MaxScanTokenSize.

(** What the full buffer holds of a line that does not fit. *)
Definition buffered (line : string) : string :=
  first_bytes (Z.to_nat MaxScanTokenSize) line.

(** How far the scanner has come: it is reading the stream; or it has met
    a line that does not fit, has set [ErrTooLong], and its buffer is full
    of the beginning of that line; or it has handed out what the buffer
    held and is shut down, [ErrTooLong] still set. *)
Inductive Mode : Type := Reading | Full | ShutDown.

(** A [bufio.Scanner] with the split function [ScanLines] over the error
    stream of the subprocess.  [stream] is what the subprocess writes, cut
    at the newlines: the lines with the newline removed, of any length,
    the last one being what follows the last newline if anything does;
    [cursor] is the number of lines consumed so far; [stream_err] is the
    error with which reading the stream ends ([None] for [io.EOF]). *)
Record Scanner : Type := {
  stream : list string;
  cursor : nat;
  stream_err : option error;
  mode : Mode
}.

(** [Scan] followed by [Text]: the token, or [None] when [Scan] returns
    false, and the scanner afterwards.  While it reads, [Scan] hands out
    the next line if it fits; if it does not, the buffer is full without a
    newline in it and [Scan] sets [ErrTooLong] and returns false.  With
    [ErrTooLong] set, the next [Scan] reads no further: the split function
    takes the buffer for the last of the stream and hands it out, and
    every [Scan] after that returns false. *)
Definition Scan (sc : Scanner) : option string * Scanner :=
  match mode sc with
  | Reading =>
      match nth_error (stream sc) (cursor sc) with
      | Some line =>
          if fits line
          then (Some (dropCR line),
                {| stream := stream sc; cursor := S (cursor sc);
                   stream_err := stream_err sc; mode := Reading |})
          else (None,
                {| stream := stream sc; cursor := cursor sc;
                   stream_err := stream_err sc; mode := Full |})
      | None => (None, sc)
      end
  | Full =>
      match nth_error (stream sc) (cursor sc) with
      | Some line =>
          (Some (dropCR (buffered line)),
           {| stream := stream sc; cursor := S (cursor sc);
              stream_err := stream_err sc; mode := ShutDown |})
      | None =>
          (None,
           {| stream := stream sc; cursor := cursor sc;
              stream_err := stream_err sc; mode := ShutDown |})
      end
  | ShutDown => (None, sc)
  end.

(** [Err]: the first error that [Scan] met, [nil] if it was [io.EOF]. *)
Definition Err (sc : Scanner) : option error :=
  match mode sc with
  | Reading =>
      match nth_error (stream sc) (cursor sc) with
      | Some _ => None
      | None => stream_err sc
      end
  | Full | ShutDown => Some ErrTooLong
  end.

(** The lines of the stream as [Scan] hands them out: without the
    carriage return, and no more of a line than the buffer holds. *)
Definition lines (sc : Scanner) : list string :=
  map (fun line => dropCR (buffered line)) (stream sc).

(** The error on which the scanner stops, which [Err] reports once [Scan]
    has returned false: [ErrTooLong] if a line that is left does not fit,
    and otherwise the error of the stream. *)
Definition err (sc : Scanner) : option error :=
  match mode sc with
  | Reading =>
      if forallb fits (skipn (cursor sc) (stream sc))
      then stream_err sc else Some ErrTooLong
  | Full | ShutDown => Some ErrTooLong
  end.

End GoBufio.

(** ** Package [encoding/json]: values decoded into [interface{}] *)

(** The dynamic values that [json.Unmarshal] stores in an [interface{}]:
    [nil] for [null], a [bool], a [float64] for every number, a [string],
    a slice for an array and a map for an object.  The entries of a nested
    map are kept in ascending key order, the order in which [fmt] prints
    them. *)
#[local] Set Warnings "-register-all".
Inductive JSONValue : Type :=
| JNil
| JBool (b : bool)
| JFloat64 (f : float64)
| JString (s : string)
| JSlice (l : list JSONValue)
| JMap (m : list (string * JSONValue)).

(** ** Package [fmt]: the verb [%v] *)
Module GoFmt.
Section Sprint.

(** [strconv.FormatFloat(f, 'g', -1, 64)], the shortest decimal that
    reads back as [f]. *)
Variable FormatFloat_g : float64 -> string.

(** [fmt.Sprintf("%v", v)]. *)
Fixpoint Sprint_v (v : JSONValue) : string :=
  match v with
  | JNil => "<nil>"
  | JBool b => if b then "true" else "false"
  | JFloat64 f => FormatFloat_g f
  | JString s => s
  | JSlice l => "[" +:+ String.concat " " (map Sprint_v l) +:+ "]"
  | JMap m =>
      "map[" +:+
      String.concat " " (map (fun kv => let '(k, x) := kv in k +:+ ":" +:+ Sprint_v x) m)
      +:+ "]"
  end.

End Sprint.
End GoFmt.

(** ** Dynolog collector (the Stream-Tail Collector) *)

(** The error that both revisions of [Collect] return when the scanning
    loop has run out of lines without a read error. *)
Definition noLinesError : error := errorString "no dynolog JSON lines found yet".

(** *** The revision that builds Canonical Readings
    ([Collect] returns [[]GPUData]) *)
Module DynologCollector.
Section Collect.

(** [json.Unmarshal([]byte(rawJSON), &j)] with [j] a
    [map[string]interface{}]. *)
Variable json_Unmarshal : string -> gmap string JSONValue + error.
(** [strconv.FormatFloat(f, 'g', -1, 64)], which [%v] uses for a float. *)
Variable FormatFloat_g : float64 -> string.
(** The result of the conversion [int64(f)] where Go leaves it to the
    implementation: [f] is a NaN, an infinity, or out of range. *)
Variable int64_of_unrepresentable : float64 -> int64.

(** The collector; its other field, the handle [cmd] of the subprocess,
    plays no part in [Collect]. *)
Record t : Type := { scanner : GoBufio.Scanner }.

(** The conversion [int64(f)]: the fraction is discarded. *)
Definition int64_of_float64 (f : float64) : int64 :=
  let z := Float64.trunc f in
  if Float64.is_finite f && (minInt64 <=? z) && (z <=? maxInt64)
  then z else int64_of_unrepresentable f.

(** [j[key]]: [nil] for a missing key. *)
Definition index (j : gmap string JSONValue) (key : string) : JSONValue :=
  default JNil (j !! key).

Definition parseOptionalFloat (val : JSONValue) : float64 :=
  let '(f, _) := GoStrconv.ParseFloat (GoFmt.Sprint_v FormatFloat_g val) in
  f.

(** The reading built from the decoded object. *)
Definition reading (j : gmap string JSONValue) : GPUData :=
  let id := GoFmt.Sprint_v FormatFloat_g (index j "device") in
  let memUtil := parseOptionalFloat (index j "gpu_memory_utilization") in
  let memUsed :=
    int64_of_float64
      (Float64.mul (Float64.mul memUtil (Float64.of_Z 1024)) (Float64.of_Z 1024)) in
  let util := parseOptionalFloat (index j "sm_active_ratio") in
  {| ID := id;
     Name := "DCGM-GPU";
     MemoryUsedBytes := memUsed;
     GPUUtilPercent := int64_of_float64 (Float64.mul util (Float64.of_Z 100)) |}.

(** The statements after the loop. *)
Definition after_loop (sc : GoBufio.Scanner) : list GPUData * option error :=
  match GoBufio.Err sc with
  | Some err => ([], Some (wrapError "reading dynolog stderr: " err))
  | None => ([], Some noLinesError)
  end.

(** The loop [for c.scanner.Scan() { ... }]; [stdout] collects the lines
    that [fmt.Println] echoes.  [fuel] bounds the number of calls of
    [Scan]; [Collect] passes one more than the number of lines not yet
    consumed, and [Scan] returns false before that many calls. *)
Fixpoint Collect_loop (fuel : nat) (sc : GoBufio.Scanner) (stdout : list string)
  : (list GPUData * option error) * GoBufio.Scanner * list string :=
  match fuel with
  | O => (after_loop sc, sc, stdout)
  | S fuel' =>
      match GoBufio.Scan sc with
      | (None, sc') => (after_loop sc', sc', stdout)
      | (Some line, sc') =>
          let stdout' := stdout ++ [line] in
          match dataRegex.FindStringSubmatch line with
          | None => Collect_loop fuel' sc' stdout'
          | Some rawJSON =>
              match json_Unmarshal rawJSON with
              | inr err => (([], Some (wrapError "json parse error: " err)), sc', stdout')
              | inl j => (([reading j], None), sc', stdout')
              end
          end
      end
  end.

(** [Collect]: the result, the collector afterwards and the lines echoed
    to the console. *)
Definition Collect (c : t) : (list GPUData * option error) * t * list string :=
  let sc := scanner c in
  let '(r, sc', out) :=
    Collect_loop (S (length (GoBufio.stream sc) - GoBufio.cursor sc)) sc [] in
  (r, {| scanner := sc' |}, out).

End Collect.
End DynologCollector.

(** *** The revision that returns the typed record
    ([Collect] returns [DynologData]) *)

Record DynologData : Type := mkDynologData {
  DCGMError : int64;
  Device : int64;
  FP16Active : float64;
  FP32Active : float64;
  FP64Active : float64;
  GPUFreqMHz : float64;
  GPUMemoryUtil : float64;
  GPUPowerDraw : float64;
  GraphicsActiveRatio : float64;
  HbmMemBWUtil : float64;
  NvlinkRxBytes : int64;
  NvlinkTxBytes : int64;
  PcieRxBytes : int64;
  PcieTxBytes : int64;
  SmActiveRatio : float64;
  SmOccupancy : float64;
  TensorcoreActive : float64
}.

(** [DynologData{}]. *)
Definition DynologData_zero : DynologData :=
  let z := S754_zero false in
  mkDynologData 0 0 z z z z z z z z 0 0 0 0 z z z.

Module DynologCollectorTyped.
Section Collect.

(** [json.Unmarshal([]byte(m[1]), &raw)] with [raw] a [DynologData]. *)
Variable json_Unmarshal : string -> DynologData + error.

Record t : Type := { scanner : GoBufio.Scanner }.

Definition after_loop (sc : GoBufio.Scanner) : DynologData * option error :=
  match GoBufio.Err sc with
  | Some err => (DynologData_zero, Some err)
  | None => (DynologData_zero, Some noLinesError)
  end.

Fixpoint Collect_loop (fuel : nat) (sc : GoBufio.Scanner) (stdout : list string)
  : (DynologData * option error) * GoBufio.Scanner * list string :=
  match fuel with
  | O => (after_loop sc, sc, stdout)
  | S fuel' =>
      match GoBufio.Scan sc with
      | (None, sc') => (after_loop sc', sc', stdout)
      | (Some line, sc') =>
          let stdout' := stdout ++ [line] in
          match dataRegex.FindStringSubmatch line with
          | Some m1 =>
              match json_Unmarshal m1 with
              | inr err => ((DynologData_zero, Some err), sc', stdout')
              | inl raw => ((raw, None), sc', stdout')
              end
          | None => Collect_loop fuel' sc' stdout'
          end
      end
  end.

Definition Collect (c : t) : (DynologData * option error) * t * list string :=
  let sc := scanner c in
  let '(r, sc', out) :=
    Collect_loop (S (length (GoBufio.stream sc) - GoBufio.cursor sc)) sc [] in
  (r, {| scanner := sc' |}, out).

End Collect.
End DynologCollectorTyped.

(** ** Package [metric] of OpenTelemetry: instruments and observers *)
Module GoMetric.

(** [attribute.String(key, value)]. *)
Definition KeyValue : Type := string * string.

Section Instruments.

(** The instruments that a meter hands out: the values of the interfaces
    [metric.Int64ObservableGauge] and [metric.Float64ObservableGauge]. *)
Variables Int64Gauge Float64Gauge : Type.

(** [metric.Observable]: an instrument of either kind. *)
Inductive Observable : Type :=
| Int64Observable (g : Int64Gauge)
| Float64Observable (g : Float64Gauge).

(** One call of [ObserveInt64] or [ObserveFloat64] on a [metric.Observer],
    with the attributes of [metric.WithAttributes]. *)
Inductive Observation : Type :=
| ObserveInt64 (g : Int64Gauge) (v : int64) (attrs : list KeyValue)
| ObserveFloat64 (g : Float64Gauge) (v : float64) (attrs : list KeyValue).

(** A [metric.Observer]: the calls made on it so far, oldest first. *)
Definition Observer : Type := list Observation.

Definition instrument (o : Observation) : Observable :=
  match o with
  | ObserveInt64 g _ _ => Int64Observable g
  | ObserveFloat64 g _ _ => Float64Observable g
  end.

Definition attributes (o : Observation) : list KeyValue :=
  match o with
  | ObserveInt64 _ _ attrs | ObserveFloat64 _ _ attrs => attrs
  end.

(** A [metric.Callback] that closes over a collector of type [C]: a run
    returns its error, leaves the collector changed, has made its calls on
    the observer and has printed lines on the console. *)
Definition Callback (C : Type) : Type :=
  C -> Observer -> option error * C * Observer * list string.

(** The arguments of [RegisterCallback]: the function and the instruments
    that it may observe. *)
Record Registration (C : Type) : Type := {
  f : Callback C;
  instruments : list Observable
}.

(** [metric.Meter], an interface: its methods as [main.go] calls them.
    [RegisterCallback] also returns a handle, which the callers drop. *)
Record Meter : Type := {
  Int64ObservableGauge : string -> Int64Gauge * option error;
  Float64ObservableGauge : string -> Float64Gauge * option error;
  RegisterCallback : forall C : Type, Registration C -> option error
}.

End Instruments.

Arguments Int64Observable {Int64Gauge Float64Gauge} g.
Arguments Float64Observable {Int64Gauge Float64Gauge} g.
Arguments ObserveInt64 {Int64Gauge Float64Gauge} g v attrs.
Arguments ObserveFloat64 {Int64Gauge Float64Gauge} g v attrs.
Arguments instrument {Int64Gauge Float64Gauge} o.
Arguments attributes {Int64Gauge Float64Gauge} o.
Arguments f {Int64Gauge Float64Gauge C} r.
Arguments instruments {Int64Gauge Float64Gauge C} r.
Arguments Int64ObservableGauge {Int64Gauge Float64Gauge} m name.
Arguments Float64ObservableGauge {Int64Gauge Float64Gauge} m name.
Arguments RegisterCallback {Int64Gauge Float64Gauge} m {C} r.

End GoMetric.

(** ** The [Collector] interface and its two implementations *)

(** [Collect(context.Context) ([]GPUData, error)]: a call returns its
    result, leaves the collector changed and may print on the console. *)
Class Collector (C : Type) : Type :=
  Collect : C -> (list GPUData * option error) * C * list string.

(** [NvidiaSMICollector], a struct without fields. *)
Inductive NvidiaSMICollector_t : Type := NvidiaSMICollector_zero.

Section Implementations.

Variable json_Unmarshal : string -> gmap string JSONValue + error.
Variable FormatFloat_g : float64 -> string.
Variable int64_of_unrepresentable : float64 -> int64.
Variable xml_Unmarshal : string -> SmiLog.t + error.
(** What the command [nvidia-smi -q -x] returns when [Collect] runs it. *)
Variable cmd_Output : string * option error.

#[export] Instance DynologCollector_Collector : Collector DynologCollector.t :=
  DynologCollector.Collect json_Unmarshal FormatFloat_g int64_of_unrepresentable.

#[export] Instance NvidiaSMICollector_Collector : Collector NvidiaSMICollector_t :=
  fun c => (NvidiaSMICollector.Collect xml_Unmarshal cmd_Output, c, []).

End Implementations.

(** ** Meter and gauges *)

Section Gauges.

Variables Int64Gauge Float64Gauge : Type.

Record meterWithGauges : Type := {
  meter : GoMetric.Meter Int64Gauge Float64Gauge;
  memGauge : Int64Gauge;
  utilGauge : Int64Gauge
}.

(** [newMeterWithGauges]; on an error the caller does not look at the
    struct, so the result is a sum. *)
Definition newMeterWithGauges (m : GoMetric.Meter Int64Gauge Float64Gauge)
  : meterWithGauges + error :=
  let '(memG, err) := GoMetric.Int64ObservableGauge m "gpu.memory_used_bytes" in
  match err with
  | Some err => inr err
  | None =>
      let '(utilG, err) := GoMetric.Int64ObservableGauge m "gpu.utilization_percent" in
      match err with
      | Some err => inr err
      | None => inl {| meter := m; memGauge := memG; utilGauge := utilG |}
      end
  end.

(** The body of the loop [for _, g := range gpuData] of the callback. *)
Definition observe_reading (m : meterWithGauges)
    (obs : GoMetric.Observer Int64Gauge Float64Gauge) (g : GPUData)
  : GoMetric.Observer Int64Gauge Float64Gauge :=
  let attrs := [("gpu_id", ID g); ("gpu_name", Name g)] in
  let obs := obs ++ [GoMetric.ObserveInt64 (memGauge m) (MemoryUsedBytes g) attrs] in
  obs ++ [GoMetric.ObserveInt64 (utilGauge m) (GPUUtilPercent g) attrs].

(** The function literal that [registerCallback] registers.  Its call of
    [slog.Debug] prints nothing: the level of the default logger, which
    the program never changes, is [Info]. *)
Definition registerCallback_func {C : Type} `{Collector C} (m : meterWithGauges)
  : GoMetric.Callback Int64Gauge Float64Gauge C :=
  fun c obs =>
    let '((gpuData, err), c', stdout) := Collect c in
    match err with
    | Some err => (Some err, c', obs, stdout)
    | None => (None, c', fold_left (observe_reading m) gpuData obs, stdout)
    end.

(** The arguments that [registerCallback] passes to [RegisterCallback]. *)
Definition registerCallback_args {C : Type} `{Collector C} (m : meterWithGauges)
  : GoMetric.Registration Int64Gauge Float64Gauge C :=
  {| GoMetric.f := registerCallback_func m;
     GoMetric.instruments :=
       [GoMetric.Int64Observable (memGauge m); GoMetric.Int64Observable (utilGauge m)] |}.

(** [registerCallback]; the collector is the one that the registered
    function closes over and reads at every run. *)
Definition registerCallback {C : Type} `{Collector C} (m : meterWithGauges) (c : C)
  : option error :=
  GoMetric.RegisterCallback (meter m) (registerCallback_args m).

End Gauges.

Arguments meter {Int64Gauge Float64Gauge} m.
Arguments memGauge {Int64Gauge Float64Gauge} m.
Arguments utilGauge {Int64Gauge Float64Gauge} m.
Arguments newMeterWithGauges {Int64Gauge Float64Gauge} m.
Arguments observe_reading {Int64Gauge Float64Gauge} m obs g.
Arguments registerCallback_func {Int64Gauge Float64Gauge C _} m c obs.
Arguments registerCallback_args {Int64Gauge Float64Gauge C _} m.
Arguments registerCallback {Int64Gauge Float64Gauge C _} m c.

(** ** Package [fmt]: the verb [%d] *)

(** The byte of a decimal digit. *)
Definition digit_byte (d : Z) : ascii := ascii_of_N (Z.to_N (48 + d)).

(** The digit loop of [fmtInteger] in base 10: the digits of [u] are
    written from the last to the first in front of [buf].  [fuel] bounds
    the number of digits; a [uint64] has at most twenty. *)
Fixpoint fmtInteger_loop (fuel : nat) (u : Z) (buf : string) : string :=
  match fuel with
  | O => buf
  | S fuel' =>
      if 10 <=? u
      then fmtInteger_loop fuel' (u / 10) (String (digit_byte (u mod 10)) buf)
      else String (digit_byte u) buf
  end.

(** [fmt.Sprintf("%d", i)] for an [int64]. *)
Definition Sprintf_d (i : int64) : string :=
  let negative := i <? 0 in
  let u := if negative then - i else i in
  let s := fmtInteger_loop 20 u "" in
  if negative then String "-" s else s.

(** ** The callback of the revision that returns the typed record *)

Section DynologGauges.

Variables Int64Gauge Float64Gauge : Type.
Variable json_Unmarshal : string -> DynologData + error.

(** The function literal that [registerDynologCallback] registers and the
    instruments that it passes along; the errors of the sixteen gauge
    creations are dropped. *)
Definition registerDynologCallback_args (m : GoMetric.Meter Int64Gauge Float64Gauge)
  : GoMetric.Registration Int64Gauge Float64Gauge DynologCollectorTyped.t :=
  let '(dcgmErrGauge, _) := GoMetric.Int64ObservableGauge m "dcgm.error" in
  let '(nvlinkRxGauge, _) := GoMetric.Int64ObservableGauge m "dcgm.nvlink_rx_bytes" in
  let '(nvlinkTxGauge, _) := GoMetric.Int64ObservableGauge m "dcgm.nvlink_tx_bytes" in
  let '(pcieRxGauge, _) := GoMetric.Int64ObservableGauge m "dcgm.pcie_rx_bytes" in
  let '(pcieTxGauge, _) := GoMetric.Int64ObservableGauge m "dcgm.pcie_tx_bytes" in
  let '(fp16Gauge, _) := GoMetric.Float64ObservableGauge m "dcgm.fp16_active_ratio" in
  let '(fp32Gauge, _) := GoMetric.Float64ObservableGauge m "dcgm.fp32_active_ratio" in
  let '(fp64Gauge, _) := GoMetric.Float64ObservableGauge m "dcgm.fp64_active_ratio" in
  let '(freqGauge, _) := GoMetric.Float64ObservableGauge m "dcgm.gpu_frequency_mhz" in
  let '(memUtilGauge, _) := GoMetric.Float64ObservableGauge m "dcgm.gpu_memory_util" in
  let '(powerGauge, _) := GoMetric.Float64ObservableGauge m "dcgm.gpu_power_draw_watts" in
  let '(gfxRatioGauge, _) :=
    GoMetric.Float64ObservableGauge m "dcgm.graphics_engine_active_ratio" in
  let '(hbmGauge, _) := GoMetric.Float64ObservableGauge m "dcgm.hbm_mem_bw_util" in
  let '(smActiveGauge, _) := GoMetric.Float64ObservableGauge m "dcgm.sm_active_ratio" in
  let '(smOccGauge, _) := GoMetric.Float64ObservableGauge m "dcgm.sm_occupancy_ratio" in
  let '(tensorGauge, _) :=
    GoMetric.Float64ObservableGauge m "dcgm.tensorcore_active_ratio" in
  {| GoMetric.f := fun c obs =>
       let '((data, err), c', stdout) := DynologCollectorTyped.Collect json_Unmarshal c in
       match err with
       | Some err => (Some err, c', obs, stdout)
       | None =>
           let attrs := [("gpu_id", Sprintf_d (Device data))] in
           (None, c',
            obs ++
            [ GoMetric.ObserveInt64 dcgmErrGauge (DCGMError data) attrs;
              GoMetric.ObserveInt64 nvlinkRxGauge (NvlinkRxBytes data) attrs;
              GoMetric.ObserveInt64 nvlinkTxGauge (NvlinkTxBytes data) attrs;
              GoMetric.ObserveInt64 pcieRxGauge (PcieRxBytes data) attrs;
              GoMetric.ObserveInt64 pcieTxGauge (PcieTxBytes data) attrs;
              GoMetric.ObserveFloat64 fp16Gauge (FP16Active data) attrs;
              GoMetric.ObserveFloat64 fp32Gauge (FP32Active data) attrs;
              GoMetric.ObserveFloat64 fp64Gauge (FP64Active data) attrs;
              GoMetric.ObserveFloat64 freqGauge (GPUFreqMHz data) attrs;
              GoMetric.ObserveFloat64 memUtilGauge (GPUMemoryUtil data) attrs;
              GoMetric.ObserveFloat64 powerGauge (GPUPowerDraw data) attrs;
              GoMetric.ObserveFloat64 gfxRatioGauge (GraphicsActiveRatio data) attrs;
              GoMetric.ObserveFloat64 hbmGauge (HbmMemBWUtil data) attrs;
              GoMetric.ObserveFloat64 smActiveGauge (SmActiveRatio data) attrs;
              GoMetric.ObserveFloat64 smOccGauge (SmOccupancy data) attrs;
              GoMetric.ObserveFloat64 tensorGauge (TensorcoreActive data) attrs ],
            stdout)
       end;
     GoMetric.instruments :=
       [ GoMetric.Int64Observable dcgmErrGauge; GoMetric.Int64Observable nvlinkRxGauge;
         GoMetric.Int64Observable nvlinkTxGauge; GoMetric.Int64Observable pcieRxGauge;
         GoMetric.Int64Observable pcieTxGauge;
         GoMetric.Float64Observable fp16Gauge; GoMetric.Float64Observable fp32Gauge;
         GoMetric.Float64Observable fp64Gauge; GoMetric.Float64Observable freqGauge;
         GoMetric.Float64Observable memUtilGauge;
         GoMetric.Float64Observable powerGauge; GoMetric.Float64Observable gfxRatioGauge;
         GoMetric.Float64Observable hbmGauge; GoMetric.Float64Observable smActiveGauge;
         GoMetric.Float64Observable smOccGauge;
         GoMetric.Float64Observable tensorGauge ] |}.

Definition registerDynologCallback (m : GoMetric.Meter Int64Gauge Float64Gauge)
    (c : DynologCollectorTyped.t) : option error :=
  GoMetric.RegisterCallback m (registerDynologCallback_args m).

End DynologGauges.

Arguments registerDynologCallback_args {Int64Gauge Float64Gauge} json_Unmarshal m.
Arguments registerDynologCallback {Int64Gauge Float64Gauge} json_Unmarshal m c.

(** ** Configuration: package [viper] and [loadConfig] *)
Module GoViper.

(** The global Viper as far as [main] sets it up: the defaults and the
    environment variables bound to keys.  Nothing in the program sets an
    override, binds a flag, reads a configuration file or turns on
    [AutomaticEnv]. *)
Record Viper : Type := {
  defaults : gmap string string;
  env : gmap string (list string)
}.

Definition New : Viper := {| defaults := ∅; env := ∅ |}.

(** Keys are case-insensitive: Viper stores them in lower case.  The keys
    of [main.go] are ASCII. *)
Fixpoint ToLower (s : string) : string :=
  match s with
  | EmptyString => EmptyString
  | String c t =>
      let b := code c in
      String (if (65 <=? b) && (b <=? 90) then ascii_of_N (Z.to_N (b + 32)) else c)
             (ToLower t)
  end.

Definition SetDefault (key value : string) (v : Viper) : Viper :=
  {| defaults := <[ ToLower key := value ]> (defaults v); env := env v |}.

(** [BindEnv(key, envkey)]. *)
Definition BindEnv (key envkey : string) (v : Viper) : Viper :=
  {| defaults := defaults v;
     env := <[ ToLower key := default [] (env v !! ToLower key) ++ [envkey] ]> (env v) |}.

(** [getEnv]: an empty variable counts as unset ([AllowEmptyEnv] is
    off). *)
Definition getEnv (environ : gmap string string) (envkey : string) : option string :=
  match environ !! envkey with
  | Some val => if String.eqb val "" then None else Some val
  | None => None
  end.

Fixpoint first_env (environ : gmap string string) (envkeys : list string) : option string :=
  match envkeys with
  | [] => None
  | envkey :: rest =>
      match getEnv environ envkey with
      | Some val => Some val
      | None => first_env environ rest
      end
  end.

(** [GetString]: the bound environment variables come before the
    default; a key without a value reads as the empty string. *)
Definition GetString (environ : gmap string string) (v : Viper) (key : string) : string :=
  match first_env environ (default [] (env v !! ToLower key)) with
  | Some val => val
  | None => default "" (defaults v !! ToLower key)
  end.

End GoViper.

Record Config : Type := {
  ServiceName : string;
  HoneycombKey : string;
  MetricInterval : int64       (* a [time.Duration], in nanoseconds *)
}.

(** [time.Second]. *)
Definition Second : int64 := 1000000000.

(** [loadConfig], reading the process environment [environ] through the
    global Viper. *)
Definition loadConfig (environ : gmap string string) (v : GoViper.Viper) : Config :=
  {| ServiceName := GoViper.GetString environ v "service_name";
     HoneycombKey := GoViper.GetString environ v "honeycomb_key";
     MetricInterval := mul64 15 Second |}.

(** The global Viper after the first two statements of [main]. *)
Definition main_viper : GoViper.Viper :=
  GoViper.BindEnv "honeycomb_key" "HONEYCOMB_API_KEY"
    (GoViper.SetDefault "service_name" "gpu-mon" GoViper.New).

(** ** Set-up and shutdown of the metrics pipeline *)

(** [context.Context] as far as the runners use it: whether the channel
    of [ctx.Done()] is ever closed.  [context.Background()] is never
    cancelled and its [Done] channel is nil. *)
Record Context : Type := { Done_closes : bool }.

Definition Background : Context := {| Done_closes := false |}.

(** What a run does to the world besides collecting: the provider that it
    installs, the shutdown of that provider, the child process that it
    starts and its log records. *)
Inductive event : Type :=
| SetMeterProvider (serviceName endpoint : string) (headers : list (string * string))
                   (interval : int64)
| ProviderShutdown
| CmdStart (name : string) (args : list string)
| SlogError (msg : string) (err : error)
| SlogInfo (msg : string).

(** A call either returns or waits for ever. *)
Inductive outcome : Type :=
| Returns (err : option error)
| BlocksForever.

Section Runners.

Variables Int64Gauge Float64Gauge : Type.

(** The OpenTelemetry SDK as the runners meet it: whether the resource
    and the exporter can be created, what [prov.Shutdown] returns, and the
    meter that [otel.Meter] hands out once the provider is installed. *)
Record SDK : Type := {
  resource_New : string -> option error;
  otlpmetricgrpc_New : string -> list (string * string) -> option error;
  prov_Shutdown : option error;
  otel_Meter : string -> GoMetric.Meter Int64Gauge Float64Gauge
}.

Variable sdk : SDK.

(** [initProvider]: the events of the call and either the events of the
    shutdown function that it returns or its error. *)
Definition initProvider (cfg : Config) : list event * (list event + error) :=
  match resource_New sdk (ServiceName cfg) with
  | Some err => ([], inr err)
  | None =>
      let headers := [("x-honeycomb-team", HoneycombKey cfg)] in
      match otlpmetricgrpc_New sdk "api.honeycomb.io:443" headers with
      | Some err => ([], inr err)
      | None =>
          ([SetMeterProvider (ServiceName cfg) "api.honeycomb.io:443" headers
              (MetricInterval cfg)],
           inl (ProviderShutdown ::
                match prov_Shutdown sdk with
                | Some err => [SlogError "shutdown error" err]
                | None => []
                end))
      end
  end.

(** [<-ctx.Done(); return nil] under a deferred [shutdown]. *)
Definition await_Done (ctx : Context) (trace shutdown : list event) : list event * outcome :=
  if Done_closes ctx then (trace ++ shutdown, Returns None) else (trace, BlocksForever).

(** [runCollector] of the revision with the [Collector] interface. *)
Definition runCollector {C : Type} `{Collector C} (ctx : Context) (collector : C)
    (cfg : Config) : list event * outcome :=
  match initProvider cfg with
  | (trace, inr err) => (trace, Returns (Some (wrapError "init error: " err)))
  | (trace, inl shutdown) =>
      let m := otel_Meter sdk "gpu-metrics" in
      match newMeterWithGauges m with
      | inr err =>
          (trace ++ shutdown, Returns (Some (wrapError "gauge creation error: " err)))
      | inl mwg =>
          match registerCallback mwg collector with
          | Some err =>
              (trace ++ shutdown,
               Returns (Some (wrapError "callback registration error: " err)))
          | None =>
              await_Done ctx
                (trace ++ [SlogInfo "Metrics collection running; Ctrl+C to exit."])
                shutdown
          end
      end
  end.

Variable xml_Unmarshal : string -> SmiLog.t + error.
Variable cmd_Output : string * option error.

(** [runNvidiaSmiCollector] of the other revision; the function that it
    registers creates its collector at every run. *)
Definition runNvidiaSmiCollector (ctx : Context) (cfg : Config) : list event * outcome :=
  match initProvider cfg with
  | (trace, inr err) => (trace, Returns (Some (wrapError "init error: " err)))
  | (trace, inl shutdown) =>
      let m := otel_Meter sdk "gpu-metrics" in
      match newMeterWithGauges m with
      | inr err =>
          (trace ++ shutdown, Returns (Some (wrapError "gauge creation error: " err)))
      | inl mwg =>
          match GoMetric.RegisterCallback m
                  (registerCallback_args
                     (H := NvidiaSMICollector_Collector xml_Unmarshal cmd_Output) mwg) with
          | Some err =>
              (trace ++ shutdown,
               Returns (Some (wrapError "callback registration error: " err)))
          | None =>
              await_Done ctx
                (trace ++ [SlogInfo "nvidia-smi metrics collection running; Ctrl+C to exit."])
                shutdown
          end
      end
  end.

Variable json_Unmarshal_typed : string -> DynologData + error.

(** [runDynologCollector] of that revision. *)
Definition runDynologCollector (ctx : Context) (cfg : Config) (dc : DynologCollectorTyped.t)
  : list event * outcome :=
  match initProvider cfg with
  | (trace, inr err) => (trace, Returns (Some (wrapError "init error: " err)))
  | (trace, inl shutdown) =>
      let m := otel_Meter sdk "gpu-metrics" in
      match registerDynologCallback json_Unmarshal_typed m dc with
      | Some err =>
          (trace ++ shutdown,
           Returns (Some (wrapError "callback registration error: " err)))
      | None =>
          await_Done ctx
            (trace ++ [SlogInfo "dynolog metrics collection running; Ctrl+C to exit."])
            shutdown
      end
  end.

End Runners.

Arguments resource_New {Int64Gauge Float64Gauge} s name.
Arguments otlpmetricgrpc_New {Int64Gauge Float64Gauge} s endpoint headers.
Arguments prov_Shutdown {Int64Gauge Float64Gauge} s.
Arguments otel_Meter {Int64Gauge Float64Gauge} s name.
Arguments initProvider {Int64Gauge Float64Gauge} sdk cfg.
Arguments runCollector {Int64Gauge Float64Gauge} sdk {C _} ctx collector cfg.
Arguments runNvidiaSmiCollector {Int64Gauge Float64Gauge} sdk xml_Unmarshal cmd_Output ctx cfg.
Arguments runDynologCollector {Int64Gauge Float64Gauge} sdk json_Unmarshal_typed ctx cfg dc.

(** ** The subprocess of the Dynolog collector and the commands *)

(** What the operating system does with the child: whether its error
    stream can be piped, whether it starts, what it then writes on that
    stream, cut at the newlines, and the error with which reading the
    stream ends. *)
Record Subprocess : Type := {
  StderrPipe_err : option error;
  Start_err : option error;
  stderr : list string;
  stderr_err : option error
}.

(** [bufio.NewScanner(stderr)]. *)
Definition NewScanner (p : Subprocess) : GoBufio.Scanner :=
  {| GoBufio.stream := stderr p; GoBufio.cursor := 0;
     GoBufio.stream_err := stderr_err p; GoBufio.mode := GoBufio.Reading |}.

(** The arguments of the child in the two revisions. *)
Definition dynolog_args : list string :=
  ["--enable_gpu_monitor"; "--dcgm_lib_path=/lib/x86_64-linux-gnu/libdcgm.so.4"; "--use_JSON"].

Definition dynolog_args_typed : list string :=
  dynolog_args ++ ["--dcgm_reporting_interval_s"; "1"].

(** [Start]: the events of the call and the scanner that the collector
    holds afterwards, or the error; on an error the scanner stays nil and
    the callers give the collector up. *)
Definition Start (args : list string) (p : Subprocess)
  : list event * (GoBufio.Scanner + error) :=
  match StderrPipe_err p with
  | Some err => ([], inr err)
  | None =>
      match Start_err p with
      | Some err => ([], inr err)
      | None => ([CmdStart "dynolog" args], inl (NewScanner p))
      end
  end.

Section Commands.

Variables Int64Gauge Float64Gauge : Type.
Variable sdk : SDK Int64Gauge Float64Gauge.
Variable environ : gmap string string.
Variable json_Unmarshal : string -> gmap string JSONValue + error.
Variable FormatFloat_g : float64 -> string.
Variable int64_of_unrepresentable : float64 -> int64.
Variable xml_Unmarshal : string -> SmiLog.t + error.
Variable cmd_Output : string * option error.
Variable json_Unmarshal_typed : string -> DynologData + error.

(** [RunE] of [nvidiaSmiCmd], in the revision with the interface and in
    the other one. *)
Definition nvidiaSmiCmd_RunE : list event * outcome :=
  let ctx := Background in
  let cfg := loadConfig environ main_viper in
  runCollector (H := NvidiaSMICollector_Collector xml_Unmarshal cmd_Output)
    sdk ctx NvidiaSMICollector_zero cfg.

Definition nvidiaSmiCmd_RunE_typed : list event * outcome :=
  let ctx := Background in
  runNvidiaSmiCollector sdk xml_Unmarshal cmd_Output ctx (loadConfig environ main_viper).

(** [RunE] of [dynologCmd], in both revisions. *)
Definition dynologCmd_RunE (p : Subprocess) : list event * outcome :=
  let ctx := Background in
  let cfg := loadConfig environ main_viper in
  match Start dynolog_args p with
  | (trace, inr err) => (trace, Returns (Some (wrapError "start dynolog: " err)))
  | (trace, inl scanner) =>
      let '(trace', out) :=
        runCollector
          (H := DynologCollector_Collector json_Unmarshal FormatFloat_g
                  int64_of_unrepresentable)
          sdk ctx {| DynologCollector.scanner := scanner |} cfg in
      (trace ++ trace', out)
  end.

Definition dynologCmd_RunE_typed (p : Subprocess) : list event * outcome :=
  let ctx := Background in
  let cfg := loadConfig environ main_viper in
  match Start dynolog_args_typed p with
  | (trace, inr err) => (trace, Returns (Some (wrapError "start dynolog: " err)))
  | (trace, inl scanner) =>
      let '(trace', out) :=
        runDynologCollector sdk json_Unmarshal_typed ctx cfg
          {| DynologCollectorTyped.scanner := scanner |} in
      (trace ++ trace', out)
  end.

End Commands.

(** ** Vocabulary of the properties *)

Fixpoint string_forall (p : ascii -> bool) (s : string) : bool :=
  match s with
  | EmptyString => true
  | String c t => p c && string_forall p t
  end.

Definition is_digit_byte (c : ascii) : bool := (48 <=? code c) && (code c <=? 57).

Definition is_sign_byte (c : ascii) : bool := (code c =? 43) || (code c =? 45).

(** A decimal integer as it is written: an optional sign and at least one
    decimal digit. *)
Definition is_decimal_integer (s : string) : bool :=
  match s with
  | EmptyString => false
  | String c t =>
      if is_sign_byte c
      then negb (String.eqb t "") && string_forall is_digit_byte t
      else string_forall is_digit_byte s
  end.

(** The number that a string of digits denotes, after the digits [n]. *)
Fixpoint digits_value (s : string) (n : Z) : Z :=
  match s with
  | EmptyString => n
  | String c t => digits_value t (n * 10 + (code c - 48))
  end.

(** The integer that a decimal integer denotes. *)
Definition int_value (s : string) : Z :=
  match s with
  | EmptyString => 0
  | String c t =>
      if code c =? 45 then - digits_value t 0
      else if code c =? 43 then digits_value t 0
      else digits_value s 0
  end.

(** The numeric part of a field: what is left of it once the unit has been
    deleted and the white space around trimmed. *)
Definition numeric_part (unit val : string) : string :=
  GoStrings.TrimSpace (GoStrings.ReplaceAll val unit).

(** A byte that is neither white space nor the last byte of the encoding
    of a white space rune stops the trimming, in both directions. *)
Definition solid (c : ascii) : bool := negb (GoStrings.asciiSpace c) && (code c <? 128).

(** The synthetic device of the round-trip property. *)
Definition test_gpu : SmiLog.gpu :=
  {| SmiLog.ID := "0";
     SmiLog.ProductName := "Test-GPU";
     SmiLog.FBMemory := {| SmiLog.Used := "1024 MiB" |};
     SmiLog.Utilization := {| SmiLog.GPUUtil := "42%" |} |}.

(** A device whose utilization field is a number beyond [int64]. *)
Definition overflowing_gpu : SmiLog.gpu :=
  {| SmiLog.ID := "0";
     SmiLog.ProductName := "Test-GPU";
     SmiLog.FBMemory := {| SmiLog.Used := "1024 MiB" |};
     SmiLog.Utilization := {| SmiLog.GPUUtil := "9223372036854775808 %" |} |}.

(** The scanner after [n] more calls of [Scan]. *)
Fixpoint advance (sc : GoBufio.Scanner) (n : nat) : GoBufio.Scanner :=
  match n with
  | O => sc
  | S k => advance (snd (GoBufio.Scan sc)) k
  end.

(** The lines that [Scan] hands out, call after call, until it returns
    false, in at most [fuel] calls. *)
Fixpoint handed_out (fuel : nat) (sc : GoBufio.Scanner) : list string :=
  match fuel with
  | O => []
  | S k =>
      match GoBufio.Scan sc with
      | (Some line, sc') => line :: handed_out k sc'
      | (None, _) => []
      end
  end.

(** The lines that the scanner has yet to hand out before [Scan] returns
    false: on a stream without a line too long for the buffer, the lines
    that are left. *)
Definition pending (sc : GoBufio.Scanner) : list string :=
  handed_out (length (GoBufio.stream sc) - GoBufio.cursor sc) sc.


Definition matches (line : string) : bool :=
  match dataRegex.FindStringSubmatch line with Some _ => true | None => false end.

(** The lines before the first one that matches [dataRegex], and that line
    with its JSON payload if there is one. *)
Fixpoint split_first_match (ls : list string) : list string * option (string * string) :=
  match ls with
  | [] => ([], None)
  | line :: rest =>
      match dataRegex.FindStringSubmatch line with
      | Some payload => ([], Some (line, payload))
      | None =>
          let '(noise, hit) := split_first_match rest in (line :: noise, hit)
      end
  end.

(** What [Collect] returns for the payload of a matching line, in the
    revision that builds readings and in the one that returns the typed
    record. *)
Definition from_payload (json_Unmarshal : string -> gmap string JSONValue + error)
    (FormatFloat_g : float64 -> string) (int64_of_unrepresentable : float64 -> int64)
    (rawJSON : string) : list GPUData * option error :=
  match json_Unmarshal rawJSON with
  | inr err => ([], Some (wrapError "json parse error: " err))
  | inl j => ([DynologCollector.reading FormatFloat_g int64_of_unrepresentable j], None)
  end.

Definition from_payload_typed (json_Unmarshal : string -> DynologData + error)
    (m1 : string) : DynologData * option error :=
  match json_Unmarshal m1 with
  | inr err => (DynologData_zero, Some err)
  | inl raw => (raw, None)
  end.

(** A value that does not denote a number: anything but a [float64] and a
    string that [ParseFloat] accepts. *)
Definition non_numeric (v : JSONValue) : bool :=
  match v with
  | JFloat64 _ => false
  | JString s =>
      match GoStrconv.ParseFloat s with
      | (_, Some (NumError _ _ ErrSyntax)) => true
      | _ => false
      end
  | JNil | JBool _ | JSlice _ | JMap _ => true
  end.

(** The number that a field denotes: a [float64] that the shortest
    printer gives back unchanged, or a quoted number. *)
Definition denotes (FormatFloat_g : float64 -> string) (v : JSONValue) (x : float64) : Prop :=
  match v with
  | JFloat64 f => f = x /\ GoStrconv.ParseFloat (FormatFloat_g f) = (f, None)
  | JString s => GoStrconv.ParseFloat s = (x, None)
  | _ => False
  end.

(** The byte of the double quote and a payload as dynolog prints it. *)
Definition dq : string := String (ascii_of_nat 34) EmptyString.

Definition sample_payload : string :=
  "{" +:+ dq +:+ "device" +:+ dq +:+ ":0,"
  +:+ dq +:+ "gpu_memory_utilization" +:+ dq +:+ ":0.25,"
  +:+ dq +:+ "sm_active_ratio" +:+ dq +:+ ":" +:+ dq +:+ "0.5" +:+ dq +:+ "}".

Definition sample_line : string := "I0101 12:00:00 Logger.cpp:42] data = " +:+ sample_payload.

(** Test doubles for the library: a decoder that knows [sample_payload],
    and a float printer that knows the numbers in it. *)
Definition sample_object : gmap string JSONValue :=
  <[ "device" := JFloat64 (S754_zero false) ]>
  (<[ "gpu_memory_utilization" := JFloat64 (S754_finite false 4503599627370496 (-54)) ]>
  (<[ "sm_active_ratio" := JString "0.5" ]> ∅)).

Definition sample_Unmarshal (s : string) : gmap string JSONValue + error :=
  if String.eqb s sample_payload then inl sample_object
  else inr (errorString "unexpected end of JSON input").

Definition sample_FormatFloat_g (f : float64) : string :=
  match f with
  | S754_zero false => "0"
  | S754_finite false 4503599627370496 (-54) => "0.25"
  | _ => "NaN"
  end.

Definition sample_indefinite (f : float64) : int64 := minInt64.

Definition sample_data : DynologData :=
  let z := S754_zero false in
  mkDynologData 0 0 z z z z (S754_finite false 4503599627370496 (-54)) z z z 0 0 0 0
    (S754_finite false 4503599627370496 (-53)) z z.

Definition sample_Unmarshal_typed (s : string) : DynologData + error :=
  if String.eqb s sample_payload then inl sample_data
  else inr (errorString "unexpected end of JSON input").

Definition sample_scanner : GoBufio.Scanner :=
  {| GoBufio.stream := ["noise..."; sample_line; "more noise"];
     GoBufio.cursor := 0;
     GoBufio.stream_err := None;
     GoBufio.mode := GoBufio.Reading |}.

(** A line of [n] bytes that does not match, and a stream whose first
    line fills the buffer of the scanner and whose second line matches. *)
Fixpoint filler (n : nat) : string :=
  match n with
  | O => EmptyString
  | S k => String "x" (filler k)
  end.

Definition too_long_line : string := filler (Z.to_nat GoBufio.MaxScanTokenSize).

Definition too_long_scanner : GoBufio.Scanner :=
  {| GoBufio.stream := [too_long_line; sample_line];
     GoBufio.cursor := 0;
     GoBufio.stream_err := None;
     GoBufio.mode := GoBufio.Reading |}.


(** The bytes with which a text that [ParseFloat] accepts can begin. *)
Definition float_start (c : ascii) : bool :=
  is_sign_byte c || is_digit_byte c
  || (code c =? 46) || (code c =? 95)
  || (code c =? 105) || (code c =? 73) || (code c =? 110) || (code c =? 78).

(** An object without any of the fields that [Collect] reads. *)
Definition empty_Unmarshal (s : string) : gmap string JSONValue + error := inl ∅.

(** *** Rounding *)

(** Whether right shifts have dropped a non-zero bit. *)
Definition inexact (mrs : shr_record) : bool := shr_r mrs || shr_s mrs.

(** [y] is [x] after [k] right shifts: the quotient by [2^k], and bits
    shifted out are recorded as inexact only if they are not all zero. *)
Definition shifted (k : Z) (x y : shr_record) : Prop :=
  shr_m y = shr_m x / 2 ^ k
  /\ (inexact y = true -> inexact x = true \/ ~ (2 ^ k | shr_m x)).

(** A finite, non-negative number that is at most the integer [B]. *)
Definition bounded_by (B : Z) (x : float64) : bool :=
  match x with
  | S754_zero _ => true
  | S754_finite false m e => (e <=? 0) && (Zpos m <=? B * 2 ^ (- e))
  | _ => false
  end.

(** *** The invariants of the Canonical Reading *)

Definition reading_invariant (r : GPUData) : Prop :=
  0 <= MemoryUsedBytes r /\ 0 <= GPUUtilPercent r <= 100.

(** A memory field that does not parse, or whose number of MiB is not
    negative and gives a byte count within [int64]. *)
Definition memory_field_ok (val : string) : Prop :=
  let n := numeric_part "MiB" val in
  is_decimal_integer n = true -> 0 <= int_value n < 2 ^ 43.

(** A utilization field that is a percentage, or a syntax error. *)
Definition utilization_field_ok (val : string) : Prop :=
  let n := numeric_part "%" val in
  (is_decimal_integer n = true /\ 0 <= int_value n <= 100)
  \/ snd (GoStrconv.ParseInt n) = Some (NumError "ParseInt" n ErrSyntax).

(** A ratio field that is missing or not a number, or denotes a number
    between zero and one. *)
Definition ratio_field_ok (FormatFloat_g : float64 -> string) (v : JSONValue) : Prop :=
  non_numeric v = true
  \/ exists x : float64, denotes FormatFloat_g v x /\ bounded_by 1 x = true.

(** A device that reports more than it can and an object that does so. *)
Definition hot_gpu : SmiLog.gpu :=
  {| SmiLog.ID := "0";
     SmiLog.ProductName := "Test-GPU";
     SmiLog.FBMemory := {| SmiLog.Used := "-1 MiB" |};
     SmiLog.Utilization := {| SmiLog.GPUUtil := "150 %" |} |}.

Definition hot_object : gmap string JSONValue :=
  <[ "device" := JString "0" ]>
  (<[ "gpu_memory_utilization" := JString "-1" ]>
  (<[ "sm_active_ratio" := JString "1.5" ]> ∅)).

(** Objects whose activity ratio is a quoted decimal fraction. *)
Definition ratio_object (ratio : string) : gmap string JSONValue :=
  <[ "device" := JString "0" ]> (<[ "sm_active_ratio" := JString ratio ]> ∅).

(** *** Vocabulary of the further properties *)

(** A string of ASCII white space, and one of the white space of the
    pattern. *)
Definition blank (s : string) : bool := string_forall GoStrings.asciiSpace s.

Definition perl_blank (s : string) : bool := string_forall dataRegex.perl_space s.

(** A string without an opening brace. *)
Definition no_brace (s : string) : bool := string_forall (fun c => negb (code c =? 123)) s.

(** The payloads of the lines that match [dataRegex], in their order. *)
Definition payloads (ls : list string) : list string :=
  omap dataRegex.FindStringSubmatch ls.

(** [n] calls in a row: their results in order, and the collector
    afterwards. *)
Fixpoint Collect_n {R C : Type} (Collect : C -> R * C * list string) (n : nat) (c : C)
  : list R * C :=
  match n with
  | O => ([], c)
  | S k =>
      let '(r, c1, _) := Collect c in
      let '(rs, c2) := Collect_n Collect k c1 in
      (r :: rs, c2)
  end.

(** The scanner once [Scan] has returned false. *)
Definition at_end (sc : GoBufio.Scanner) : GoBufio.Scanner :=
  advance sc (S (length (pending sc))).

(** The scanner is reading and every line that is left fits its buffer:
    it will not stop on a line too long. *)
Definition all_fit (sc : GoBufio.Scanner) : bool :=
  match GoBufio.mode sc with
  | GoBufio.Reading => forallb GoBufio.fits (skipn (GoBufio.cursor sc) (GoBufio.stream sc))
  | _ => false
  end.

(** A stream that breaks off after two lines because the pipe fails. *)
Definition failing_scanner : GoBufio.Scanner :=
  {| GoBufio.stream := ["noise..."; "more noise"];
     GoBufio.cursor := 0;
     GoBufio.stream_err := Some (errorString "read |0: file already closed");
     GoBufio.mode := GoBufio.Reading |}.

(** The two observations that a reading gives rise to. *)
Definition reading_observations {Int64Gauge Float64Gauge : Type}
    (m : meterWithGauges Int64Gauge Float64Gauge) (g : GPUData)
  : list (GoMetric.Observation Int64Gauge Float64Gauge) :=
  let attrs := [("gpu_id", ID g); ("gpu_name", Name g)] in
  [ GoMetric.ObserveInt64 (memGauge m) (MemoryUsedBytes g) attrs;
    GoMetric.ObserveInt64 (utilGauge m) (GPUUtilPercent g) attrs ].

(** The events that shut the provider down, and those that install it. *)
Definition is_shutdown (e : event) : bool :=
  match e with ProviderShutdown => true | _ => false end.

Definition is_install (e : event) : bool :=
  match e with SetMeterProvider _ _ _ _ => true | _ => false end.

(** The events of the shutdown function that [initProvider] returns. *)
Definition shutdown_events {I64 F64 : Type} (sdk : SDK I64 F64) : list event :=
  ProviderShutdown ::
  match prov_Shutdown sdk with
  | Some err => [SlogError "shutdown error" err]
  | None => []
  end.

(** A trace in which the provider was installed and then shut down once,
    as the last thing. *)
Definition shut_down_last {I64 F64 : Type} (sdk : SDK I64 F64) (trace : list event) : Prop :=
  exists pre, trace = pre ++ shutdown_events sdk
              /\ existsb is_install pre = true /\ existsb is_shutdown pre = false.

(** The discipline of a runner: it returns nil only once the context is
    done; it fails either before the provider is installed, and then does
    nothing, or after, and then shuts the provider down; while it waits it
    has not shut the provider down. *)
Definition disciplined {I64 F64 : Type} (sdk : SDK I64 F64) (ctx : Context)
    (run : list event * outcome) : Prop :=
  let '(trace, out) := run in
  match out with
  | BlocksForever =>
      Done_closes ctx = false
      /\ existsb is_install trace = true /\ existsb is_shutdown trace = false
  | Returns None => Done_closes ctx = true /\ shut_down_last sdk trace
  | Returns (Some err) =>
      (trace = [] /\ exists e, err = wrapError "init error: " e)
      \/ (shut_down_last sdk trace
          /\ exists e, err = wrapError "gauge creation error: " e
                       \/ err = wrapError "callback registration error: " e)
  end.

(** A command never finishes in good order: it fails, or it waits for
    ever without having shut the provider down. *)
Definition never_finishes (run : list event * outcome) : Prop :=
  let '(trace, out) := run in
  match out with
  | Returns None => False
  | Returns (Some _) => True
  | BlocksForever => existsb is_shutdown trace = false
  end.

(** The child process comes first: either it was started before anything
    else happened, or the command failed with nothing done. *)
Definition child_first (args : list string) (run : list event * outcome) : Prop :=
  let '(trace, out) := run in
  (exists rest, trace = CmdStart "dynolog" args :: rest)
  \/ (trace = [] /\ exists e, out = Returns (Some (wrapError "start dynolog: " e))).

(** The fields of a device as [nvidia-smi] prints them: the memory in use
    as a number of MiB and the utilization as a percentage. *)
Record device_fields : Type := {
  dev_id : string;
  dev_name : string;
  dev_MiB : string;
  dev_percent : string
}.

(** The entry of the document for such a device. *)
Definition smi_gpu (d : device_fields) : SmiLog.gpu :=
  {| SmiLog.ID := dev_id d;
     SmiLog.ProductName := dev_name d;
     SmiLog.FBMemory := {| SmiLog.Used := dev_MiB d +:+ " MiB" |};
     SmiLog.Utilization := {| SmiLog.GPUUtil := dev_percent d +:+ " %" |} |}.

(** Both numbers are decimal integers, the memory small enough for its
    byte count and the percentage for [int64]. *)
Definition device_ok (d : device_fields) : Prop :=
  is_decimal_integer (dev_MiB d) = true /\ - 2 ^ 43 <= int_value (dev_MiB d) < 2 ^ 43
  /\ is_decimal_integer (dev_percent d) = true /\ in_int64 (int_value (dev_percent d)).

(** The two observations that such a device gives rise to. *)
Definition device_observations {I64 F64 : Type} (m : meterWithGauges I64 F64)
    (d : device_fields) : list (GoMetric.Observation I64 F64) :=
  let attrs := [("gpu_id", dev_id d); ("gpu_name", dev_name d)] in
  [ GoMetric.ObserveInt64 (memGauge m) (int_value (dev_MiB d) * 1048576) attrs;
    GoMetric.ObserveInt64 (utilGauge m) (int_value (dev_percent d)) attrs ].

(** Test doubles: a meter whose instruments are their names, and a
    document with one device. *)
Definition sample_meter : GoMetric.Meter string string :=
  {| GoMetric.Int64ObservableGauge := fun name => (name, None);
     GoMetric.Float64ObservableGauge := fun name => (name, None);
     GoMetric.RegisterCallback := fun _ _ => None |}.

Definition sample_gauges : meterWithGauges string string :=
  {| meter := sample_meter;
     memGauge := "gpu.memory_used_bytes";
     utilGauge := "gpu.utilization_percent" |}.

Definition sample_devices : list device_fields :=
  [ {| dev_id := "0"; dev_name := "Test-GPU"; dev_MiB := "1024"; dev_percent := "42" |} ].

Definition sample_xml_Unmarshal (out : string) : SmiLog.t + error :=
  inl {| SmiLog.GPUs := map smi_gpu sample_devices |}.

(** Every provider that a run installs is the one of the configuration
    that [main] sets up: the fixed service name, endpoint and interval,
    and the key of the environment. *)
Definition installs_configured (environ : gmap string string)
    (run : list event * outcome) : Prop :=
  Forall (fun ev =>
            match ev with
            | SetMeterProvider serviceName endpoint headers interval =>
                serviceName = "gpu-mon" /\ endpoint = "api.honeycomb.io:443"
                /\ headers = [("x-honeycomb-team",
                                default "" (environ !! "HONEYCOMB_API_KEY"))]
                /\ interval = 15000000000
            | _ => True
            end) (fst run)
  /\ (length (List.filter is_install (fst run)) <= 1)%nat.

(** ** Strings *)

Lemma append_nil (s : string) : "" +:+ s = s.
Proof. reflexivity. Qed.

Lemma append_cons (c : ascii) (s t : string) : String c s +:+ t = String c (s +:+ t).
Proof. reflexivity. Qed.

Lemma append_nil_r (s : string) : s +:+ "" = s.
Proof. induction s as [|c s IH]; [reflexivity|]. rewrite append_cons, IH. reflexivity. Qed.

Lemma append_assoc (s t u : string) : (s +:+ t) +:+ u = s +:+ (t +:+ u).
Proof.
  induction s as [|c s IH]; [reflexivity|].
  rewrite !append_cons, IH. reflexivity.
Qed.

Lemma string_forall_impl (p q : ascii -> bool) (s : string) :
  (forall c, p c = true -> q c = true) ->
  string_forall p s = true -> string_forall q s = true.
Proof.
  intros Hpq. induction s as [|c s IH]; simpl; [reflexivity|].
  intros [Hc Hs]%andb_true_iff. rewrite (Hpq _ Hc), (IH Hs). reflexivity.
Qed.

Lemma string_forall_app (p : ascii -> bool) (s t : string) :
  string_forall p (s +:+ t) = string_forall p s && string_forall p t.
Proof.
  induction s as [|c s IH]; [reflexivity|].
  rewrite append_cons. simpl. rewrite IH, andb_assoc. reflexivity.
Qed.

Lemma rev_app_append (s t acc : string) :
  String.rev_app (s +:+ t) acc = String.rev_app t (String.rev_app s acc).
Proof.
  revert acc. induction s as [|c s IH]; intros acc; [reflexivity|].
  rewrite append_cons. simpl. apply IH.
Qed.

Lemma rev_app_rev_app (s a b : string) :
  String.rev_app (String.rev_app s a) b = String.rev_app a (s +:+ b).
Proof.
  revert a. induction s as [|c s IH]; intros a; [reflexivity|].
  simpl. rewrite IH. reflexivity.
Qed.

Lemma rev_involutive (s : string) : String.rev (String.rev s) = s.
Proof. unfold String.rev. rewrite rev_app_rev_app. simpl. apply append_nil_r. Qed.

Lemma string_forall_rev_app (p : ascii -> bool) (s acc : string) :
  string_forall p (String.rev_app s acc) = string_forall p s && string_forall p acc.
Proof.
  revert acc. induction s as [|c s IH]; intros acc; [reflexivity|].
  simpl. rewrite IH. simpl. destruct (p c); simpl; [reflexivity|].
  apply andb_false_r.
Qed.

(** Deleting [old] leaves alone a stretch that lacks the first byte of
    [old]. *)
Lemma remove_all_skip_prefix (m : ascii) (old' x rest : string) :
  string_forall (fun c => negb (byte_eqb c m)) x = true ->
  GoStrings.remove_all (String m old') O (x +:+ rest)
  = x +:+ GoStrings.remove_all (String m old') O rest.
Proof.
  induction x as [|c x IH]; [reflexivity|].
  simpl. intros [Hc Hx]%andb_true_iff. rewrite append_cons.
  cbn [GoStrings.remove_all GoStrings.HasPrefix].
  apply negb_true_iff in Hc. rewrite Hc. cbn [andb].
  rewrite (IH Hx). reflexivity.
Qed.

Lemma trim_front_solid (back : bool) (s : string) :
  string_forall solid s = true -> GoStrings.trim_front back s = s.
Proof.
  destruct s as [|c1 t1]; [reflexivity|].
  simpl. intros [[Hsp Hlt]%andb_true_iff _]%andb_true_iff.
  apply negb_true_iff in Hsp. rewrite Hsp.
  apply Z.ltb_lt in Hlt.
  destruct t1 as [|c2 t2]; [reflexivity|].
  assert (H2 : (if back then GoStrings.space2 c2 c1 else GoStrings.space2 c1 c2) = false).
  { unfold GoStrings.space2. destruct back.
    - destruct (code c2 =? 194); [|reflexivity]. cbn [andb].
      apply orb_false_iff. split; apply Z.eqb_neq; lia.
    - replace (code c1 =? 194) with false; [reflexivity|].
      symmetry. apply Z.eqb_neq. lia. }
  rewrite H2.
  destruct t2 as [|c3 t3]; [reflexivity|].
  assert (H3 : (if back then GoStrings.space3 c3 c2 c1 else GoStrings.space3 c1 c2 c3) = false).
  { unfold GoStrings.space3. destruct back.
    - replace (code c1 =? 128) with false by (symmetry; apply Z.eqb_neq; lia).
      replace (code c1 =? 159) with false by (symmetry; apply Z.eqb_neq; lia).
      replace (code c1 =? 168) with false by (symmetry; apply Z.eqb_neq; lia).
      replace (code c1 =? 169) with false by (symmetry; apply Z.eqb_neq; lia).
      replace (code c1 =? 175) with false by (symmetry; apply Z.eqb_neq; lia).
      replace (128 <=? code c1) with false by (symmetry; apply Z.leb_gt; lia).
      rewrite !andb_false_r. reflexivity.
    - replace (code c1 =? 225) with false by (symmetry; apply Z.eqb_neq; lia).
      replace (code c1 =? 226) with false by (symmetry; apply Z.eqb_neq; lia).
      replace (code c1 =? 227) with false by (symmetry; apply Z.eqb_neq; lia).
      reflexivity. }
  rewrite H3. reflexivity.
Qed.

(** Trimming a solid string followed by one blank gives the string back. *)
Lemma TrimSpace_solid_blank (s : string) :
  string_forall solid s = true -> GoStrings.TrimSpace (s +:+ " ") = s.
Proof.
  intros Hs. destruct s as [|c t]; [reflexivity|].
  unfold GoStrings.TrimSpace, GoStrings.TrimLeftSpace.
  assert (Hl : GoStrings.trim_front false (String c t +:+ " ") = String c t +:+ " ").
  { simpl in Hs. apply andb_true_iff in Hs as [Hc _].
    rewrite append_cons.
    unfold solid in Hc. apply andb_true_iff in Hc as [Hsp Hlt].
    apply negb_true_iff in Hsp. apply Z.ltb_lt in Hlt.
    cbn [GoStrings.trim_front]. rewrite Hsp.
    destruct (t +:+ " ") as [|c2 t2]; [reflexivity|].
    replace (GoStrings.space2 c c2) with false.
    2:{ unfold GoStrings.space2.
        replace (code c =? 194) with false by (symmetry; apply Z.eqb_neq; lia).
        reflexivity. }
    destruct t2 as [|c3 t3]; [reflexivity|].
    replace (GoStrings.space3 c c2 c3) with false; [reflexivity|].
    unfold GoStrings.space3.
    replace (code c =? 225) with false by (symmetry; apply Z.eqb_neq; lia).
    replace (code c =? 226) with false by (symmetry; apply Z.eqb_neq; lia).
    replace (code c =? 227) with false by (symmetry; apply Z.eqb_neq; lia).
    reflexivity. }
  rewrite Hl. unfold GoStrings.TrimRightSpace, String.rev.
  rewrite rev_app_append.
  change (String.rev_app " " (String.rev_app (String c t) ""))
    with (String " " (String.rev_app (String c t) "")).
  change (GoStrings.trim_front true (String " " (String.rev_app (String c t) "")))
    with (GoStrings.trim_front true (String.rev_app (String c t) "")).
  rewrite trim_front_solid.
  - exact (rev_involutive (String c t)).
  - rewrite string_forall_rev_app, Hs. reflexivity.
Qed.

Lemma TrimSpace_solid (s : string) :
  string_forall solid s = true -> GoStrings.TrimSpace s = s.
Proof.
  intros Hs. unfold GoStrings.TrimSpace, GoStrings.TrimLeftSpace, GoStrings.TrimRightSpace.
  rewrite (trim_front_solid false s Hs), trim_front_solid.
  - apply rev_involutive.
  - unfold String.rev. rewrite string_forall_rev_app, Hs. reflexivity.
Qed.

(** ** Integers *)

Lemma digits_value_ge (s : string) (n : Z) :
  string_forall is_digit_byte s = true -> 0 <= n -> n <= digits_value s n.
Proof.
  revert n. induction s as [|c s IH]; intros n; simpl; [lia|].
  intros [Hc Hs]%andb_true_iff Hn.
  unfold is_digit_byte in Hc. apply andb_true_iff in Hc as [H1 H2].
  apply Z.leb_le in H1, H2.
  specialize (IH (n * 10 + (code c - 48)) Hs). lia.
Qed.

(** On digits the loop of [ParseUint] computes their value as long as it
    fits in 64 bits. *)
Lemma ParseUint_loop_digits (s : string) (n : Z) :
  string_forall is_digit_byte s = true -> 0 <= n ->
  digits_value s n <= maxUint64 ->
  GoStrconv.ParseUint_loop s n = (digits_value s n, None).
Proof.
  revert n. induction s as [|c s IH]; intros n; simpl; [reflexivity|].
  intros [Hc Hs]%andb_true_iff Hn Hmax.
  unfold is_digit_byte in Hc. rewrite Hc.
  apply andb_true_iff in Hc as [H1 H2]. apply Z.leb_le in H1, H2.
  pose proof (digits_value_ge s (n * 10 + (code c - 48)) Hs ltac:(lia)) as Hge.
  change maxUint64 with 18446744073709551615 in *.
  change GoStrconv.cutoff10 with 1844674407370955162.
  change (2 ^ 64) with 18446744073709551616.
  replace (1844674407370955162 <=? n) with false by (symmetry; apply Z.leb_gt; lia).
  rewrite (Z.mod_small (n * 10 + (code c - 48))) by lia.
  replace (n * 10 + (code c - 48) <? n * 10) with false by (symmetry; apply Z.ltb_ge; lia).
  replace (18446744073709551615 <? n * 10 + (code c - 48)) with false
    by (symmetry; apply Z.ltb_ge; lia).
  cbn [orb]. apply IH; [assumption|lia|assumption].
Qed.

(** Whatever the input, the loop ends in one of three ways. *)
Lemma ParseUint_loop_cases (s : string) (n : Z) :
  GoStrconv.ParseUint_loop s n = (maxUint64, Some ErrRange)
  \/ GoStrconv.ParseUint_loop s n = (0, Some ErrSyntax)
  \/ (exists v, GoStrconv.ParseUint_loop s n = (v, None)
                /\ string_forall is_digit_byte s = true).
Proof.
  revert n. induction s as [|c s IH]; intros n; simpl.
  - right. right. exists n. split; reflexivity.
  - unfold is_digit_byte at 1.
    destruct ((48 <=? code c) && (code c <=? 57)); [|right; left; reflexivity].
    destruct (GoStrconv.cutoff10 <=? n); [left; reflexivity|].
    destruct (_ || _); [left; reflexivity|].
    cbn [andb]. apply IH.
Qed.

Lemma ParseUint_cases (s : string) :
  GoStrconv.ParseUint s = (maxUint64, Some ErrRange)
  \/ GoStrconv.ParseUint s = (0, Some ErrSyntax)
  \/ (exists v, GoStrconv.ParseUint s = (v, None)
                /\ negb (String.eqb s "") && string_forall is_digit_byte s = true).
Proof.
  destruct s as [|c s]; [right; left; reflexivity|].
  unfold GoStrconv.ParseUint.
  destruct (ParseUint_loop_cases (String c s) 0) as [H|[H|(v & H & Hd)]]; auto.
  right. right. exists v. split; [assumption|]. rewrite Hd. reflexivity.
Qed.

(** [ParseInt] on a decimal integer within the range of [int64]. *)
Lemma ParseInt_decimal (s : string) :
  is_decimal_integer s = true ->
  minInt64 <= int_value s <= maxInt64 ->
  GoStrconv.ParseInt s = (int_value s, None).
Proof.
  destruct s as [|c t]; [discriminate|].
  unfold is_decimal_integer, int_value, GoStrconv.ParseInt, is_sign_byte.
  change minInt64 with (-9223372036854775808).
  change maxInt64 with 9223372036854775807.
  change (2 ^ 63) with 9223372036854775808.
  destruct (code c =? 45) eqn:Hminus.
  - rewrite orb_true_r. intros [Hne Hd]%andb_true_iff Hrange.
    destruct t as [|c' t']; [discriminate|].
    unfold GoStrconv.ParseUint.
    rewrite ParseUint_loop_digits; [|assumption|lia|change maxUint64 with 18446744073709551615; lia].
    cbn [negb andb].
    replace (9223372036854775808 <? digits_value (String c' t') 0) with false
      by (symmetry; apply Z.ltb_ge; lia).
    reflexivity.
  - rewrite orb_false_r. destruct (code c =? 43) eqn:Hplus.
    + intros [Hne Hd]%andb_true_iff Hrange.
      destruct t as [|c' t']; [discriminate|].
      unfold GoStrconv.ParseUint.
      rewrite ParseUint_loop_digits; [|assumption|lia|change maxUint64 with 18446744073709551615; lia].
      cbn [negb andb].
      replace (9223372036854775808 <=? digits_value (String c' t') 0) with false
        by (symmetry; apply Z.leb_gt; lia).
      reflexivity.
    + intros Hd Hrange.
      unfold GoStrconv.ParseUint.
      rewrite ParseUint_loop_digits; [|assumption|lia|change maxUint64 with 18446744073709551615; lia].
      cbn [negb andb].
      replace (9223372036854775808 <=? digits_value (String c t) 0) with false
        by (symmetry; apply Z.leb_gt; lia).
      reflexivity.
Qed.

(** [ParseInt] reports an error on everything that is not a decimal
    integer. *)
Lemma ParseInt_malformed (s : string) :
  is_decimal_integer s = false ->
  exists v err, GoStrconv.ParseInt s = (v, Some err).
Proof.
  destruct s as [|c t]; [intros _; eexists _, _; reflexivity|].
  unfold is_decimal_integer, GoStrconv.ParseInt, is_sign_byte.
  set (neg := code c =? 45).
  set (s := if (code c =? 43) || neg then t else String c t).
  intros Hmal.
  assert (Hs : negb (String.eqb s "") && string_forall is_digit_byte s = false).
  { subst s. destruct ((code c =? 43) || neg); [assumption|].
    cbn [String.eqb negb andb]. assumption. }
  destruct (ParseUint_cases s) as [H|[H|(v & H & Hd)]]; rewrite H.
  - change maxUint64 with 18446744073709551615.
    change (2 ^ 63) with 9223372036854775808.
    destruct neg; cbn; eexists _, _; reflexivity.
  - eexists _, _; reflexivity.
  - rewrite Hd in Hs. discriminate.
Qed.

Lemma wrap64_small (z : Z) : minInt64 <= z <= maxInt64 -> wrap64 z = z.
Proof.
  unfold wrap64, minInt64, maxInt64. intros H.
  rewrite Z.mod_small; lia.
Qed.

Lemma decimal_bytes (s : string) :
  is_decimal_integer s = true ->
  string_forall (fun c => is_sign_byte c || is_digit_byte c) s = true.
Proof.
  destruct s as [|c t]; [discriminate|].
  unfold is_decimal_integer. destruct (is_sign_byte c) eqn:Hc.
  - intros [_ Hd]%andb_true_iff. simpl. rewrite Hc. simpl.
    eapply string_forall_impl; [|exact Hd]. intros c' ->. apply orb_true_r.
  - intros Hd. eapply string_forall_impl; [|exact Hd]. intros c' ->. apply orb_true_r.
Qed.

Lemma sign_or_digit_range (c : ascii) :
  is_sign_byte c || is_digit_byte c = true ->
  code c = 43 \/ code c = 45 \/ 48 <= code c <= 57.
Proof.
  unfold is_sign_byte, is_digit_byte.
  intros [[H|H]%orb_true_iff|[H1 H2]%andb_true_iff]%orb_true_iff.
  - apply Z.eqb_eq in H. lia.
  - apply Z.eqb_eq in H. lia.
  - apply Z.leb_le in H1, H2. lia.
Qed.

Lemma decimal_solid (s : string) :
  is_decimal_integer s = true -> string_forall solid s = true.
Proof.
  intros H. eapply string_forall_impl; [|exact (decimal_bytes s H)].
  intros c Hc%sign_or_digit_range. unfold solid, GoStrings.asciiSpace.
  apply andb_true_iff. split; [apply negb_true_iff|apply Z.ltb_lt; lia].
  apply orb_false_iff. split; [apply andb_false_iff|apply Z.eqb_neq; lia].
  right. apply Z.leb_gt. lia.
Qed.

Lemma decimal_lacks (b : ascii) (s : string) :
  code b <> 43 -> code b <> 45 -> ~ 48 <= code b <= 57 ->
  is_decimal_integer s = true ->
  string_forall (fun c => negb (byte_eqb c b)) s = true.
Proof.
  intros H1 H2 H3 H. eapply string_forall_impl; [|exact (decimal_bytes s H)].
  intros c Hc%sign_or_digit_range. apply negb_true_iff, Z.eqb_neq. lia.
Qed.

(** The numeric part of a decimal integer followed by a blank and the
    unit of memory, and of one followed by the percent sign. *)
Lemma numeric_part_MiB (num : string) :
  is_decimal_integer num = true -> numeric_part "MiB" (num +:+ " MiB") = num.
Proof.
  intros H. unfold numeric_part, GoStrings.ReplaceAll.
  change (num +:+ " MiB") with (num +:+ (" " +:+ "MiB")).
  rewrite <- append_assoc, remove_all_skip_prefix.
  - change (GoStrings.remove_all "MiB" 0 "MiB") with "".
    rewrite append_nil_r. apply TrimSpace_solid_blank, decimal_solid, H.
  - rewrite string_forall_app, (decimal_lacks "M" num); [reflexivity|..|exact H];
      vm_compute; [discriminate|discriminate|intros [? ?]; auto].
Qed.

Lemma numeric_part_percent (num : string) :
  is_decimal_integer num = true -> numeric_part "%" (num +:+ "%") = num.
Proof.
  intros H. unfold numeric_part, GoStrings.ReplaceAll.
  rewrite remove_all_skip_prefix.
  - change (GoStrings.remove_all "%" 0 "%") with "".
    rewrite append_nil_r. apply TrimSpace_solid, decimal_solid, H.
  - apply (decimal_lacks "%" num); [..|exact H];
      vm_compute; [discriminate|discriminate|intros [? ?]; auto].
Qed.

(** ** The normalizers *)

(** C2, as the code has it: for a decimal integer [n] written with an
    optional sign, the memory normalizer maps ["<n> MiB"] to
    [n * 1024 * 1024] when the product fits in 64 bits, that is for
    [-2^43 <= n < 2^43], and the percentage normalizer maps ["<n>%"] to [n]
    when [n] fits in 64 bits. *)
Theorem normalizers_on_decimal (num : string) :
  is_decimal_integer num = true ->
  (- 2 ^ 43 <= int_value num < 2 ^ 43 ->
   parseMemory (num +:+ " MiB") = (int_value num * 1024 * 1024, None))
  /\ (- 2 ^ 63 <= int_value num < 2 ^ 63 ->
      parsePercentage (num +:+ "%") = (int_value num, None)).
Proof.
  intros Hnum. split; intros Hrange.
  - unfold parseMemory. fold (numeric_part "MiB" (num +:+ " MiB")).
    rewrite (numeric_part_MiB num Hnum).
    rewrite ParseInt_decimal; [|assumption|unfold minInt64, maxInt64; lia].
    unfold mul64.
    rewrite (wrap64_small (int_value num * 1024)) by (unfold minInt64, maxInt64; lia).
    rewrite wrap64_small by (unfold minInt64, maxInt64; lia).
    reflexivity.
  - unfold parsePercentage. fold (numeric_part "%" (num +:+ "%")).
    rewrite (numeric_part_percent num Hnum).
    apply ParseInt_decimal; [assumption|unfold minInt64, maxInt64; lia].
Qed.

Lemma normalizers_on_decimal_witness :
  is_decimal_integer "1024" = true
  /\ parseMemory ("1024" +:+ " MiB") = (int_value "1024" * 1024 * 1024, None)
  /\ parsePercentage ("1024" +:+ "%") = (int_value "1024", None).
Proof.
  split; [reflexivity|].
  destruct (normalizers_on_decimal "1024" eq_refl) as [Hm Hp].
  split; [apply Hm|apply Hp]; vm_compute; (split; [discriminate|reflexivity]).
Defined.

(** C2 as stated fails where the product leaves the 64-bit range: 2^43 MiB
    parses without error and the result is negative. *)
Lemma normalizers_on_decimal_overflow :
  is_decimal_integer "8796093022208" = true
  /\ parseMemory ("8796093022208" +:+ " MiB") = (-9223372036854775808, None)
  /\ parseMemory ("8796093022208" +:+ " MiB")
     <> (int_value "8796093022208" * 1024 * 1024, None).
Proof.
  split; [reflexivity|]. split; [reflexivity|].
  vm_compute. discriminate.
Qed.

Lemma wrap64_range (z : Z) : in_int64 (wrap64 z).
Proof.
  unfold in_int64, wrap64, minInt64, maxInt64.
  pose proof (Z.mod_pos_bound (z + 2 ^ 63) (2 ^ 64) ltac:(lia)). lia.
Qed.

Lemma ParseUint_loop_nonneg (s : string) (n : Z) :
  0 <= n -> 0 <= fst (GoStrconv.ParseUint_loop s n).
Proof.
  revert n. induction s as [|c s IH]; intros n Hn; cbn [GoStrconv.ParseUint_loop fst].
  - exact Hn.
  - destruct ((48 <=? code c) && (code c <=? 57)); [|cbn; lia].
    destruct (GoStrconv.cutoff10 <=? n); [cbn; unfold maxUint64; lia|].
    destruct (_ || _); [cbn; unfold maxUint64; lia|].
    apply IH. apply Z.mod_pos_bound. lia.
Qed.

(** Whatever the text, [ParseInt] returns a value of [int64]. *)
Lemma ParseInt_range (s : string) : in_int64 (fst (GoStrconv.ParseInt s)).
Proof.
  unfold in_int64, minInt64, maxInt64.
  destruct s as [|c t]; [cbn; lia|].
  unfold GoStrconv.ParseInt.
  set (neg := code c =? 45).
  set (s := if (code c =? 43) || neg then t else String c t).
  assert (Hun : 0 <= fst (GoStrconv.ParseUint s)).
  { unfold GoStrconv.ParseUint. destruct s; [cbn; lia|].
    apply ParseUint_loop_nonneg. lia. }
  destruct (GoStrconv.ParseUint s) as [un err]. cbn [fst] in Hun.
  assert (Hok : minInt64 <= fst (if negb neg && (2 ^ 63 <=? un)
                                 then (2 ^ 63 - 1, Some (NumError "ParseInt" (String c t) ErrRange))
                                 else if neg && (2 ^ 63 <? un)
                                 then (- 2 ^ 63, Some (NumError "ParseInt" (String c t) ErrRange))
                                 else (if neg then - un else un, None)) <= maxInt64).
  { unfold minInt64, maxInt64.
    destruct neg; cbn [negb andb].
    - destruct (2 ^ 63 <? un) eqn:H; cbn [fst]; [lia|]. apply Z.ltb_ge in H. lia.
    - destruct (2 ^ 63 <=? un) eqn:H; cbn [fst]; [lia|]. apply Z.leb_gt in H. lia. }
  unfold minInt64, maxInt64 in Hok.
  destruct err as [[| | | |]|]; try exact Hok; cbn; lia.
Qed.

(** C8: a field whose numeric part is not a decimal integer makes the
    normalizer report an error; the memory normalizer then returns zero.
    Both normalizers are total: on every string they return a value of
    [int64], with or without an error. *)
Theorem normalizers_reject_malformed (val : string) :
  (is_decimal_integer (numeric_part "MiB" val) = false ->
   exists err, parseMemory val = (0, Some err))
  /\ (is_decimal_integer (numeric_part "%" val) = false ->
      exists v err, parsePercentage val = (v, Some err))
  /\ in_int64 (fst (parseMemory val))
  /\ in_int64 (fst (parsePercentage val)).
Proof.
  split; [|split; [|split]].
  - intros Hmal. unfold parseMemory. fold (numeric_part "MiB" val).
    destruct (ParseInt_malformed _ Hmal) as (v & err & ->). eauto.
  - intros Hmal. unfold parsePercentage. fold (numeric_part "%" val).
    exact (ParseInt_malformed _ Hmal).
  - unfold parseMemory. destruct (GoStrconv.ParseInt _) as [num [err|]]; cbn [fst].
    + unfold in_int64, minInt64, maxInt64. lia.
    + apply wrap64_range.
  - unfold parsePercentage. apply ParseInt_range.
Qed.

Lemma normalizers_reject_malformed_witness :
  (exists err, parseMemory "N/A" = (0, Some err))
  /\ (exists v err, parsePercentage "4 2%" = (v, Some err)).
Proof.
  split.
  - apply (normalizers_reject_malformed "N/A"). reflexivity.
  - apply (normalizers_reject_malformed "4 2%"). reflexivity.
Defined.

(** ** The line scanner *)

Lemma skipn_cons_nth_error {A : Type} (l : list A) (n : nat) (x : A) (t : list A) :
  skipn n l = x :: t -> nth_error l n = Some x /\ skipn (S n) l = t.
Proof.
  revert l. induction n as [|n IH]; intros [|y l]; simpl; try discriminate.
  - intros [= -> ->]. split; reflexivity.
  - intros H. destruct (IH l H) as [H1 H2]. split; [exact H1|].
    destruct l; exact H2.
Qed.

Lemma nth_error_skipn_cons {A : Type} (l : list A) (n : nat) (x : A) :
  nth_error l n = Some x -> skipn n l = x :: skipn (S n) l.
Proof.
  revert l. induction n as [|n IH]; intros [|y l]; simpl; try discriminate.
  - intros [= ->]. reflexivity.
  - intros H. rewrite (IH l H). destruct l; reflexivity.
Qed.

Lemma advance_0 (sc : GoBufio.Scanner) : advance sc 0 = sc.
Proof. reflexivity. Qed.

Lemma advance_advance (sc : GoBufio.Scanner) (a b : nat) :
  advance (advance sc a) b = advance sc (a + b).
Proof.
  revert sc. induction a as [|a IH]; intros sc; [reflexivity|].
  cbn [advance Nat.add]. apply IH.
Qed.

Lemma first_bytes_all (data : string) (n : nat) :
  (String.length data <= n)%nat -> GoBufio.first_bytes n data = data.
Proof.
  revert n. induction data as [|c t IH]; intros [|n] H; cbn in *; try reflexivity; try lia.
  rewrite IH by lia. reflexivity.
Qed.

Lemma buffered_fits (line : string) :
  GoBufio.fits line = true -> GoBufio.buffered line = line.
Proof.
  unfold GoBufio.fits, GoBufio.buffered. intros H.
  apply first_bytes_all. lia.
Qed.

(** What a call of [Scan] that hands out a line does, and one that
    returns false. *)
Lemma Scan_Some (sc sc' : GoBufio.Scanner) (line : string) :
  GoBufio.Scan sc = (Some line, sc') ->
  nth_error (GoBufio.lines sc) (GoBufio.cursor sc) = Some line
  /\ GoBufio.stream sc' = GoBufio.stream sc
  /\ GoBufio.cursor sc' = S (GoBufio.cursor sc).
Proof.
  unfold GoBufio.Scan, GoBufio.lines. rewrite nth_error_map.
  destruct (GoBufio.mode sc);
    destruct (nth_error (GoBufio.stream sc) (GoBufio.cursor sc)) as [l|];
    try discriminate.
  - destruct (GoBufio.fits l) eqn:Hfit; [|discriminate].
    intros [= <- <-]. cbn. rewrite (buffered_fits l Hfit). auto.
  - intros [= <- <-]. cbn. auto.
Qed.


Lemma lines_length (sc : GoBufio.Scanner) :
  length (GoBufio.lines sc) = length (GoBufio.stream sc).
Proof. apply length_map. Qed.

Lemma pending_Scan (sc : GoBufio.Scanner) :
  pending sc =
  match GoBufio.Scan sc with
  | (Some line, sc') => line :: pending sc'
  | (None, _) => []
  end.
Proof.
  unfold pending. destruct (GoBufio.Scan sc) as [[line|] sc'] eqn:HS.
  - destruct (Scan_Some _ _ _ HS) as (Hn & -> & ->).
    assert (GoBufio.cursor sc < length (GoBufio.stream sc))%nat as Hlt.
    { rewrite <- lines_length. apply nth_error_Some. congruence. }
    replace (length (GoBufio.stream sc) - GoBufio.cursor sc)%nat
      with (S (length (GoBufio.stream sc) - S (GoBufio.cursor sc))) by lia.
    cbn [handed_out]. rewrite HS. reflexivity.
  - destruct (length (GoBufio.stream sc) - GoBufio.cursor sc)%nat; [reflexivity|].
    cbn [handed_out]. rewrite HS. reflexivity.
Qed.

Lemma Scan_pending_cons (sc : GoBufio.Scanner) (line : string) (rest : list string) :
  pending sc = line :: rest ->
  GoBufio.Scan sc = (Some line, advance sc 1) /\ pending (advance sc 1) = rest.
Proof.
  rewrite pending_Scan. cbn [advance].
  destruct (GoBufio.Scan sc) as [[l|] sc']; [|discriminate].
  intros [= -> <-]. split; reflexivity.
Qed.

Lemma Scan_pending_nil (sc : GoBufio.Scanner) :
  pending sc = [] -> GoBufio.Scan sc = (None, advance sc 1).
Proof.
  rewrite pending_Scan. cbn [advance].
  destruct (GoBufio.Scan sc) as [[l|] sc']; [discriminate|reflexivity].
Qed.

Lemma handed_out_length (fuel : nat) (sc : GoBufio.Scanner) :
  (length (handed_out fuel sc) <= fuel)%nat.
Proof.
  revert sc. induction fuel as [|fuel IH]; intros sc; cbn; [lia|].
  destruct (GoBufio.Scan sc) as [[l|] sc']; cbn; [|lia].
  specialize (IH sc'). lia.
Qed.

Lemma pending_length (sc : GoBufio.Scanner) :
  (length (pending sc) <= length (GoBufio.stream sc) - GoBufio.cursor sc)%nat.
Proof. apply handed_out_length. Qed.

Lemma split_first_match_noise (noise : list string) (ls : list string) :
  forallb (fun l => negb (matches l)) noise = true ->
  split_first_match (noise ++ ls)
  = (noise ++ fst (split_first_match ls), snd (split_first_match ls)).
Proof.
  induction noise as [|l noise IH]; simpl.
  - intros _. destruct (split_first_match ls). reflexivity.
  - unfold matches at 1. destruct (dataRegex.FindStringSubmatch l); [discriminate|].
    simpl. intros H. rewrite (IH H). reflexivity.
Qed.

(** One proof script serves the loops of both revisions. *)
Ltac loop_spec :=
  let ls := fresh "ls" in let IH := fresh "IH" in
  intros ls; induction ls as [|line rest IH]; intros fuel sc out Hpending Hfuel;
  (destruct fuel as [|fuel]; [cbn in Hfuel; lia|]);
  cbn [DynologCollector.Collect_loop DynologCollectorTyped.Collect_loop split_first_match];
  [ rewrite (Scan_pending_nil sc Hpending); cbn [length]; rewrite app_nil_r; reflexivity
  | destruct (Scan_pending_cons sc line rest Hpending) as [HScan Hrest];
    rewrite HScan;
    destruct (dataRegex.FindStringSubmatch line) as [payload|];
    [ unfold from_payload, from_payload_typed;
      match goal with |- context [match ?u payload with _ => _ end] => destruct (u payload) end;
      reflexivity
    | rewrite (IH fuel (advance sc 1) (out ++ [line]) Hrest ltac:(cbn in Hfuel; lia));
      destruct (split_first_match rest) as [noise [[l p]|]];
      cbn [length]; rewrite advance_advance, <- app_assoc; reflexivity ] ].

Lemma Collect_loop_spec
    (U : string -> gmap string JSONValue + error) (F : float64 -> string)
    (I : float64 -> int64) :
  forall (ls : list string) (fuel : nat) (sc : GoBufio.Scanner) (out : list string),
  pending sc = ls -> (length ls < fuel)%nat ->
  DynologCollector.Collect_loop U F I fuel sc out =
  match split_first_match ls with
  | (noise, Some (line, payload)) =>
      (from_payload U F I payload, advance sc (S (length noise)), out ++ noise ++ [line])
  | (noise, None) =>
      (DynologCollector.after_loop (advance sc (S (length noise))),
       advance sc (S (length noise)), out ++ noise)
  end.
Proof. loop_spec. Qed.

Lemma Collect_loop_typed_spec (U : string -> DynologData + error) :
  forall (ls : list string) (fuel : nat) (sc : GoBufio.Scanner) (out : list string),
  pending sc = ls -> (length ls < fuel)%nat ->
  DynologCollectorTyped.Collect_loop U fuel sc out =
  match split_first_match ls with
  | (noise, Some (line, payload)) =>
      (from_payload_typed U payload, advance sc (S (length noise)), out ++ noise ++ [line])
  | (noise, None) =>
      (DynologCollectorTyped.after_loop (advance sc (S (length noise))),
       advance sc (S (length noise)), out ++ noise)
  end.
Proof. loop_spec. Qed.

Lemma Collect_spec
    (U : string -> gmap string JSONValue + error) (F : float64 -> string)
    (I : float64 -> int64) (sc : GoBufio.Scanner) :
  DynologCollector.Collect U F I {| DynologCollector.scanner := sc |} =
  match split_first_match (pending sc) with
  | (noise, Some (line, payload)) =>
      (from_payload U F I payload,
       {| DynologCollector.scanner := advance sc (S (length noise)) |}, noise ++ [line])
  | (noise, None) =>
      (DynologCollector.after_loop (advance sc (S (length noise))),
       {| DynologCollector.scanner := advance sc (S (length noise)) |}, noise)
  end.
Proof.
  unfold DynologCollector.Collect. cbn [DynologCollector.scanner].
  rewrite (Collect_loop_spec U F I (pending sc));
    [|reflexivity|pose proof (pending_length sc); lia].
  destruct (split_first_match (pending sc)) as [noise [[l p]|]]; reflexivity.
Qed.

Lemma Collect_typed_spec (U : string -> DynologData + error) (sc : GoBufio.Scanner) :
  DynologCollectorTyped.Collect U {| DynologCollectorTyped.scanner := sc |} =
  match split_first_match (pending sc) with
  | (noise, Some (line, payload)) =>
      (from_payload_typed U payload,
       {| DynologCollectorTyped.scanner := advance sc (S (length noise)) |}, noise ++ [line])
  | (noise, None) =>
      (DynologCollectorTyped.after_loop (advance sc (S (length noise))),
       {| DynologCollectorTyped.scanner := advance sc (S (length noise)) |}, noise)
  end.
Proof.
  unfold DynologCollectorTyped.Collect. cbn [DynologCollectorTyped.scanner].
  rewrite (Collect_loop_typed_spec U (pending sc));
    [|reflexivity|pose proof (pending_length sc); lia].
  destruct (split_first_match (pending sc)) as [noise [[l p]|]]; reflexivity.
Qed.

Lemma split_first_match_hit (noise : list string) (line payload : string) (rest : list string) :
  forallb (fun l => negb (matches l)) noise = true ->
  dataRegex.FindStringSubmatch line = Some payload ->
  split_first_match (noise ++ line :: rest) = (noise, Some (line, payload)).
Proof.
  intros Hnoise Hline. rewrite (split_first_match_noise _ _ Hnoise).
  cbn [split_first_match]. rewrite Hline. cbn [fst snd]. rewrite app_nil_r. reflexivity.
Qed.

Lemma split_first_match_miss (noise : list string) :
  forallb (fun l => negb (matches l)) noise = true ->
  split_first_match noise = (noise, None).
Proof.
  intros Hnoise. rewrite <- (app_nil_r noise) at 1.
  rewrite (split_first_match_noise _ _ Hnoise). cbn. rewrite app_nil_r. reflexivity.
Qed.


Lemma advance_last (sc : GoBufio.Scanner) (n : nat) :
  advance sc (S n) = snd (GoBufio.Scan (advance sc n)).
Proof.
  replace (S n) with (n + 1)%nat by lia. rewrite <- advance_advance. reflexivity.
Qed.

Lemma pending_advance (sc : GoBufio.Scanner) (k : nat) :
  (k <= length (pending sc))%nat -> pending (advance sc k) = skipn k (pending sc).
Proof.
  revert sc. induction k as [|k IH]; intros sc Hk; [reflexivity|].
  destruct (pending sc) as [|line rest] eqn:Hp; [cbn in Hk; lia|].
  destruct (Scan_pending_cons sc line rest Hp) as [HS Hrest].
  cbn [advance skipn]. rewrite HS. cbn [snd].
  change (advance sc 1) with (snd (GoBufio.Scan sc)) in Hrest. rewrite HS in Hrest.
  cbn [snd] in Hrest. rewrite <- Hrest. apply IH. rewrite Hrest. cbn in Hk. lia.
Qed.










(** ** The Snapshot Collector *)

(** C1: the document with the one synthetic device yields the one reading
    of the round-trip property and no error. *)
Theorem snapshot_round_trip (xml_Unmarshal : string -> SmiLog.t + error) (out : string) :
  xml_Unmarshal out = inl {| SmiLog.GPUs := [test_gpu] |} ->
  NvidiaSMICollector.Collect xml_Unmarshal (out, None)
  = ([ {| ID := "0"; Name := "Test-GPU";
          MemoryUsedBytes := 1073741824; GPUUtilPercent := 42 |} ], None).
Proof.
  intros Hdoc. unfold NvidiaSMICollector.Collect. rewrite Hdoc. reflexivity.
Qed.

Lemma snapshot_round_trip_witness :
  NvidiaSMICollector.Collect (fun _ => inl {| SmiLog.GPUs := [test_gpu] |}) ("<nvidia_smi_log/>", None)
  = ([ {| ID := "0"; Name := "Test-GPU";
          MemoryUsedBytes := 1073741824; GPUUtilPercent := 42 |} ], None).
Proof.
  apply (snapshot_round_trip (fun _ => inl {| SmiLog.GPUs := [test_gpu] |})).
  reflexivity.
Defined.

(** A failure of the command, as [exec] reports it when the subprocess
    cannot be started, exits non-zero or is killed, is returned wrapped. *)
Lemma snapshot_exec_error (xml_Unmarshal : string -> SmiLog.t + error)
    (out : string) (err : error) :
  NvidiaSMICollector.Collect xml_Unmarshal (out, Some err)
  = ([], Some (wrapError "exec error: " err)).
Proof. reflexivity. Qed.

(** How [ParseInt] can fail: on a syntax error the value is zero, on a
    range error it is the nearest bound of [int64]. *)
Lemma ParseInt_failure (s : string) (v : int64) (err : error) :
  GoStrconv.ParseInt s = (v, Some err) ->
  (v = 0 /\ err = NumError "ParseInt" s ErrSyntax)
  \/ ((v = maxInt64 \/ v = minInt64) /\ err = NumError "ParseInt" s ErrRange).
Proof.
  destruct s as [|c t]; [intros [= <- <-]; left; split; reflexivity|].
  unfold GoStrconv.ParseInt.
  set (neg := code c =? 45).
  set (s := if (code c =? 43) || neg then t else String c t).
  destruct (GoStrconv.ParseUint s) as [un [e|]] eqn:HU.
  - destruct e; try (intros [= <- <-]; left; split; reflexivity).
    destruct (negb neg && (2 ^ 63 <=? un)); [intros [= <- <-]; right; split; auto|].
    destruct (neg && (2 ^ 63 <? un)); [intros [= <- <-]; right; split; auto|].
    discriminate.
  - destruct (negb neg && (2 ^ 63 <=? un)); [intros [= <- <-]; right; split; auto|].
    destruct (neg && (2 ^ 63 <? un)); [intros [= <- <-]; right; split; auto|].
    discriminate.
Qed.

(** C3, where the code departs from it: a utilization beyond [int64] fails
    to parse with a range error, and the reading that [Collect] returns
    carries the bound that [ParseInt] returned with the error instead of
    zero. *)
Theorem snapshot_range_failure_not_zero :
  parsePercentage "9223372036854775808 %"
  = (9223372036854775807, Some (NumError "ParseInt" "9223372036854775808" ErrRange))
  /\ NvidiaSMICollector.Collect (fun _ => inl {| SmiLog.GPUs := [overflowing_gpu] |})
       ("<nvidia_smi_log/>", None)
     = ([ {| ID := "0"; Name := "Test-GPU";
             MemoryUsedBytes := 1073741824; GPUUtilPercent := 9223372036854775807 |} ],
        None).
Proof. split; reflexivity. Qed.

(** The part of the best-effort policy that the code keeps: every device
    gets its reading, a memory field that fails to parse reads zero, and
    so does a utilization field that fails with a syntax error. *)
Lemma snapshot_best_effort (xml_Unmarshal : string -> SmiLog.t + error)
    (out : string) (doc : SmiLog.t) :
  xml_Unmarshal out = inl doc ->
  NvidiaSMICollector.Collect xml_Unmarshal (out, None)
  = (map NvidiaSMICollector.reading (SmiLog.GPUs doc), None)
  /\ forall g : SmiLog.gpu,
       let r := NvidiaSMICollector.reading g in
       ID r = SmiLog.ID g /\ Name r = SmiLog.ProductName g
       /\ (snd (parseMemory (SmiLog.Used (SmiLog.FBMemory g))) <> None ->
           MemoryUsedBytes r = 0)
       /\ (forall v err,
             parsePercentage (SmiLog.GPUUtil (SmiLog.Utilization g)) = (v, Some err) ->
             GPUUtilPercent r = v
             /\ ((v = 0 /\ exists num, err = NumError "ParseInt" num ErrSyntax)
                 \/ ((v = maxInt64 \/ v = minInt64)
                     /\ exists num, err = NumError "ParseInt" num ErrRange))).
Proof.
  intros Hdoc. split.
  - unfold NvidiaSMICollector.Collect. rewrite Hdoc. reflexivity.
  - intros g. cbn zeta. unfold NvidiaSMICollector.reading.
    destruct (parseMemory _) as [mem merr] eqn:Hm.
    destruct (parsePercentage _) as [util uerr] eqn:Hu.
    cbn [ID Name MemoryUsedBytes GPUUtilPercent].
    split; [reflexivity|]. split; [reflexivity|]. split.
    + intros Herr. unfold parseMemory in Hm.
      destruct (GoStrconv.ParseInt _) as [num [e|]]; [congruence|].
      injection Hm as _ Hmerr. rewrite <- Hmerr in Herr. contradiction.
    + intros v err [= -> ->]. split; [reflexivity|].
      unfold parsePercentage in Hu.
      destruct (ParseInt_failure _ _ _ Hu) as [[-> ->]|[Hv ->]]; eauto.
Qed.

(** ** The Stream-Tail Collector *)



(** ** Floating point fields *)

(** A syntax error of [ParseFloat] comes with the value zero. *)
Lemma ParseFloat_syntax_zero (s fn num : string) (f : float64) :
  GoStrconv.ParseFloat s = (f, Some (NumError fn num ErrSyntax)) -> f = S754_zero false.
Proof.
  unfold GoStrconv.ParseFloat.
  destruct (GoStrconv.special s) as [[f' n]|].
  - destruct (Nat.eqb n (String.length s)); intros [= <-]; reflexivity || discriminate.
  - destruct (GoStrconv.readFloat s) as [[x [|c r]]|]; try (intros [= <-]; reflexivity).
    destruct (GoStrconv.mant x); try discriminate.
    destruct (Float64.is_finite _); discriminate.
Qed.

(** A text that begins with a byte that no number begins with is a syntax
    error. *)
Lemma ParseFloat_bad_start (c : ascii) (t : string) :
  float_start c = false ->
  GoStrconv.ParseFloat (String c t)
  = (S754_zero false, Some (NumError "ParseFloat" (String c t) ErrSyntax)).
Proof.
  unfold float_start, is_sign_byte, is_digit_byte.
  intros H. repeat (apply orb_false_iff in H as [H ?]).
  assert (H48 : (code c =? 48) = false).
  { apply Z.eqb_neq. intros E. rewrite E in *. discriminate. }
  unfold GoStrconv.ParseFloat, GoStrconv.special, GoStrconv.readFloat.
  repeat match goal with Hx : (_ =? _) = false |- _ => rewrite Hx end.
  cbn [orb andb].
  assert (Hm : GoStrconv.read_mantissa false (String c t)
                 {| GoStrconv.sawdot := false; GoStrconv.sawdigits := false;
                    GoStrconv.underscores := false; GoStrconv.digits := 0;
                    GoStrconv.fraction := 0 |}
               = ({| GoStrconv.sawdot := false; GoStrconv.sawdigits := false;
                     GoStrconv.underscores := false; GoStrconv.digits := 0;
                     GoStrconv.fraction := 0 |}, String c t)).
  { cbn [GoStrconv.read_mantissa]. unfold GoStrconv.is_digit.
    repeat match goal with Hx : _ = false |- _ => rewrite Hx end.
    reflexivity. }
  destruct t as [|x [|y t]]; try rewrite H48; cbn [andb]; rewrite Hm; reflexivity.
Qed.

Lemma parseOptionalFloat_non_numeric (F : float64 -> string) (v : JSONValue) :
  non_numeric v = true -> DynologCollector.parseOptionalFloat F v = S754_zero false.
Proof.
  unfold DynologCollector.parseOptionalFloat.
  destruct v as [|b|f|s|l|m]; cbn [non_numeric GoFmt.Sprint_v]; intros H.
  - reflexivity.
  - destruct b; reflexivity.
  - discriminate.
  - destruct (GoStrconv.ParseFloat s) as [f [e|]] eqn:HP; [|discriminate].
    destruct e as [| |fn num e| |]; try discriminate.
    destruct e; try discriminate.
    exact (ParseFloat_syntax_zero _ _ _ _ HP).
  - change ("[" +:+ ?x) with (String "[" x).
    rewrite ParseFloat_bad_start; reflexivity.
  - change ("map[" +:+ ?x) with (String "m" ("ap[" +:+ x)).
    rewrite ParseFloat_bad_start; reflexivity.
Qed.

Lemma parseOptionalFloat_denotes (F : float64 -> string) (v : JSONValue) (x : float64) :
  denotes F v x -> DynologCollector.parseOptionalFloat F v = x.
Proof.
  unfold DynologCollector.parseOptionalFloat.
  destruct v as [|b|f|s|l|m]; cbn [denotes GoFmt.Sprint_v]; try contradiction.
  - intros [<- ->]. reflexivity.
  - intros ->. reflexivity.
Qed.

(** The conversion to [int64] discards the fraction: it rounds toward
    zero. *)
Lemma trunc_toward_zero (s : bool) (m : positive) (e : Z) :
  Float64.trunc (S754_finite s m e)
  = cond_Zopp s (if 0 <=? e then Zpos m * 2 ^ e else Zpos m / 2 ^ (- e)).
Proof.
  unfold Float64.trunc. f_equal.
  destruct (0 <=? e) eqn:He.
  - apply Z.leb_le in He. apply Z.shiftl_mul_pow2. exact He.
  - apply Z.leb_gt in He. apply Z.shiftl_div_pow2. lia.
Qed.

Lemma int64_of_float64_in_range (I : float64 -> int64) (f : float64) :
  Float64.is_finite f = true ->
  minInt64 <= Float64.trunc f <= maxInt64 ->
  DynologCollector.int64_of_float64 I f = Float64.trunc f.
Proof.
  intros Hfin [Hlo Hhi]. unfold DynologCollector.int64_of_float64.
  rewrite Hfin. apply Z.leb_le in Hlo, Hhi. rewrite Hlo, Hhi. reflexivity.
Qed.

(** ** Rounding of products *)

Lemma shr_1_spec (mrs : shr_record) :
  0 <= shr_m mrs ->
  shr_m (shr_1 mrs) = shr_m mrs / 2
  /\ inexact (shr_1 mrs) = Z.odd (shr_m mrs) || inexact mrs.
Proof.
  destruct mrs as [m r s]. unfold inexact. cbn [shr_m shr_r shr_s].
  intros Hm. destruct m as [|p|p]; [split; reflexivity| |lia].
  destruct p as [p|p|]; cbn [shr_1 shr_m shr_r shr_s Z.odd].
  - split; [|reflexivity].
    rewrite Pos2Z.inj_xI. apply Z.div_unique with (r := 1); lia.
  - split; [|reflexivity].
    rewrite Pos2Z.inj_xO. apply Z.div_unique with (r := 0); lia.
  - split; reflexivity.
Qed.

Lemma shifted_1 (x : shr_record) : 0 <= shr_m x -> shifted 1 x (shr_1 x).
Proof.
  intros Hx. destruct (shr_1_spec x Hx) as [Hm Hi]. split; [exact Hm|].
  rewrite Hi. intros [Hodd|H]%orb_true_iff; [right|left; exact H].
  intros [q Hq]. rewrite Hq, Z.mul_comm, Z.odd_mul in Hodd. discriminate.
Qed.

Lemma shifted_trans (a b : Z) (x y z : shr_record) :
  0 < a -> 0 < b -> 0 <= shr_m x ->
  shifted a x y -> shifted b y z -> shifted (a + b) x z.
Proof.
  intros Ha Hb Hx [Hy Hiy] [Hz Hiz].
  assert (Hpa : 0 < 2 ^ a) by (apply Z.pow_pos_nonneg; lia).
  assert (Hpb : 0 < 2 ^ b) by (apply Z.pow_pos_nonneg; lia).
  split.
  - rewrite Hz, Hy, Z.pow_add_r by lia. apply Z.div_div; lia.
  - intros Hi. rewrite Z.pow_add_r by lia.
    destruct (Hiz Hi) as [H|H].
    + destruct (Hiy H) as [H'|H']; [left; exact H'|right].
      intros [q Hq]. apply H'. exists (q * 2 ^ b). lia.
    + right. intros [q Hq]. apply H. exists q.
      rewrite Hy, Hq. replace (q * (2 ^ a * 2 ^ b)) with (q * 2 ^ b * 2 ^ a) by ring.
      apply Z.div_mul. lia.
Qed.

Lemma shifted_nonneg (k : Z) (x y : shr_record) :
  0 < k -> 0 <= shr_m x -> shifted k x y -> 0 <= shr_m y.
Proof.
  intros Hk Hx [Hy _]. rewrite Hy. apply Z.div_pos; [exact Hx|].
  apply Z.pow_pos_nonneg; lia.
Qed.

Lemma iter_shr_1 (p : positive) (x : shr_record) :
  0 <= shr_m x -> shifted (Zpos p) x (SpecFloat.iter_pos shr_1 p x).
Proof.
  revert x. induction p as [p IH|p IH|]; intros x Hx; cbn [SpecFloat.iter_pos].
  - pose proof (shifted_1 x Hx) as H1.
    pose proof (shifted_nonneg 1 _ _ ltac:(lia) Hx H1) as Hx1.
    pose proof (IH _ Hx1) as H2.
    pose proof (shifted_nonneg (Zpos p) _ _ ltac:(lia) Hx1 H2) as Hx2.
    pose proof (IH _ Hx2) as H3.
    replace (Zpos p~1) with ((1 + Zpos p) + Zpos p) by lia.
    eapply shifted_trans; [lia|lia|exact Hx| |exact H3].
    eapply shifted_trans; [lia|lia|exact Hx|exact H1|exact H2].
  - pose proof (IH _ Hx) as H2.
    pose proof (shifted_nonneg (Zpos p) _ _ ltac:(lia) Hx H2) as Hx2.
    pose proof (IH _ Hx2) as H3.
    replace (Zpos p~0) with (Zpos p + Zpos p) by lia.
    eapply shifted_trans; [lia|lia|exact Hx|exact H2|exact H3].
  - apply shifted_1. exact Hx.
Qed.

Lemma digits2_pos_le (m : positive) (k : Z) :
  0 <= k -> Zpos m < 2 ^ k -> Zpos (digits2_pos m) <= k.
Proof.
  revert k. induction m as [m IH|m IH|]; intros k Hk Hm; cbn [digits2_pos].
  - assert (k <> 0) by (intros ->; cbn in Hm; lia).
    rewrite Pos2Z.inj_succ. specialize (IH (k - 1) ltac:(lia)).
    replace k with (1 + (k - 1)) in Hm by lia. rewrite Z.pow_add_r in Hm by lia.
    change (2 ^ 1) with 2 in Hm. lia.
  - assert (k <> 0) by (intros ->; cbn in Hm; lia).
    rewrite Pos2Z.inj_succ. specialize (IH (k - 1) ltac:(lia)).
    replace k with (1 + (k - 1)) in Hm by lia. rewrite Z.pow_add_r in Hm by lia.
    change (2 ^ 1) with 2 in Hm. lia.
  - assert (k <> 0) by (intros ->; cbn in Hm; lia). lia.
Qed.

Lemma Zdigits2_le (m k : Z) : 0 <= m -> 0 <= k -> m < 2 ^ k -> Zdigits2 m <= k.
Proof.
  intros Hm Hk Hlt. destruct m as [|p|p]; cbn [Zdigits2]; [lia| |lia].
  apply digits2_pos_le; assumption.
Qed.

(** One alignment step of the rounding, for a number that is at most [B]. *)
Lemma shr_fexp_bounded (m e B : Z) :
  0 <= m -> e <= 0 -> 0 < B < 2 ^ 53 -> m <= B * 2 ^ (- e) ->
  exists mrs e',
    shr_fexp 53 1024 m e loc_Exact = (mrs, e')
    /\ e' <= 0 /\ 0 <= shr_m mrs
    /\ shr_m mrs <= B * 2 ^ (- e')
    /\ (inexact mrs = true -> shr_m mrs < B * 2 ^ (- e')).
Proof.
  intros Hm He HB Hle.
  unfold shr_fexp, shr. cbn [shr_record_of_loc].
  set (n := fexp 53 1024 (Zdigits2 m + e) - e).
  destruct n as [|p|p] eqn:Hn.
  1,3: eexists _, _; split; [reflexivity|]; cbn [shr_m inexact shr_r shr_s orb];
       repeat split; try assumption; discriminate.
  assert (Hpe : 0 < 2 ^ (- e)) by (apply Z.pow_pos_nonneg; lia).
  assert (Hdig : Zdigits2 m <= 53 - e).
  { apply Zdigits2_le; [assumption|lia|].
    replace (53 - e) with (53 + - e) by lia.
    rewrite Z.pow_add_r by lia.
    eapply Z.le_lt_trans; [exact Hle|].
    apply Z.mul_lt_mono_pos_r; lia. }
  assert (He' : e + Zpos p <= 0).
  { subst n. unfold fexp, emin in Hn. lia. }
  destruct (iter_shr_1 p {| shr_m := m; shr_r := false; shr_s := false |} Hm) as [Hq Hi].
  cbn [shr_m inexact shr_r shr_s orb] in Hq, Hi.
  eexists _, _. split; [reflexivity|].
  assert (Hpp : 0 < 2 ^ Zpos p) by (apply Z.pow_pos_nonneg; lia).
  assert (Hpe' : 0 < 2 ^ (- (e + Zpos p))) by (apply Z.pow_pos_nonneg; lia).
  assert (Hsplit : 2 ^ (- e) = 2 ^ Zpos p * 2 ^ (- (e + Zpos p))).
  { rewrite <- Z.pow_add_r by lia. f_equal. lia. }
  split; [exact He'|]. rewrite Hq.
  split; [apply Z.div_pos; lia|].
  split.
  - apply Z.div_le_upper_bound; [lia|]. rewrite Hsplit in Hle. lia.
  - intros Hin. destruct (Hi Hin) as [?|Hnd]; [discriminate|].
    apply Z.div_lt_upper_bound; [lia|].
    rewrite Hsplit in Hle.
    destruct (Z.eq_dec m (2 ^ Zpos p * (B * 2 ^ (- (e + Zpos p))))) as [Heq|Hne]; [|lia].
    exfalso. apply Hnd. exists (B * 2 ^ (- (e + Zpos p))). lia.
Qed.

Lemma round_nearest_even_bounded (mrs : shr_record) (N : Z) :
  0 <= shr_m mrs -> shr_m mrs <= N ->
  (inexact mrs = true -> shr_m mrs < N) ->
  0 <= round_nearest_even (shr_m mrs) (loc_of_shr_record mrs) <= N.
Proof.
  destruct mrs as [m [|] [|]]; cbn [shr_m inexact shr_r shr_s orb loc_of_shr_record
                                      round_nearest_even]; intros H0 HN Hin.
  - specialize (Hin eq_refl). lia.
  - specialize (Hin eq_refl). destruct (Z.even m); lia.
  - lia.
  - lia.
Qed.

(** The rounded value of a non-negative number that is at most [B], an
    integer below [2^53], is at most [B] too. *)
Lemma binary_round_aux_bounded (mx : positive) (ex B : Z) :
  ex <= 0 -> 0 < B < 2 ^ 53 -> Zpos mx <= B * 2 ^ (- ex) ->
  bounded_by B (binary_round_aux 53 1024 false (Zpos mx) ex loc_Exact) = true.
Proof.
  intros He HB Hle. unfold binary_round_aux.
  destruct (shr_fexp_bounded (Zpos mx) ex B ltac:(lia) He HB Hle)
    as (mrs1 & e1 & -> & He1 & H01 & HN1 & Hin1).
  pose proof (round_nearest_even_bounded mrs1 _ H01 HN1 Hin1) as [H02 HN2].
  destruct (shr_fexp_bounded _ e1 B H02 He1 HB HN2)
    as (mrs2 & e2 & -> & He2 & H03 & HN3 & _).
  destruct (shr_m mrs2) as [|m|m]; [reflexivity| |lia].
  replace (e2 <=? 1024 - 53) with true by (symmetry; apply Z.leb_le; lia).
  cbn [bounded_by]. apply andb_true_iff. split; [apply Z.leb_le|apply Z.leb_le]; assumption.
Qed.

(** Multiplication by a constant [C = mc * 2^ec] keeps the bound. *)
Lemma mul_bounded (B C : Z) (x : float64) (mc : positive) (ec : Z) :
  0 < B -> 0 < C -> B * C < 2 ^ 53 -> ec <= 0 -> Zpos mc = C * 2 ^ (- ec) ->
  bounded_by B x = true ->
  bounded_by (B * C) (Float64.mul x (S754_finite false mc ec)) = true.
Proof.
  intros HB HC HBC Hec Hmc Hx.
  destruct x as [s| | |s m e]; try discriminate; [reflexivity|].
  destruct s; [discriminate|].
  cbn [bounded_by] in Hx. apply andb_true_iff in Hx as [He Hm].
  apply Z.leb_le in He, Hm.
  unfold Float64.mul, Float64.prec, Float64.emax, SFmul. cbn [xorb].
  apply binary_round_aux_bounded; [lia|lia|].
  rewrite Pos2Z.inj_mul, Hmc.
  replace (- (e + ec)) with (- e + - ec) by lia.
  rewrite Z.pow_add_r by lia.
  assert (0 < 2 ^ (- ec)) by (apply Z.pow_pos_nonneg; lia).
  assert (0 < 2 ^ (- e)) by (apply Z.pow_pos_nonneg; lia).
  replace (B * C * (2 ^ (- e) * 2 ^ (- ec))) with ((B * 2 ^ (- e)) * (C * 2 ^ (- ec))) by ring.
  apply Z.mul_le_mono_nonneg_r; lia.
Qed.

Lemma trunc_bounded (B : Z) (x : float64) :
  0 <= B -> bounded_by B x = true -> 0 <= Float64.trunc x <= B.
Proof.
  intros HB Hx. destruct x as [s| | |s m e]; try discriminate; [cbn; lia|].
  destruct s; [discriminate|].
  cbn [bounded_by] in Hx. apply andb_true_iff in Hx as [He Hm].
  apply Z.leb_le in He, Hm.
  cbn [Float64.trunc cond_Zopp].
  rewrite Z.shiftl_div_pow2 by lia.
  assert (0 < 2 ^ (- e)) by (apply Z.pow_pos_nonneg; lia).
  split; [apply Z.div_pos; lia|].
  apply Z.div_le_upper_bound; lia.
Qed.

Lemma bounded_by_finite (B : Z) (x : float64) :
  bounded_by B x = true -> Float64.is_finite x = true.
Proof. destruct x as [s| | |[|] m e]; try discriminate; reflexivity. Qed.

(** The conversion of a bounded number does not depend on the platform. *)
Lemma int64_of_float64_bounded (I : float64 -> int64) (B : Z) (x : float64) :
  0 <= B <= maxInt64 -> bounded_by B x = true ->
  0 <= DynologCollector.int64_of_float64 I x <= B.
Proof.
  intros HB Hx. pose proof (trunc_bounded B x ltac:(lia) Hx) as Ht.
  rewrite int64_of_float64_in_range.
  - exact Ht.
  - exact (bounded_by_finite B x Hx).
  - unfold minInt64. lia.
Qed.

(** The products that [Collect] forms from a ratio between zero and one. *)
Lemma ratio_products_bounded (x : float64) :
  bounded_by 1 x = true ->
  bounded_by 1048576
    (Float64.mul (Float64.mul x (Float64.of_Z 1024)) (Float64.of_Z 1024)) = true
  /\ bounded_by 100 (Float64.mul x (Float64.of_Z 100)) = true.
Proof.
  intros Hx.
  change (Float64.of_Z 1024) with (S754_finite false 4503599627370496 (-42)).
  change (Float64.of_Z 100) with (S754_finite false 7036874417766400 (-46)).
  split.
  - apply (mul_bounded 1024 1024); [lia|lia|reflexivity|lia|reflexivity|].
    apply (mul_bounded 1 1024); [lia|lia|reflexivity|lia|reflexivity|exact Hx].
  - apply (mul_bounded 1 100); [lia|lia|reflexivity|lia|reflexivity|exact Hx].
Qed.

Lemma ratio_field_ok_value (F : float64 -> string) (v : JSONValue) :
  ratio_field_ok F v -> bounded_by 1 (DynologCollector.parseOptionalFloat F v) = true.
Proof.
  intros [Hnon|(x & Hden & Hx)].
  - rewrite (parseOptionalFloat_non_numeric F v Hnon). reflexivity.
  - rewrite (parseOptionalFloat_denotes F v x Hden). exact Hx.
Qed.

(** ** The readings of the Stream-Tail Collector *)

Lemma forallb_map_dropCR (p : string -> bool) (ls : list string) :
  forallb p (map GoBufio.dropCR ls) = forallb (fun l => p (GoBufio.dropCR l)) ls.
Proof. induction ls as [|l ls IH]; cbn; [reflexivity|]. rewrite IH. reflexivity. Qed.

(** A scanner that is reading hands out the lines that fit, without their
    carriage returns, and moves on by as many lines. *)
Lemma reading_scanner (noise rest : list string) :
  forall sc : GoBufio.Scanner,
  GoBufio.mode sc = GoBufio.Reading ->
  skipn (GoBufio.cursor sc) (GoBufio.stream sc) = noise ++ rest ->
  forallb GoBufio.fits noise = true ->
  let sc' := {| GoBufio.stream := GoBufio.stream sc;
                GoBufio.cursor := (GoBufio.cursor sc + length noise)%nat;
                GoBufio.stream_err := GoBufio.stream_err sc;
                GoBufio.mode := GoBufio.Reading |} in
  advance sc (length noise) = sc'
  /\ pending sc = map GoBufio.dropCR noise ++ pending sc'.
Proof.
  induction noise as [|l noise IH]; intros sc Hmode Hskip Hfits; cbn zeta.
  - cbn [length map app advance]. rewrite Nat.add_0_r.
    destruct sc as [s c e m]. cbn in Hmode. subst m. split; reflexivity.
  - cbn [forallb] in Hfits. apply andb_prop in Hfits as [Hl Hfits].
    destruct (skipn_cons_nth_error _ _ _ _ Hskip) as [Hnth Hskip'].
    assert (HS : GoBufio.Scan sc
                 = (Some (GoBufio.dropCR l),
                    {| GoBufio.stream := GoBufio.stream sc;
                       GoBufio.cursor := S (GoBufio.cursor sc);
                       GoBufio.stream_err := GoBufio.stream_err sc;
                       GoBufio.mode := GoBufio.Reading |})).
    { unfold GoBufio.Scan. rewrite Hmode, Hnth, Hl. reflexivity. }
    rewrite pending_Scan. cbn [length map app advance]. rewrite HS. cbn [snd].
    destruct (IH {| GoBufio.stream := GoBufio.stream sc;
                    GoBufio.cursor := S (GoBufio.cursor sc);
                    GoBufio.stream_err := GoBufio.stream_err sc;
                    GoBufio.mode := GoBufio.Reading |} eq_refl Hskip' Hfits) as [IH1 IH2].
    cbn [GoBufio.stream GoBufio.cursor GoBufio.stream_err] in IH1, IH2.
    replace (GoBufio.cursor sc + S (length noise))%nat
      with (S (GoBufio.cursor sc) + length noise)%nat by lia.
    rewrite IH1, IH2. split; reflexivity.
Qed.

(** At the end of the stream a scanner that is reading stays as it is. *)
Lemma reading_scanner_end (sc : GoBufio.Scanner) :
  GoBufio.mode sc = GoBufio.Reading ->
  (length (GoBufio.stream sc) <= GoBufio.cursor sc)%nat ->
  GoBufio.Scan sc = (None, sc) /\ GoBufio.Err sc = GoBufio.stream_err sc.
Proof.
  intros Hmode Hlen. unfold GoBufio.Scan, GoBufio.Err. rewrite Hmode.
  apply nth_error_None in Hlen. rewrite Hlen. split; reflexivity.
Qed.

(** The fields of the reading that [Collect] builds from a decoded
    object. *)
Lemma reading_fields (F : float64 -> string) (I : float64 -> int64)
    (j : gmap string JSONValue) :
  let r := DynologCollector.reading F I j in
  ID r = GoFmt.Sprint_v F (DynologCollector.index j "device")
  /\ Name r = "DCGM-GPU"
  /\ (forall m : float64,
        denotes F (DynologCollector.index j "gpu_memory_utilization") m ->
        let bytes := Float64.mul (Float64.mul m (Float64.of_Z 1024)) (Float64.of_Z 1024) in
        MemoryUsedBytes r = DynologCollector.int64_of_float64 I bytes
        /\ (bounded_by 1 m = true -> MemoryUsedBytes r = Float64.trunc bytes))
  /\ (forall u : float64,
        denotes F (DynologCollector.index j "sm_active_ratio") u ->
        let percent := Float64.mul u (Float64.of_Z 100) in
        GPUUtilPercent r = DynologCollector.int64_of_float64 I percent
        /\ (bounded_by 1 u = true -> GPUUtilPercent r = Float64.trunc percent)).
Proof.
  cbn zeta. split; [reflexivity|]. split; [reflexivity|]. split.
  - intros m Hden. unfold DynologCollector.reading. cbn [MemoryUsedBytes].
    rewrite (parseOptionalFloat_denotes F _ m Hden). split; [reflexivity|].
    intros Hm. destruct (ratio_products_bounded m Hm) as [Hb _].
    apply int64_of_float64_in_range; [exact (bounded_by_finite _ _ Hb)|].
    pose proof (trunc_bounded 1048576 _ ltac:(lia) Hb). unfold minInt64, maxInt64. lia.
  - intros u Hden. unfold DynologCollector.reading. cbn [GPUUtilPercent].
    rewrite (parseOptionalFloat_denotes F _ u Hden). split; [reflexivity|].
    intros Hu. destruct (ratio_products_bounded u Hu) as [_ Hb].
    apply int64_of_float64_in_range; [exact (bounded_by_finite _ _ Hb)|].
    pose proof (trunc_bounded 100 _ ltac:(lia) Hb). unfold minInt64, maxInt64. lia.
Qed.

Lemma filler_length (n : nat) : String.length (filler n) = n.
Proof. induction n as [|n IH]; cbn; [reflexivity|]. rewrite IH. reflexivity. Qed.

Lemma filler_no_match (n : nat) : dataRegex.FindStringSubmatch (filler n) = None.
Proof. induction n as [|n IH]; [reflexivity|]. cbn [filler dataRegex.FindStringSubmatch]. exact IH. Qed.

Lemma dropCR_filler (n : nat) : GoBufio.dropCR (filler n) = filler n.
Proof.
  induction n as [|n IH]; [reflexivity|].
  cbn [filler GoBufio.dropCR]. destruct n as [|n]; [reflexivity|].
  cbn [filler] in *. rewrite IH. reflexivity.
Qed.

Lemma too_long_line_spec :
  GoBufio.fits too_long_line = false
  /\ GoBufio.dropCR (GoBufio.buffered too_long_line) = too_long_line
  /\ dataRegex.FindStringSubmatch too_long_line = None.
Proof.
  unfold too_long_line, GoBufio.fits, GoBufio.buffered. split; [|split].
  - rewrite filler_length, Z2Nat.id by (unfold GoBufio.MaxScanTokenSize; lia).
    apply Z.ltb_irrefl.
  - rewrite first_bytes_all by (rewrite filler_length; lia). apply dropCR_filler.
  - apply filler_no_match.
Qed.

(** C4 as stated fails: a line that does not fit the buffer of the scanner
    stops the collector for good.  On a stream whose first line has 65536
    bytes and does not match, and whose second line matches and decodes,
    the call returns the error of the scanner and no reading; the next
    call echoes the 65536 bytes that the buffer held and returns the same
    error; so does every call after that, and none reads the second
    line. *)
Lemma stream_tail_line_too_long :
  let U := sample_Unmarshal in
  let F := sample_FormatFloat_g in
  let I := sample_indefinite in
  let stopped (cursor : nat) (mode : GoBufio.Mode) :=
    {| GoBufio.stream := [too_long_line; sample_line];
       GoBufio.cursor := cursor;
       GoBufio.stream_err := None;
       GoBufio.mode := mode |} in
  let failure := ([], Some (wrapError "reading dynolog stderr: "
                              (errorString "bufio.Scanner: token too long"))) in
  Z.of_nat (String.length too_long_line) = 65536
  /\ matches too_long_line = false
  /\ dataRegex.FindStringSubmatch sample_line = Some sample_payload
  /\ U sample_payload = inl sample_object
  /\ too_long_scanner = stopped 0%nat GoBufio.Reading
  /\ DynologCollector.Collect U F I {| DynologCollector.scanner := too_long_scanner |}
     = (failure, {| DynologCollector.scanner := stopped 0%nat GoBufio.Full |}, [])
  /\ DynologCollector.Collect U F I
       {| DynologCollector.scanner := stopped 0%nat GoBufio.Full |}
     = (failure, {| DynologCollector.scanner := stopped 1%nat GoBufio.ShutDown |},
        [too_long_line])
  /\ DynologCollector.Collect U F I
       {| DynologCollector.scanner := stopped 1%nat GoBufio.ShutDown |}
     = (failure, {| DynologCollector.scanner := stopped 1%nat GoBufio.ShutDown |}, [])
  /\ DynologCollectorTyped.Collect sample_Unmarshal_typed
       {| DynologCollectorTyped.scanner := too_long_scanner |}
     = ((DynologData_zero, Some (errorString "bufio.Scanner: token too long")),
        {| DynologCollectorTyped.scanner := stopped 0%nat GoBufio.Full |}, []).
Proof.
  cbn zeta. destruct too_long_line_spec as (Hfit & Hbuf & Hno).
  assert (H0 : GoBufio.Scan too_long_scanner
               = (None, {| GoBufio.stream := [too_long_line; sample_line];
                           GoBufio.cursor := 0;
                           GoBufio.stream_err := None;
                           GoBufio.mode := GoBufio.Full |}))
    by (unfold GoBufio.Scan; cbn [too_long_scanner GoBufio.mode GoBufio.stream
                                   GoBufio.cursor GoBufio.stream_err nth_error];
        rewrite Hfit; reflexivity).
  assert (H1 : GoBufio.Scan {| GoBufio.stream := [too_long_line; sample_line];
                               GoBufio.cursor := 0;
                               GoBufio.stream_err := None;
                               GoBufio.mode := GoBufio.Full |}
               = (Some too_long_line,
                  {| GoBufio.stream := [too_long_line; sample_line];
                     GoBufio.cursor := 1;
                     GoBufio.stream_err := None;
                     GoBufio.mode := GoBufio.ShutDown |}))
    by (unfold GoBufio.Scan; cbn [GoBufio.mode GoBufio.stream GoBufio.cursor
                                   GoBufio.stream_err nth_error];
        rewrite Hbuf; reflexivity).
  split; [unfold too_long_line; rewrite filler_length;
          rewrite Z2Nat.id by (unfold GoBufio.MaxScanTokenSize; lia); reflexivity|].
  split; [unfold matches; rewrite Hno; reflexivity|].
  split; [vm_compute; reflexivity|].
  split; [vm_compute; reflexivity|].
  split; [reflexivity|].
  rewrite !Collect_spec, Collect_typed_spec.
  rewrite (pending_Scan too_long_scanner), H0.
  rewrite (pending_Scan {| GoBufio.stream := [too_long_line; sample_line];
                           GoBufio.cursor := 0;
                           GoBufio.stream_err := None;
                           GoBufio.mode := GoBufio.Full |}), H1.
  change (pending {| GoBufio.stream := [too_long_line; sample_line];
                     GoBufio.cursor := 1;
                     GoBufio.stream_err := None;
                     GoBufio.mode := GoBufio.ShutDown |}) with (@nil string).
  cbn [split_first_match]. rewrite Hno. cbn [length advance].
  rewrite H0, H1. cbn [snd].
  repeat split; reflexivity.
Qed.

(** C4 as the code has it: while the lines of the stream fit the buffer
    of the scanner, lines that do not match the pattern are skipped (and
    echoed), and the call returns what the payload of the first matching
    line decodes to, leaving the cursor behind that line: the one reading
    built from the decoded object, or the decoded record in the other
    revision, or the error of the decoder; when the stream ends without a
    matching line and without a read error the call returns the error
    "no dynolog JSON lines found yet".  Both revisions of [Collect]. *)
Theorem stream_tail_first_match
    (U : string -> gmap string JSONValue + error) (F : float64 -> string)
    (I : float64 -> int64) (UT : string -> DynologData + error)
    (sc : GoBufio.Scanner) (noise : list string) :
  GoBufio.mode sc = GoBufio.Reading ->
  forallb GoBufio.fits noise = true ->
  forallb (fun l => negb (matches (GoBufio.dropCR l))) noise = true ->
  let echo := map GoBufio.dropCR noise in
  let moved (n : nat) :=
    {| GoBufio.stream := GoBufio.stream sc;
       GoBufio.cursor := (GoBufio.cursor sc + n)%nat;
       GoBufio.stream_err := GoBufio.stream_err sc;
       GoBufio.mode := GoBufio.Reading |} in
  (forall (line payload : string) (rest : list string),
     skipn (GoBufio.cursor sc) (GoBufio.stream sc) = noise ++ line :: rest ->
     GoBufio.fits line = true ->
     dataRegex.FindStringSubmatch (GoBufio.dropCR line) = Some payload ->
     let sc1 := moved (S (length noise)) in
     let out := echo ++ [GoBufio.dropCR line] in
     (forall j : gmap string JSONValue,
        U payload = inl j ->
        exists r : GPUData,
          DynologCollector.Collect U F I {| DynologCollector.scanner := sc |}
          = (([r], None), {| DynologCollector.scanner := sc1 |}, out)
          /\ ID r = GoFmt.Sprint_v F (default JNil (j !! "device"))
          /\ Name r = "DCGM-GPU"
          /\ (forall m : float64,
                denotes F (default JNil (j !! "gpu_memory_utilization")) m ->
                let bytes :=
                  Float64.mul (Float64.mul m (Float64.of_Z 1024)) (Float64.of_Z 1024) in
                MemoryUsedBytes r = DynologCollector.int64_of_float64 I bytes
                /\ (bounded_by 1 m = true -> MemoryUsedBytes r = Float64.trunc bytes))
          /\ (forall u : float64,
                denotes F (default JNil (j !! "sm_active_ratio")) u ->
                let percent := Float64.mul u (Float64.of_Z 100) in
                GPUUtilPercent r = DynologCollector.int64_of_float64 I percent
                /\ (bounded_by 1 u = true -> GPUUtilPercent r = Float64.trunc percent)))
     /\ (forall e : error,
           U payload = inr e ->
           DynologCollector.Collect U F I {| DynologCollector.scanner := sc |}
           = (([], Some (wrapError "json parse error: " e)),
              {| DynologCollector.scanner := sc1 |}, out))
     /\ (forall raw : DynologData,
           UT payload = inl raw ->
           DynologCollectorTyped.Collect UT {| DynologCollectorTyped.scanner := sc |}
           = ((raw, None), {| DynologCollectorTyped.scanner := sc1 |}, out))
     /\ (forall e : error,
           UT payload = inr e ->
           DynologCollectorTyped.Collect UT {| DynologCollectorTyped.scanner := sc |}
           = ((DynologData_zero, Some e), {| DynologCollectorTyped.scanner := sc1 |}, out)))
  /\ (skipn (GoBufio.cursor sc) (GoBufio.stream sc) = noise ->
      GoBufio.stream_err sc = None ->
      DynologCollector.Collect U F I {| DynologCollector.scanner := sc |}
      = (([], Some (errorString "no dynolog JSON lines found yet")),
         {| DynologCollector.scanner := moved (length noise) |}, echo)
      /\ DynologCollectorTyped.Collect UT {| DynologCollectorTyped.scanner := sc |}
         = ((DynologData_zero, Some (errorString "no dynolog JSON lines found yet")),
            {| DynologCollectorTyped.scanner := moved (length noise) |}, echo)).
Proof.
  intros Hmode Hfits Hnoise. cbn zeta.
  assert (Hquiet : forallb (fun l => negb (matches l)) (map GoBufio.dropCR noise) = true)
    by (rewrite forallb_map_dropCR; exact Hnoise).
  split.
  - intros line payload rest Hskip Hfit Hline.
    destruct (reading_scanner (noise ++ [line]) rest sc Hmode) as [Hadv Hpending];
      [rewrite <- app_assoc; exact Hskip
      |rewrite forallb_app, Hfits; cbn; rewrite Hfit; reflexivity|].
    rewrite length_app in Hadv, Hpending. cbn [length] in Hadv, Hpending.
    rewrite Nat.add_1_r in Hadv, Hpending.
    rewrite map_app, <- app_assoc in Hpending. cbn [map app] in Hpending.
    rewrite Collect_spec, Collect_typed_spec, Hpending.
    rewrite (split_first_match_hit _ _ payload _ Hquiet Hline).
    rewrite length_map, Hadv. unfold from_payload, from_payload_typed.
    split; [|split; [|split]].
    + intros j ->. exists (DynologCollector.reading F I j).
      split; [reflexivity|]. apply reading_fields.
    + intros e ->. reflexivity.
    + intros raw ->. reflexivity.
    + intros e ->. reflexivity.
  - intros Hskip Herr.
    destruct (reading_scanner noise [] sc Hmode) as [Hadv Hpending];
      [rewrite app_nil_r; exact Hskip|exact Hfits|].
    set (sc' := {| GoBufio.stream := GoBufio.stream sc;
                   GoBufio.cursor := (GoBufio.cursor sc + length noise)%nat;
                   GoBufio.stream_err := GoBufio.stream_err sc;
                   GoBufio.mode := GoBufio.Reading |}) in *.
    destruct (reading_scanner_end sc' eq_refl) as [HScan HErr].
    { cbn [sc' GoBufio.stream GoBufio.cursor].
      rewrite <- Hskip, length_skipn. lia. }
    assert (Hnil : pending sc' = []) by (rewrite pending_Scan, HScan; reflexivity).
    rewrite Hnil, app_nil_r in Hpending.
    rewrite Collect_spec, Collect_typed_spec, Hpending.
    rewrite (split_first_match_miss _ Hquiet), length_map.
    rewrite advance_last, Hadv, HScan. cbn [snd].
    unfold DynologCollector.after_loop, DynologCollectorTyped.after_loop.
    rewrite HErr. cbn [sc' GoBufio.stream_err]. rewrite Herr. split; reflexivity.
Qed.

Lemma stream_tail_first_match_witness :
  (exists r : GPUData,
     DynologCollector.Collect sample_Unmarshal sample_FormatFloat_g sample_indefinite
       {| DynologCollector.scanner := sample_scanner |}
     = (([r], None),
        {| DynologCollector.scanner :=
             {| GoBufio.stream := ["noise..."; sample_line; "more noise"];
                GoBufio.cursor := 2;
                GoBufio.stream_err := None;
                GoBufio.mode := GoBufio.Reading |} |},
        ["noise..."; sample_line])
     /\ ID r = "0" /\ Name r = "DCGM-GPU"
     /\ MemoryUsedBytes r = 262144 /\ GPUUtilPercent r = 50)
  /\ DynologCollectorTyped.Collect sample_Unmarshal_typed
       {| DynologCollectorTyped.scanner := sample_scanner |}
     = ((sample_data, None),
        {| DynologCollectorTyped.scanner :=
             {| GoBufio.stream := ["noise..."; sample_line; "more noise"];
                GoBufio.cursor := 2;
                GoBufio.stream_err := None;
                GoBufio.mode := GoBufio.Reading |} |},
        ["noise..."; sample_line])
  /\ DynologCollector.Collect sample_Unmarshal sample_FormatFloat_g sample_indefinite
       {| DynologCollector.scanner :=
            {| GoBufio.stream := ["noise..."; "more noise"];
               GoBufio.cursor := 0;
               GoBufio.stream_err := None;
               GoBufio.mode := GoBufio.Reading |} |}
     = (([], Some (errorString "no dynolog JSON lines found yet")),
        {| DynologCollector.scanner :=
             {| GoBufio.stream := ["noise..."; "more noise"];
                GoBufio.cursor := 2;
                GoBufio.stream_err := None;
                GoBufio.mode := GoBufio.Reading |} |},
        ["noise..."; "more noise"]).
Proof.
  destruct (stream_tail_first_match sample_Unmarshal sample_FormatFloat_g sample_indefinite
              sample_Unmarshal_typed sample_scanner ["noise..."] eq_refl eq_refl eq_refl)
    as [Hhit _].
  destruct (Hhit sample_line sample_payload ["more noise"] eq_refl eq_refl
              ltac:(vm_compute; reflexivity)) as (Hj & _ & Hraw & _).
  destruct (stream_tail_first_match sample_Unmarshal sample_FormatFloat_g sample_indefinite
              sample_Unmarshal_typed
              {| GoBufio.stream := ["noise..."; "more noise"];
                 GoBufio.cursor := 0;
                 GoBufio.stream_err := None;
                 GoBufio.mode := GoBufio.Reading |}
              ["noise..."; "more noise"] eq_refl eq_refl eq_refl)
    as [_ Hmiss].
  split; [|split].
  - destruct (Hj sample_object ltac:(vm_compute; reflexivity))
      as (r & Hr & Hid & Hname & Hmem & Hutil).
    exists r. split; [exact Hr|].
    split; [rewrite Hid; vm_compute; reflexivity|].
    split; [exact Hname|].
    split.
    + destruct (Hmem (S754_finite false 4503599627370496 (-54))
                  ltac:(vm_compute; split; reflexivity)) as [_ ->]; reflexivity.
    + destruct (Hutil (S754_finite false 4503599627370496 (-53))
                  ltac:(vm_compute; reflexivity)) as [_ ->]; reflexivity.
  - exact (Hraw sample_data ltac:(vm_compute; reflexivity)).
  - exact (proj1 (Hmiss eq_refl eq_refl)).
Defined.

(** C5: the reading that [Collect] builds from the decoded object of the
    first matching line.  The identifier is the device field as [%v]
    prints it, the name is the placeholder "DCGM-GPU", the memory is the
    number of the field [gpu_memory_utilization] times 1024 times 1024 and
    the utilization the number of [sm_active_ratio] times 100, both
    products taken in binary64 and converted to [int64]. *)
Theorem stream_tail_reading
    (U : string -> gmap string JSONValue + error) (F : float64 -> string)
    (I : float64 -> int64) (sc : GoBufio.Scanner)
    (noise : list string) (line payload : string) (rest : list string)
    (j : gmap string JSONValue) :
  forallb (fun l => negb (matches l)) noise = true ->
  pending sc = noise ++ line :: rest ->
  dataRegex.FindStringSubmatch line = Some payload ->
  U payload = inl j ->
  exists r : GPUData,
    fst (fst (DynologCollector.Collect U F I {| DynologCollector.scanner := sc |}))
    = ([r], None)
    /\ ID r = GoFmt.Sprint_v F (DynologCollector.index j "device")
    /\ Name r = "DCGM-GPU"
    /\ (forall m : float64,
          denotes F (DynologCollector.index j "gpu_memory_utilization") m ->
          let bytes := Float64.mul (Float64.mul m (Float64.of_Z 1024)) (Float64.of_Z 1024) in
          MemoryUsedBytes r = DynologCollector.int64_of_float64 I bytes
          /\ (bounded_by 1 m = true -> MemoryUsedBytes r = Float64.trunc bytes))
    /\ (forall u : float64,
          denotes F (DynologCollector.index j "sm_active_ratio") u ->
          let percent := Float64.mul u (Float64.of_Z 100) in
          GPUUtilPercent r = DynologCollector.int64_of_float64 I percent
          /\ (bounded_by 1 u = true -> GPUUtilPercent r = Float64.trunc percent)).
Proof.
  intros Hnoise Hpending Hline Hj.
  exists (DynologCollector.reading F I j).
  rewrite Collect_spec, Hpending.
  rewrite (split_first_match_hit noise line payload rest Hnoise Hline).
  unfold from_payload. rewrite Hj. cbn [fst].
  split; [reflexivity|]. split; [reflexivity|]. split; [reflexivity|].
  split.
  - intros m Hden. cbn zeta. unfold DynologCollector.reading. cbn [MemoryUsedBytes].
    rewrite (parseOptionalFloat_denotes F _ m Hden). split; [reflexivity|].
    intros Hm. destruct (ratio_products_bounded m Hm) as [Hb _].
    apply int64_of_float64_in_range; [exact (bounded_by_finite _ _ Hb)|].
    pose proof (trunc_bounded 1048576 _ ltac:(lia) Hb). unfold minInt64, maxInt64. lia.
  - intros u Hden. cbn zeta. unfold DynologCollector.reading. cbn [GPUUtilPercent].
    rewrite (parseOptionalFloat_denotes F _ u Hden). split; [reflexivity|].
    intros Hu. destruct (ratio_products_bounded u Hu) as [_ Hb].
    apply int64_of_float64_in_range; [exact (bounded_by_finite _ _ Hb)|].
    pose proof (trunc_bounded 100 _ ltac:(lia) Hb). unfold minInt64, maxInt64. lia.
Qed.

Lemma stream_tail_reading_witness :
  exists r : GPUData,
    fst (fst (DynologCollector.Collect sample_Unmarshal sample_FormatFloat_g sample_indefinite
                {| DynologCollector.scanner := sample_scanner |}))
    = ([r], None)
    /\ ID r = "0" /\ Name r = "DCGM-GPU"
    /\ MemoryUsedBytes r = 262144 /\ GPUUtilPercent r = 50.
Proof.
  destruct (stream_tail_reading sample_Unmarshal sample_FormatFloat_g sample_indefinite
              sample_scanner ["noise..."] sample_line sample_payload ["more noise"]
              sample_object eq_refl eq_refl
              ltac:(vm_compute; reflexivity) ltac:(vm_compute; reflexivity))
    as (r & Hr & Hid & Hname & Hmem & Hutil).
  exists r. split; [exact Hr|].
  split; [rewrite Hid; vm_compute; reflexivity|].
  split; [exact Hname|].
  split.
  - destruct (Hmem (S754_finite false 4503599627370496 (-54))
                ltac:(vm_compute; split; reflexivity)) as [_ ->]; reflexivity.
  - destruct (Hutil (S754_finite false 4503599627370496 (-53))
                ltac:(vm_compute; reflexivity)) as [_ ->]; reflexivity.
Defined.

(** The products are binary64 products: 0.29 times 100 is just below 29
    and reads 28, while 0.35 times 100 rounds to 35 and reads 35. *)
Example percent_of_0_29 :
  GPUUtilPercent
    (DynologCollector.reading sample_FormatFloat_g sample_indefinite (ratio_object "0.29"))
  = 28.
Proof. vm_compute. reflexivity. Qed.

Example percent_of_0_35 :
  GPUUtilPercent
    (DynologCollector.reading sample_FormatFloat_g sample_indefinite (ratio_object "0.35"))
  = 35.
Proof. vm_compute. reflexivity. Qed.

(** C10: in the revision that decodes into an untyped map, once the
    payload of the first matching line decodes, [Collect] returns one
    reading and no error whatever fields the object has.  A missing key
    reads as [nil]; a missing "device" gives the identifier "<nil>"; a
    missing or non-numeric [gpu_memory_utilization] gives zero bytes and a
    missing or non-numeric [sm_active_ratio] zero percent. *)
Theorem untyped_missing_fields
    (U : string -> gmap string JSONValue + error) (F : float64 -> string)
    (I : float64 -> int64) (sc : GoBufio.Scanner)
    (noise : list string) (line payload : string) (rest : list string)
    (j : gmap string JSONValue) :
  forallb (fun l => negb (matches l)) noise = true ->
  pending sc = noise ++ line :: rest ->
  dataRegex.FindStringSubmatch line = Some payload ->
  U payload = inl j ->
  exists r : GPUData,
    fst (fst (DynologCollector.Collect U F I {| DynologCollector.scanner := sc |}))
    = ([r], None)
    /\ (j !! "device" = None -> ID r = "<nil>")
    /\ (forall key : string,
          j !! key = None -> non_numeric (DynologCollector.index j key) = true)
    /\ (non_numeric (DynologCollector.index j "gpu_memory_utilization") = true ->
        MemoryUsedBytes r = 0)
    /\ (non_numeric (DynologCollector.index j "sm_active_ratio") = true ->
        GPUUtilPercent r = 0).
Proof.
  intros Hnoise Hpending Hline Hj.
  exists (DynologCollector.reading F I j).
  rewrite Collect_spec, Hpending.
  rewrite (split_first_match_hit noise line payload rest Hnoise Hline).
  unfold from_payload. rewrite Hj. cbn [fst].
  split; [reflexivity|]. split; [|split; [|split]].
  - intros Hdev. unfold DynologCollector.reading, DynologCollector.index.
    cbn [ID]. rewrite Hdev. reflexivity.
  - intros key Hkey. unfold DynologCollector.index. rewrite Hkey. reflexivity.
  - intros Hmem. unfold DynologCollector.reading. cbn [MemoryUsedBytes].
    rewrite (parseOptionalFloat_non_numeric F _ Hmem). reflexivity.
  - intros Hutil. unfold DynologCollector.reading. cbn [GPUUtilPercent].
    rewrite (parseOptionalFloat_non_numeric F _ Hutil). reflexivity.
Qed.

Lemma untyped_missing_fields_witness :
  exists r : GPUData,
    fst (fst (DynologCollector.Collect empty_Unmarshal sample_FormatFloat_g sample_indefinite
                {| DynologCollector.scanner := sample_scanner |}))
    = ([r], None)
    /\ ID r = "<nil>" /\ MemoryUsedBytes r = 0 /\ GPUUtilPercent r = 0.
Proof.
  destruct (untyped_missing_fields empty_Unmarshal sample_FormatFloat_g sample_indefinite
              sample_scanner ["noise..."] sample_line sample_payload ["more noise"] ∅
              eq_refl eq_refl ltac:(vm_compute; reflexivity) eq_refl)
    as (r & Hr & Hid & Hnil & Hmem & Hutil).
  exists r. split; [exact Hr|].
  split; [exact (Hid eq_refl)|].
  split; [exact (Hmem (Hnil "gpu_memory_utilization" eq_refl))|].
  exact (Hutil (Hnil "sm_active_ratio" eq_refl)).
Defined.

(** ** The invariants of the Canonical Reading *)

(** C7 as stated fails: neither collector clamps what its source reports.
    A Snapshot device with the fields "-1 MiB" and "150 %" and a Stream-Tail
    object with the ratios "-1" and "1.5" give readings outside the
    invariants. *)
Lemma readings_not_clamped :
  (exists r : GPUData,
     NvidiaSMICollector.Collect (fun _ => inl {| SmiLog.GPUs := [hot_gpu] |}) ("", None)
     = ([r], None)
     /\ MemoryUsedBytes r = -1048576 /\ GPUUtilPercent r = 150
     /\ ~ reading_invariant r)
  /\ (exists r : GPUData,
        from_payload (fun _ => inl hot_object) sample_FormatFloat_g sample_indefinite "{}"
        = ([r], None)
        /\ MemoryUsedBytes r = -1048576 /\ GPUUtilPercent r = 150
        /\ ~ reading_invariant r).
Proof.
  split; eexists; (split; [vm_compute; reflexivity|]);
    (split; [reflexivity|]); (split; [reflexivity|]);
    unfold reading_invariant; cbn [MemoryUsedBytes GPUUtilPercent]; lia.
Qed.

Lemma snapshot_reading_invariant (g : SmiLog.gpu) :
  memory_field_ok (SmiLog.Used (SmiLog.FBMemory g)) ->
  utilization_field_ok (SmiLog.GPUUtil (SmiLog.Utilization g)) ->
  reading_invariant (NvidiaSMICollector.reading g).
Proof.
  intros Hmem Hutil.
  unfold memory_field_ok, utilization_field_ok in *. cbn zeta in *.
  set (nm := numeric_part "MiB" _) in *. set (np := numeric_part "%" _) in *.
  assert (Hm : 0 <= fst (parseMemory (SmiLog.Used (SmiLog.FBMemory g)))).
  { unfold parseMemory. fold (numeric_part "MiB" (SmiLog.Used (SmiLog.FBMemory g))).
    fold nm. destruct (is_decimal_integer nm) eqn:Hd.
    - specialize (Hmem eq_refl).
      rewrite (ParseInt_decimal nm Hd) by (unfold minInt64, maxInt64; lia).
      cbn [fst]. unfold mul64.
      rewrite (wrap64_small (int_value nm * 1024)) by (unfold minInt64, maxInt64; lia).
      rewrite wrap64_small by (unfold minInt64, maxInt64; lia). lia.
    - destruct (ParseInt_malformed nm Hd) as (v & err & ->). cbn. lia. }
  assert (Hu : 0 <= fst (parsePercentage (SmiLog.GPUUtil (SmiLog.Utilization g))) <= 100).
  { unfold parsePercentage.
    fold (numeric_part "%" (SmiLog.GPUUtil (SmiLog.Utilization g))). fold np.
    destruct Hutil as [[Hd Hr]|Hsyn].
    - rewrite (ParseInt_decimal np Hd) by (unfold minInt64, maxInt64; lia). exact Hr.
    - destruct (GoStrconv.ParseInt np) as [v [err|]] eqn:HP; [|discriminate].
      destruct (ParseInt_failure np v err HP) as [[-> _]|[_ ->]]; [cbn; lia|].
      cbn in Hsyn. discriminate. }
  unfold reading_invariant, NvidiaSMICollector.reading.
  destruct (parseMemory _) as [mem merr].
  destruct (parsePercentage _) as [util uerr].
  cbn [MemoryUsedBytes GPUUtilPercent fst] in *. split; assumption.
Qed.

Lemma stream_reading_invariant (F : float64 -> string) (I : float64 -> int64)
    (j : gmap string JSONValue) :
  ratio_field_ok F (DynologCollector.index j "gpu_memory_utilization") ->
  ratio_field_ok F (DynologCollector.index j "sm_active_ratio") ->
  reading_invariant (DynologCollector.reading F I j).
Proof.
  intros Hmem Hutil. unfold reading_invariant, DynologCollector.reading.
  cbn [MemoryUsedBytes GPUUtilPercent].
  destruct (ratio_products_bounded _ (ratio_field_ok_value F _ Hmem)) as [Hm _].
  destruct (ratio_products_bounded _ (ratio_field_ok_value F _ Hutil)) as [_ Hu].
  pose proof (int64_of_float64_bounded I 1048576 _ ltac:(unfold maxInt64; lia) Hm).
  pose proof (int64_of_float64_bounded I 100 _ ltac:(unfold maxInt64; lia) Hu).
  lia.
Qed.

(** C7 as the code has it: every reading that [Collect] returns satisfies
    the invariants, for the Snapshot Collector when the memory field of
    each device does not parse or is a non-negative number of MiB within
    [int64] and its utilization field is a percentage or a syntax error,
    and for the Stream-Tail Collector when each ratio field of the object
    on the first matching line is missing, not a number, or a number
    between zero and one. *)
Theorem reading_invariants_on_valid_sources (F : float64 -> string) (I : float64 -> int64) :
  (forall (X : string -> SmiLog.t + error) (cmd_Output : string * option error),
     (forall (doc : SmiLog.t) (g : SmiLog.gpu),
        X (fst cmd_Output) = inl doc -> In g (SmiLog.GPUs doc) ->
        memory_field_ok (SmiLog.Used (SmiLog.FBMemory g))
        /\ utilization_field_ok (SmiLog.GPUUtil (SmiLog.Utilization g))) ->
     Forall reading_invariant (fst (NvidiaSMICollector.Collect X cmd_Output)))
  /\ (forall (U : string -> gmap string JSONValue + error) (sc : GoBufio.Scanner),
        (forall (line payload : string) (j : gmap string JSONValue),
           snd (split_first_match (pending sc)) = Some (line, payload) ->
           U payload = inl j ->
           ratio_field_ok F (DynologCollector.index j "gpu_memory_utilization")
           /\ ratio_field_ok F (DynologCollector.index j "sm_active_ratio")) ->
        Forall reading_invariant
          (fst (fst (fst (DynologCollector.Collect U F I
                            {| DynologCollector.scanner := sc |}))))).
Proof.
  split.
  - intros X [out [err|]] Hok; cbn [NvidiaSMICollector.Collect fst]; [constructor|].
    cbn [fst] in Hok. destruct (X out) as [doc|err] eqn:HX; cbn [fst]; [|constructor].
    apply List.Forall_forall. intros r [g [<- Hg]]%List.in_map_iff.
    destruct (Hok doc g eq_refl Hg) as [Hmem Hutil].
    apply snapshot_reading_invariant; assumption.
  - intros U sc Hok. rewrite Collect_spec.
    destruct (split_first_match (pending sc)) as [noise [[line payload]|]]; cbn [fst snd] in *.
    + unfold from_payload. destruct (U payload) as [j|err] eqn:HU; cbn [fst]; [|constructor].
      destruct (Hok line payload j eq_refl HU) as [Hmem Hutil].
      constructor; [|constructor]. apply stream_reading_invariant; assumption.
    + unfold DynologCollector.after_loop. destruct (GoBufio.Err _); constructor.
Qed.

Lemma reading_invariants_on_valid_sources_witness :
  Forall reading_invariant
    (fst (NvidiaSMICollector.Collect (fun _ => inl {| SmiLog.GPUs := [test_gpu] |})
            ("<nvidia_smi_log/>", None)))
  /\ Forall reading_invariant
       (fst (fst (fst (DynologCollector.Collect sample_Unmarshal sample_FormatFloat_g
                         sample_indefinite
                         {| DynologCollector.scanner := sample_scanner |})))).
Proof.
  destruct (reading_invariants_on_valid_sources sample_FormatFloat_g sample_indefinite)
    as [Hsnap Hstream].
  split.
  - apply Hsnap. intros doc g [= <-] [<-|[]]. split.
    + intros _. vm_compute. split; [discriminate|reflexivity].
    + left. vm_compute. split; [reflexivity|]. split; discriminate.
  - apply Hstream. intros line payload j Hhit HU.
    vm_compute in Hhit. injection Hhit as <- <-.
    vm_compute in HU. injection HU as <-.
    split; right.
    + exists (S754_finite false 4503599627370496 (-54)). vm_compute. auto.
    + exists (S754_finite false 4503599627370496 (-53)). vm_compute. auto.
Defined.

(** ** The normalizers on every input *)

Lemma ParseUint_loop_overflow (s : string) (n : Z) :
  string_forall is_digit_byte s = true -> 0 <= n <= maxUint64 ->
  maxUint64 < digits_value s n ->
  GoStrconv.ParseUint_loop s n = (maxUint64, Some ErrRange).
Proof.
  revert n. induction s as [|c s IH]; intros n; simpl; [lia|].
  intros [Hc Hs]%andb_true_iff Hn Hbig.
  unfold is_digit_byte in Hc. rewrite Hc.
  apply andb_true_iff in Hc as [H1 H2]. apply Z.leb_le in H1, H2.
  change maxUint64 with 18446744073709551615 in *.
  change GoStrconv.cutoff10 with 1844674407370955162.
  change (2 ^ 64) with 18446744073709551616.
  destruct (1844674407370955162 <=? n) eqn:Hcut; [reflexivity|].
  apply Z.leb_gt in Hcut.
  destruct (Z_lt_le_dec 18446744073709551615 (n * 10 + (code c - 48))) as [Hov|Hfit].
  - replace ((n * 10 + (code c - 48)) mod 18446744073709551616)
      with (n * 10 + (code c - 48) - 18446744073709551616).
    2:{ apply (Z.mod_unique _ _ 1); lia. }
    replace (n * 10 + (code c - 48) - 18446744073709551616 <? n * 10) with true
      by (symmetry; apply Z.ltb_lt; lia).
    reflexivity.
  - rewrite (Z.mod_small (n * 10 + (code c - 48))) by lia.
    replace (n * 10 + (code c - 48) <? n * 10) with false by (symmetry; apply Z.ltb_ge; lia).
    replace (18446744073709551615 <? n * 10 + (code c - 48)) with false
      by (symmetry; apply Z.ltb_ge; lia).
    cbn [orb]. apply IH; [assumption|lia|assumption].
Qed.

Lemma ParseUint_digits (s : string) :
  s <> "" -> string_forall is_digit_byte s = true ->
  GoStrconv.ParseUint s
  = if maxUint64 <? digits_value s 0 then (maxUint64, Some ErrRange)
    else (digits_value s 0, None).
Proof.
  intros Hne Hd. destruct s as [|c t]; [contradiction|].
  unfold GoStrconv.ParseUint.
  destruct (maxUint64 <? digits_value (String c t) 0) eqn:Hbig.
  - apply Z.ltb_lt in Hbig. apply ParseUint_loop_overflow; [assumption| |assumption].
    unfold maxUint64. lia.
  - apply Z.ltb_ge in Hbig. apply ParseUint_loop_digits; [assumption|lia|assumption].
Qed.

(** [ParseInt] on a decimal integer beyond the range of [int64]: the
    nearest bound and a range error. *)
Lemma ParseInt_decimal_range (s : string) :
  is_decimal_integer s = true ->
  (maxInt64 < int_value s ->
   GoStrconv.ParseInt s = (maxInt64, Some (NumError "ParseInt" s ErrRange)))
  /\ (int_value s < minInt64 ->
      GoStrconv.ParseInt s = (minInt64, Some (NumError "ParseInt" s ErrRange))).
Proof.
  destruct s as [|c t]; [discriminate|].
  unfold is_decimal_integer, int_value, GoStrconv.ParseInt, is_sign_byte.
  change minInt64 with (-9223372036854775808).
  change maxInt64 with 9223372036854775807.
  change (2 ^ 63) with 9223372036854775808.
  destruct (code c =? 45) eqn:Hminus.
  - rewrite orb_true_r. intros [Hne Hd]%andb_true_iff.
    assert (Ht : t <> "") by (destruct t; [discriminate|discriminate]).
    pose proof (digits_value_ge t 0 Hd ltac:(lia)) as Hge.
    rewrite (ParseUint_digits t Ht Hd).
    change maxUint64 with 18446744073709551615.
    split; intros Hrange; [lia|].
    destruct (18446744073709551615 <? digits_value t 0) eqn:Hbig; cbn [negb andb].
    + reflexivity.
    + replace (9223372036854775808 <? digits_value t 0) with true
        by (symmetry; apply Z.ltb_lt; lia).
      reflexivity.
  - rewrite orb_false_r. destruct (code c =? 43) eqn:Hplus.
    + intros [Hne Hd]%andb_true_iff.
      assert (Ht : t <> "") by (destruct t; [discriminate|discriminate]).
      pose proof (digits_value_ge t 0 Hd ltac:(lia)) as Hge.
      rewrite (ParseUint_digits t Ht Hd).
      change maxUint64 with 18446744073709551615.
      split; intros Hrange; [|lia].
      destruct (18446744073709551615 <? digits_value t 0) eqn:Hbig; cbn [negb andb].
      * reflexivity.
      * replace (9223372036854775808 <=? digits_value t 0) with true
          by (symmetry; apply Z.leb_le; lia).
        reflexivity.
    + intros Hd.
      pose proof (digits_value_ge (String c t) 0 Hd ltac:(lia)) as Hge.
      rewrite (ParseUint_digits (String c t) ltac:(discriminate) Hd).
      change maxUint64 with 18446744073709551615.
      split; intros Hrange; [|lia].
      destruct (18446744073709551615 <? digits_value (String c t) 0) eqn:Hbig; cbn [negb andb].
      * reflexivity.
      * replace (9223372036854775808 <=? digits_value (String c t) 0) with true
          by (symmetry; apply Z.leb_le; lia).
        reflexivity.
Qed.

(** [ParseInt] succeeds on the decimal integers of [int64] and on nothing
    else. *)
Lemma ParseInt_success (s : string) (v : int64) :
  GoStrconv.ParseInt s = (v, None)
  <-> is_decimal_integer s = true /\ minInt64 <= int_value s <= maxInt64 /\ v = int_value s.
Proof.
  split.
  - intros H. destruct (is_decimal_integer s) eqn:Hdec.
    + destruct (ParseInt_decimal_range s Hdec) as [Hhi Hlo].
      destruct (Z_lt_le_dec maxInt64 (int_value s)) as [Hbig|Hle].
      { rewrite (Hhi Hbig) in H. discriminate. }
      destruct (Z_lt_le_dec (int_value s) minInt64) as [Hsmall|Hge].
      { rewrite (Hlo Hsmall) in H. discriminate. }
      rewrite (ParseInt_decimal s Hdec (conj Hge Hle)) in H.
      injection H as <-. auto.
    + destruct (ParseInt_malformed s Hdec) as (v' & err & H'). congruence.
  - intros (Hdec & Hrange & ->). apply ParseInt_decimal; assumption.
Qed.

Lemma wrap64_mul (a b : Z) : wrap64 (wrap64 a * b) = wrap64 (a * b).
Proof.
  unfold wrap64. f_equal.
  rewrite (Z.mod_eq (a + 2 ^ 63) (2 ^ 64)) by lia.
  set (k := (a + 2 ^ 63) / 2 ^ 64).
  replace ((a + 2 ^ 63 - 2 ^ 64 * k - 2 ^ 63) * b + 2 ^ 63)
    with (a * b + 2 ^ 63 + (- k * b) * 2 ^ 64) by ring.
  apply Z.mod_add. lia.
Qed.

Lemma mul64_MiB (n : Z) : mul64 (mul64 n 1024) 1024 = wrap64 (n * 1048576).
Proof.
  unfold mul64. rewrite wrap64_mul. f_equal. ring.
Qed.

(** X1: a normalizer returns a value without an error exactly when the
    numeric part of the field (the unit deleted, the white space around
    trimmed) is a decimal integer within [int64].  The percentage is then
    that integer, the memory that integer times 2^20, wrapped to 64 bits. *)
Theorem normalizers_succeed_exactly (val : string) (v : int64) :
  (parsePercentage val = (v, None)
   <-> is_decimal_integer (numeric_part "%" val) = true
       /\ minInt64 <= int_value (numeric_part "%" val) <= maxInt64
       /\ v = int_value (numeric_part "%" val))
  /\ (parseMemory val = (v, None)
      <-> is_decimal_integer (numeric_part "MiB" val) = true
          /\ minInt64 <= int_value (numeric_part "MiB" val) <= maxInt64
          /\ v = wrap64 (int_value (numeric_part "MiB" val) * 1048576)).
Proof.
  split.
  - unfold parsePercentage. fold (numeric_part "%" val). apply ParseInt_success.
  - unfold parseMemory. fold (numeric_part "MiB" val).
    destruct (GoStrconv.ParseInt (numeric_part "MiB" val)) as [num [err|]] eqn:HP.
    + split; [discriminate|]. intros (Hdec & Hrange & _).
      rewrite (ParseInt_decimal _ Hdec Hrange) in HP. discriminate.
    + apply ParseInt_success in HP as (Hdec & Hrange & ->).
      rewrite mul64_MiB. split.
      * intros [= <-]. auto.
      * intros (_ & _ & ->). reflexivity.
Qed.

Lemma normalizers_succeed_exactly_witness :
  parsePercentage " 42 %" = (42, None) /\ parseMemory "1024 MiB" = (1073741824, None).
Proof.
  split.
  - apply (normalizers_succeed_exactly " 42 %" 42).
    vm_compute. repeat split; discriminate.
  - apply (normalizers_succeed_exactly "1024 MiB" 1073741824).
    vm_compute. repeat split; discriminate.
Defined.

(** X2: when the numeric part is a decimal integer outside [int64], both
    normalizers report a range error that quotes it.  The percentage
    normalizer returns with it the bound of [int64] on the side of the
    number, the memory normalizer zero. *)
Theorem normalizers_out_of_range (val : string) :
  (is_decimal_integer (numeric_part "%" val) = true ->
   (maxInt64 < int_value (numeric_part "%" val) ->
    parsePercentage val
    = (maxInt64, Some (NumError "ParseInt" (numeric_part "%" val) ErrRange)))
   /\ (int_value (numeric_part "%" val) < minInt64 ->
       parsePercentage val
       = (minInt64, Some (NumError "ParseInt" (numeric_part "%" val) ErrRange))))
  /\ (is_decimal_integer (numeric_part "MiB" val) = true ->
      ~ minInt64 <= int_value (numeric_part "MiB" val) <= maxInt64 ->
      parseMemory val = (0, Some (NumError "ParseInt" (numeric_part "MiB" val) ErrRange))).
Proof.
  split.
  - intros Hdec. unfold parsePercentage. fold (numeric_part "%" val).
    exact (ParseInt_decimal_range _ Hdec).
  - intros Hdec Hout. unfold parseMemory. fold (numeric_part "MiB" val).
    destruct (ParseInt_decimal_range _ Hdec) as [Hhi Hlo].
    destruct (Z_lt_le_dec maxInt64 (int_value (numeric_part "MiB" val))) as [Hbig|Hle].
    + rewrite (Hhi Hbig). reflexivity.
    + rewrite Hlo by lia. reflexivity.
Qed.

Lemma normalizers_out_of_range_witness :
  parsePercentage "-99999999999999999999 %"
  = (minInt64, Some (NumError "ParseInt" "-99999999999999999999" ErrRange))
  /\ parseMemory "99999999999999999999 MiB"
     = (0, Some (NumError "ParseInt" "99999999999999999999" ErrRange)).
Proof.
  split.
  - apply (normalizers_out_of_range "-99999999999999999999 %"); vm_compute; reflexivity.
  - apply (normalizers_out_of_range "99999999999999999999 MiB");
      [vm_compute; reflexivity|].
    vm_compute. intros [_ H]. apply H. reflexivity.
Defined.

Lemma trim_front_blank (back : bool) (a s : string) :
  blank a = true -> GoStrings.trim_front back (a +:+ s) = GoStrings.trim_front back s.
Proof.
  unfold blank. induction a as [|c a IH]; [reflexivity|].
  cbn [string_forall]. intros [Hc Ha]%andb_true_iff. rewrite append_cons.
  cbn [GoStrings.trim_front]. rewrite Hc. exact (IH Ha).
Qed.

Lemma rev_app_eq (s acc : string) : String.rev_app s acc = String.rev s +:+ acc.
Proof.
  unfold String.rev. revert acc. induction s as [|c s IH]; intros acc; [reflexivity|].
  simpl. rewrite (IH (String c acc)), (IH (String c "")), append_assoc. reflexivity.
Qed.

Lemma blank_rev (s : string) : blank s = true -> blank (String.rev s) = true.
Proof.
  unfold blank, String.rev. intros H. rewrite string_forall_rev_app, H. reflexivity.
Qed.

(** Trimming removes blank padding around a non-empty solid string. *)
Lemma TrimSpace_padded (a s b : string) :
  blank a = true -> blank b = true -> string_forall solid s = true ->
  GoStrings.TrimSpace (a +:+ s +:+ b) = s.
Proof.
  intros Ha Hb Hs.
  unfold GoStrings.TrimSpace, GoStrings.TrimLeftSpace, GoStrings.TrimRightSpace.
  rewrite (trim_front_blank false a _ Ha).
  destruct s as [|c t].
  - rewrite append_nil. rewrite <- (append_nil_r b) at 1.
    rewrite (trim_front_blank false b "" Hb). reflexivity.
  - assert (Hl : GoStrings.trim_front false (String c t +:+ b) = String c t +:+ b).
    { pose proof Hs as Hs'. simpl in Hs'. apply andb_true_iff in Hs' as [Hc _].
      rewrite append_cons.
      unfold solid in Hc. apply andb_true_iff in Hc as [Hsp Hlt].
      apply negb_true_iff in Hsp. apply Z.ltb_lt in Hlt.
      cbn [GoStrings.trim_front]. rewrite Hsp.
      destruct (t +:+ b) as [|c2 t2]; [reflexivity|].
      replace (GoStrings.space2 c c2) with false.
      2:{ unfold GoStrings.space2.
          replace (code c =? 194) with false by (symmetry; apply Z.eqb_neq; lia).
          reflexivity. }
      destruct t2 as [|c3 t3]; [reflexivity|].
      replace (GoStrings.space3 c c2 c3) with false; [reflexivity|].
      unfold GoStrings.space3.
      replace (code c =? 225) with false by (symmetry; apply Z.eqb_neq; lia).
      replace (code c =? 226) with false by (symmetry; apply Z.eqb_neq; lia).
      replace (code c =? 227) with false by (symmetry; apply Z.eqb_neq; lia).
      reflexivity. }
    rewrite Hl. unfold String.rev at 2. rewrite rev_app_append, rev_app_eq.
    rewrite (trim_front_blank true _ _ (blank_rev b Hb)).
    rewrite trim_front_solid.
    + exact (rev_involutive (String c t)).
    + rewrite string_forall_rev_app, Hs. reflexivity.
Qed.

Lemma blank_lacks (m : ascii) (a : string) :
  GoStrings.asciiSpace m = false -> blank a = true ->
  string_forall (fun c => negb (byte_eqb c m)) a = true.
Proof.
  intros Hm. apply string_forall_impl. intros c Hc.
  apply negb_true_iff. unfold byte_eqb. apply Z.eqb_neq. intros E.
  unfold GoStrings.asciiSpace in *. rewrite E in Hc. congruence.
Qed.

Lemma blank_app (a b : string) : blank (a +:+ b) = blank a && blank b.
Proof. apply string_forall_app. Qed.

Lemma HasPrefix_nil (s : string) : GoStrings.HasPrefix s "" = true.
Proof. destruct s; reflexivity. Qed.

Lemma remove_all_percent_head (c : string) :
  GoStrings.remove_all "%" 0 ("%" +:+ c) = GoStrings.remove_all "%" 0 c.
Proof.
  change ("%" +:+ c) with (String "%" c).
  cbn [GoStrings.remove_all GoStrings.HasPrefix].
  change (byte_eqb "%" "%") with true. rewrite HasPrefix_nil. reflexivity.
Qed.

Lemma remove_all_MiB_head (c : string) :
  GoStrings.remove_all "MiB" 0 ("MiB" +:+ c) = GoStrings.remove_all "MiB" 0 c.
Proof.
  change ("MiB" +:+ c) with (String "M" (String "i" (String "B" c))).
  cbn [GoStrings.remove_all GoStrings.HasPrefix].
  change (byte_eqb "M" "M") with true. change (byte_eqb "i" "i") with true.
  change (byte_eqb "B" "B") with true. rewrite HasPrefix_nil. reflexivity.
Qed.

Lemma numeric_part_padded_percent (a num b c : string) :
  blank a = true -> blank b = true -> blank c = true ->
  is_decimal_integer num = true ->
  numeric_part "%" (a +:+ num +:+ b +:+ "%" +:+ c) = num.
Proof.
  intros Ha Hb Hc Hnum. unfold numeric_part, GoStrings.ReplaceAll.
  assert (Hl : forall x, blank x = true ->
               string_forall (fun c => negb (byte_eqb c "%")) x = true).
  { intros x. apply blank_lacks. reflexivity. }
  rewrite (remove_all_skip_prefix "%" "" a) by auto.
  rewrite (remove_all_skip_prefix "%" "" num)
    by (apply (decimal_lacks "%" num); [..|exact Hnum];
        vm_compute; [discriminate|discriminate|intros [? ?]; auto]).
  rewrite (remove_all_skip_prefix "%" "" b) by auto.
  rewrite remove_all_percent_head.
  rewrite <- (append_nil_r c) at 1.
  rewrite (remove_all_skip_prefix "%" "" c "") by auto.
  change (GoStrings.remove_all "%" 0 "") with "". rewrite append_nil_r.
  apply TrimSpace_padded; [assumption| |apply decimal_solid, Hnum].
  rewrite blank_app, Hb, Hc. reflexivity.
Qed.

Lemma numeric_part_padded_MiB (a num b c : string) :
  blank a = true -> blank b = true -> blank c = true ->
  is_decimal_integer num = true ->
  numeric_part "MiB" (a +:+ num +:+ b +:+ "MiB" +:+ c) = num.
Proof.
  intros Ha Hb Hc Hnum. unfold numeric_part, GoStrings.ReplaceAll.
  assert (Hl : forall x, blank x = true ->
               string_forall (fun c => negb (byte_eqb c "M")) x = true).
  { intros x. apply blank_lacks. reflexivity. }
  rewrite (remove_all_skip_prefix "M" "iB" a) by auto.
  rewrite (remove_all_skip_prefix "M" "iB" num)
    by (apply (decimal_lacks "M" num); [..|exact Hnum];
        vm_compute; [discriminate|discriminate|intros [? ?]; auto]).
  rewrite (remove_all_skip_prefix "M" "iB" b) by auto.
  rewrite remove_all_MiB_head.
  rewrite <- (append_nil_r c) at 1.
  rewrite (remove_all_skip_prefix "M" "iB" c "") by auto.
  change (GoStrings.remove_all "MiB" 0 "") with "". rewrite append_nil_r.
  apply TrimSpace_padded; [assumption| |apply decimal_solid, Hnum].
  rewrite blank_app, Hb, Hc. reflexivity.
Qed.

(** X3: ASCII white space before the number, between the number and the
    unit, and after the unit makes no difference: the field parses as the
    plain ["<n>%"] or ["<n> MiB"] does.  So ["42 %"], with the blank that
    nvidia-smi prints, reads as ["42%"]. *)
Theorem normalizers_ignore_padding (a num b c : string) :
  blank a = true -> blank b = true -> blank c = true ->
  is_decimal_integer num = true ->
  parsePercentage (a +:+ num +:+ b +:+ "%" +:+ c) = parsePercentage (num +:+ "%")
  /\ parseMemory (a +:+ num +:+ b +:+ "MiB" +:+ c) = parseMemory (num +:+ " MiB").
Proof.
  intros Ha Hb Hc Hnum. split.
  - unfold parsePercentage.
    fold (numeric_part "%" (a +:+ num +:+ b +:+ "%" +:+ c)).
    fold (numeric_part "%" (num +:+ "%")).
    rewrite numeric_part_padded_percent, numeric_part_percent by assumption.
    reflexivity.
  - unfold parseMemory.
    fold (numeric_part "MiB" (a +:+ num +:+ b +:+ "MiB" +:+ c)).
    fold (numeric_part "MiB" (num +:+ " MiB")).
    rewrite numeric_part_padded_MiB, numeric_part_MiB by assumption.
    reflexivity.
Qed.

Lemma normalizers_ignore_padding_witness :
  parsePercentage ("  " +:+ "42" +:+ " " +:+ "%" +:+ " ") = parsePercentage ("42" +:+ "%")
  /\ parseMemory ("  " +:+ "42" +:+ " " +:+ "MiB" +:+ " ") = parseMemory ("42" +:+ " MiB").
Proof.
  apply (normalizers_ignore_padding "  " "42" " " " "); reflexivity.
Defined.

Lemma wrap64_MiB_multiple (n : Z) : wrap64 (n * 1048576) mod 1048576 = 0.
Proof.
  unfold wrap64.
  rewrite (Z.mod_eq (n * 1048576 + 2 ^ 63) (2 ^ 64)) by lia.
  set (k := (n * 1048576 + 2 ^ 63) / 2 ^ 64).
  replace (n * 1048576 + 2 ^ 63 - 2 ^ 64 * k - 2 ^ 63)
    with ((n - 17592186044416 * k) * 1048576) by ring.
  apply Z.mod_mul. lia.
Qed.

Lemma parseMemory_whole_MiB (val : string) : fst (parseMemory val) mod 1048576 = 0.
Proof.
  unfold parseMemory. destruct (GoStrconv.ParseInt _) as [num [err|]]; cbn [fst].
  - reflexivity.
  - rewrite mul64_MiB. apply wrap64_MiB_multiple.
Qed.

(** X4: every reading of the Snapshot Collector counts memory in whole
    MiB: the byte count is a multiple of 2^20 whatever the field holds,
    also when it fails to parse or when the product wraps around. *)
Theorem snapshot_memory_whole_MiB
    (xml_Unmarshal : string -> SmiLog.t + error) (cmd_Output : string * option error) :
  Forall (fun r => MemoryUsedBytes r mod 1048576 = 0)
         (fst (NvidiaSMICollector.Collect xml_Unmarshal cmd_Output)).
Proof.
  destruct cmd_Output as [out [err|]]; cbn; [constructor|].
  destruct (xml_Unmarshal out) as [doc|err]; cbn [fst]; [|constructor].
  apply List.Forall_forall. intros r [g [<- _]]%List.in_map_iff.
  unfold NvidiaSMICollector.reading.
  pose proof (parseMemory_whole_MiB (SmiLog.Used (SmiLog.FBMemory g))) as H.
  destruct (parseMemory _) as [mem merr]. destruct (parsePercentage _) as [util uerr].
  exact H.
Qed.

Lemma reading_ID_Name (g : SmiLog.gpu) :
  ID (NvidiaSMICollector.reading g) = SmiLog.ID g
  /\ Name (NvidiaSMICollector.reading g) = SmiLog.ProductName g.
Proof.
  unfold NvidiaSMICollector.reading.
  destruct (parseMemory _) as [mem merr]. destruct (parsePercentage _) as [util uerr].
  split; reflexivity.
Qed.

(** X5: no collector returns data together with an error.  The
    Stream-Tail Collector returns exactly one reading or an error and no
    reading; its other revision returns the zero record with every error;
    the Snapshot Collector returns either an error and no reading or, for
    the document that decoded, one reading per device, in the order of the
    document, with the id and the name of the device unchanged. *)
Theorem collectors_all_or_nothing
    (U : string -> gmap string JSONValue + error) (F : float64 -> string)
    (I : float64 -> int64) (UT : string -> DynologData + error)
    (xml_Unmarshal : string -> SmiLog.t + error) (cmd_Output : string * option error)
    (sc : GoBufio.Scanner) :
  (let '(gpuData, err) :=
     fst (fst (DynologCollector.Collect U F I {| DynologCollector.scanner := sc |})) in
   match err with
   | None => exists r, gpuData = [r]
   | Some _ => gpuData = []
   end)
  /\ (let '(data, err) :=
        fst (fst (DynologCollectorTyped.Collect UT {| DynologCollectorTyped.scanner := sc |})) in
      match err with
      | None => True
      | Some _ => data = DynologData_zero
      end)
  /\ (let '(gpuData, err) := NvidiaSMICollector.Collect xml_Unmarshal cmd_Output in
      match err with
      | None =>
          exists doc, xml_Unmarshal (fst cmd_Output) = inl doc
                      /\ map ID gpuData = map SmiLog.ID (SmiLog.GPUs doc)
                      /\ map Name gpuData = map SmiLog.ProductName (SmiLog.GPUs doc)
      | Some _ => gpuData = []
      end).
Proof.
  rewrite Collect_spec, Collect_typed_spec.
  split; [|split].
  - destruct (split_first_match (pending sc)) as [noise [[line payload]|]]; cbn [fst].
    + unfold from_payload. destruct (U payload); eauto.
    + unfold DynologCollector.after_loop. destruct (GoBufio.Err _); reflexivity.
  - destruct (split_first_match (pending sc)) as [noise [[line payload]|]]; cbn [fst].
    + unfold from_payload_typed. destruct (UT payload); auto.
    + unfold DynologCollectorTyped.after_loop. destruct (GoBufio.Err _); reflexivity.
  - unfold NvidiaSMICollector.Collect. destruct cmd_Output as [out [e|]]; [reflexivity|].
    cbn [fst]. destruct (xml_Unmarshal out) as [doc|e]; [|reflexivity].
    exists doc. split; [reflexivity|].
    rewrite !List.map_map.
    split; apply List.map_ext; intros g; apply reading_ID_Name.
Qed.

(** ** The pattern [dataRegex] *)

Lemma code_inj (a b : ascii) : code a = code b -> a = b.
Proof.
  unfold code. intros H%N2Z.inj.
  rewrite <- (ascii_N_embedding a), <- (ascii_N_embedding b), H. reflexivity.
Qed.

Lemma HasPrefix_spec (p s : string) :
  GoStrings.HasPrefix s p = true -> s = p +:+ dataRegex.drop (String.length p) s.
Proof.
  revert s. induction p as [|c p IH]; intros s; [reflexivity|].
  destruct s as [|d s]; [discriminate|].
  cbn [GoStrings.HasPrefix]. intros [Hc Hp]%andb_true_iff.
  apply Z.eqb_eq, code_inj in Hc. subst d.
  cbn [String.length dataRegex.drop]. rewrite append_cons. f_equal. exact (IH s Hp).
Qed.

Lemma skip_spaces_spec (s : string) :
  exists w, s = w +:+ dataRegex.skip_spaces s /\ perl_blank w = true.
Proof.
  induction s as [|c s (w & IH & Hw)].
  - exists "". split; reflexivity.
  - cbn [dataRegex.skip_spaces]. destruct (dataRegex.perl_space c) eqn:Hc.
    + exists (String c w). split.
      * rewrite append_cons. f_equal. exact IH.
      * unfold perl_blank in *. cbn [string_forall]. rewrite Hc, Hw. reflexivity.
    + exists "". split; reflexivity.
Qed.

Lemma skip_spaces_blank (w s : string) :
  perl_blank w = true -> dataRegex.skip_spaces (w +:+ s) = dataRegex.skip_spaces s.
Proof.
  unfold perl_blank. induction w as [|c w IH]; [reflexivity|].
  cbn [string_forall]. intros [Hc Hw]%andb_true_iff.
  rewrite append_cons. cbn [dataRegex.skip_spaces]. rewrite Hc. exact (IH Hw).
Qed.

Lemma perl_blank_no_brace (w : string) : perl_blank w = true -> no_brace w = true.
Proof.
  apply string_forall_impl. intros c Hc. apply negb_true_iff, Z.eqb_neq. intros E.
  unfold dataRegex.perl_space in Hc. rewrite E in Hc. discriminate.
Qed.

(** What a match at the first byte looks like. *)
Lemma match_here_sound (s p : string) :
  dataRegex.match_here s = Some p ->
  exists w1 w2 rest,
    s = "data" +:+ w1 +:+ "=" +:+ w2 +:+ p
    /\ p = "{" +:+ rest
    /\ perl_blank w1 = true /\ perl_blank w2 = true
    /\ dataRegex.no_newline rest = true.
Proof.
  unfold dataRegex.match_here.
  destruct (GoStrings.HasPrefix s "data") eqn:Hpre; [|discriminate].
  apply HasPrefix_spec in Hpre. cbn [String.length] in Hpre.
  destruct (skip_spaces_spec (dataRegex.drop 4 s)) as (w1 & H1 & Hw1).
  destruct (dataRegex.skip_spaces (dataRegex.drop 4 s)) as [|c1 t1]; [discriminate|].
  destruct (code c1 =? 61) eqn:Hc1; [|discriminate].
  apply Z.eqb_eq in Hc1. apply (code_inj c1 "=") in Hc1. subst c1.
  destruct (skip_spaces_spec t1) as (w2 & H2 & Hw2).
  destruct (dataRegex.skip_spaces t1) as [|c2 t2]; [discriminate|].
  destruct ((code c2 =? 123) && dataRegex.no_newline t2) eqn:Hc2; [|discriminate].
  apply andb_true_iff in Hc2 as [Hc2 Hnl].
  apply Z.eqb_eq in Hc2. apply (code_inj c2 "{") in Hc2. subst c2.
  intros [= <-]. exists w1, w2, t2.
  split; [|auto].
  rewrite Hpre at 1. rewrite H1. rewrite H2 at 1. reflexivity.
Qed.

Lemma match_here_complete (w1 w2 rest : string) :
  perl_blank w1 = true -> perl_blank w2 = true -> dataRegex.no_newline rest = true ->
  dataRegex.match_here ("data" +:+ w1 +:+ "=" +:+ w2 +:+ "{" +:+ rest)
  = Some ("{" +:+ rest).
Proof.
  intros H1 H2 Hnl. unfold dataRegex.match_here.
  change ("data" +:+ ?x) with (String "d" (String "a" (String "t" (String "a" x)))).
  cbn [GoStrings.HasPrefix dataRegex.drop].
  change (byte_eqb "d" "d") with true. change (byte_eqb "a" "a") with true.
  change (byte_eqb "t" "t") with true. rewrite HasPrefix_nil. cbn [andb].
  rewrite (skip_spaces_blank w1 _ H1).
  change ("=" +:+ ?x) with (String "=" x). cbn [dataRegex.skip_spaces].
  change (dataRegex.perl_space "=") with false. cbv iota.
  change (code "=" =? 61) with true. cbv iota.
  rewrite (skip_spaces_blank w2 _ H2).
  change ("{" +:+ rest) with (String "{" rest). cbn [dataRegex.skip_spaces].
  change (dataRegex.perl_space "{") with false. cbv iota.
  change (code "{" =? 123) with true. rewrite Hnl. reflexivity.
Qed.

Lemma FindStringSubmatch_eq (line : string) :
  dataRegex.FindStringSubmatch line
  = match dataRegex.match_here line with
    | Some m => Some m
    | None => match line with
              | String _ t => dataRegex.FindStringSubmatch t
              | EmptyString => None
              end
    end.
Proof. destruct line; reflexivity. Qed.

Lemma FindStringSubmatch_sound (line p : string) :
  dataRegex.FindStringSubmatch line = Some p ->
  exists pre s, line = pre +:+ s /\ dataRegex.match_here s = Some p.
Proof.
  induction line as [|c line IH]; rewrite FindStringSubmatch_eq.
  - destruct (dataRegex.match_here "") eqn:H; [|discriminate].
    intros [= <-]. exists "", "". auto.
  - destruct (dataRegex.match_here (String c line)) eqn:H.
    + intros [= <-]. exists "", (String c line). auto.
    + intros (pre & s & -> & Hs)%IH. exists (String c pre), s. auto.
Qed.

(** The bytes before the first opening brace of a text are fixed by the
    text. *)
Lemma before_first_brace (A p X rest : string) :
  no_brace A = true -> A +:+ p = X +:+ "{" +:+ rest ->
  exists q, p = q +:+ "{" +:+ rest.
Proof.
  revert X. induction A as [|a A IH]; intros X HA H.
  - exists X. exact H.
  - unfold no_brace in HA. cbn [string_forall] in HA.
    apply andb_true_iff in HA as [Ha HA].
    destruct X as [|x X].
    + rewrite append_cons in H. change ("" +:+ "{" +:+ rest) with (String "{" rest) in H.
      injection H as -> _. discriminate.
    + rewrite !append_cons in H. injection H as _ H. exact (IH X HA H).
Qed.

Lemma no_brace_app (a b : string) : no_brace (a +:+ b) = no_brace a && no_brace b.
Proof. apply string_forall_app. Qed.

(** X6: what a match of [dataRegex] looks like: the line holds the word
    data, white space, an equals sign, white space and then the payload,
    which begins with an opening brace, runs to the end of the line and
    holds no line feed. *)
Theorem dataRegex_match_shape (line payload : string) :
  dataRegex.FindStringSubmatch line = Some payload ->
  exists pre w1 w2 rest,
    line = pre +:+ "data" +:+ w1 +:+ "=" +:+ w2 +:+ payload
    /\ payload = "{" +:+ rest
    /\ perl_blank w1 = true /\ perl_blank w2 = true
    /\ dataRegex.no_newline rest = true.
Proof.
  intros (pre & s & -> & Hs)%FindStringSubmatch_sound.
  destruct (match_here_sound s payload Hs) as (w1 & w2 & rest & -> & Hp & H).
  exists pre, w1, w2, rest. auto.
Qed.

Lemma dataRegex_match_shape_witness :
  exists pre w1 w2 rest,
    sample_line = pre +:+ "data" +:+ w1 +:+ "=" +:+ w2 +:+ sample_payload
    /\ sample_payload = "{" +:+ rest
    /\ perl_blank w1 = true /\ perl_blank w2 = true
    /\ dataRegex.no_newline rest = true.
Proof.
  apply (dataRegex_match_shape sample_line sample_payload). vm_compute. reflexivity.
Defined.

(** X7: every line that holds such an occurrence matches, whatever stands
    before it, and the payload returned reaches back at least to the brace
    of that occurrence: of several occurrences the leftmost gives the
    payload. *)
Theorem dataRegex_match_leftmost (pre w1 w2 rest : string) :
  perl_blank w1 = true -> perl_blank w2 = true -> dataRegex.no_newline rest = true ->
  exists q,
    dataRegex.FindStringSubmatch (pre +:+ "data" +:+ w1 +:+ "=" +:+ w2 +:+ "{" +:+ rest)
    = Some (q +:+ "{" +:+ rest).
Proof.
  intros H1 H2 Hnl. induction pre as [|c pre IH]; rewrite FindStringSubmatch_eq.
  - rewrite append_nil, (match_here_complete w1 w2 rest H1 H2 Hnl). exists "". reflexivity.
  - destruct (dataRegex.match_here _) as [p|] eqn:Hm.
    + destruct (match_here_sound _ _ Hm) as (v1 & v2 & r & Hline & Hp & Hv1 & Hv2 & _).
      assert (HA : no_brace ("data" +:+ v1 +:+ "=" +:+ v2) = true).
      { rewrite !no_brace_app, (perl_blank_no_brace v1 Hv1), (perl_blank_no_brace v2 Hv2).
        reflexivity. }
      destruct (before_first_brace ("data" +:+ v1 +:+ "=" +:+ v2) p
                  (String c pre +:+ "data" +:+ w1 +:+ "=" +:+ w2) rest HA) as [q Hq].
      { rewrite !append_assoc. symmetry. exact Hline. }
      exists q. rewrite Hq. reflexivity.
    + rewrite append_cons. exact IH.
Qed.

Lemma dataRegex_match_leftmost_witness :
  exists q,
    dataRegex.FindStringSubmatch
      ("E0101 metadata" +:+ "data" +:+ "  " +:+ "=" +:+ "" +:+ "{" +:+ "} data = {}")
    = Some (q +:+ "{" +:+ "} data = {}").
Proof.
  apply (dataRegex_match_leftmost "E0101 metadata" "  " "" "} data = {}"); reflexivity.
Defined.

(** ** Sequences of calls on the Stream-Tail Collector *)

Lemma split_payloads (ls : list string) :
  match split_first_match ls with
  | (noise, Some (line, p)) =>
      exists rest, ls = noise ++ line :: rest /\ payloads ls = p :: payloads rest
  | (noise, None) => ls = noise /\ payloads ls = []
  end.
Proof.
  induction ls as [|l ls IH]; cbn [split_first_match]; [split; reflexivity|].
  unfold payloads. cbn [omap list_omap].
  destruct (dataRegex.FindStringSubmatch l) as [p|] eqn:Hl.
  - exists ls. split; reflexivity.
  - destruct (split_first_match ls) as [noise [[line p]|]].
    + destruct IH as (rest & -> & IH). exists rest. split; [reflexivity|exact IH].
    + destruct IH as [-> IH]. split; [reflexivity|exact IH].
Qed.

Lemma at_end_advance (sc : GoBufio.Scanner) (k : nat) :
  (k <= length (pending sc))%nat -> at_end (advance sc k) = at_end sc.
Proof.
  intros Hk. unfold at_end. rewrite pending_advance, length_skipn, advance_advance by exact Hk.
  f_equal. lia.
Qed.

(** A scanner all of whose lines fit stays one, and once it has handed
    out its lines [Scan] leaves it as it is. *)
Lemma all_fit_Scan (sc : GoBufio.Scanner) :
  all_fit sc = true -> all_fit (snd (GoBufio.Scan sc)) = true.
Proof.
  unfold all_fit, GoBufio.Scan.
  destruct (GoBufio.mode sc) eqn:Hmode; try discriminate.
  destruct (nth_error (GoBufio.stream sc) (GoBufio.cursor sc)) as [l|] eqn:Hnth.
  - rewrite (nth_error_skipn_cons _ _ _ Hnth). cbn [forallb].
    intros [-> Hrest]%andb_prop. exact Hrest.
  - cbn [snd]. rewrite Hmode. auto.
Qed.

Lemma all_fit_advance (sc : GoBufio.Scanner) (k : nat) :
  all_fit sc = true -> all_fit (advance sc k) = true.
Proof.
  revert sc. induction k as [|k IH]; intros sc H; [exact H|].
  cbn [advance]. apply IH, all_fit_Scan, H.
Qed.

Lemma all_fit_stop (sc : GoBufio.Scanner) :
  all_fit sc = true -> pending sc = [] -> advance sc 1 = sc.
Proof.
  cbn [advance]. rewrite pending_Scan. unfold all_fit, GoBufio.Scan.
  destruct (GoBufio.mode sc) eqn:Hmode; try discriminate.
  destruct (nth_error (GoBufio.stream sc) (GoBufio.cursor sc)) as [l|] eqn:Hnth.
  - rewrite (nth_error_skipn_cons _ _ _ Hnth). cbn [forallb].
    intros [-> _]%andb_prop. discriminate.
  - reflexivity.
Qed.

Lemma all_fit_at_end (sc : GoBufio.Scanner) :
  all_fit sc = true ->
  at_end sc = advance sc (length (pending sc))
  /\ pending (at_end sc) = [] /\ at_end (at_end sc) = at_end sc.
Proof.
  intros H.
  assert (Hnil : pending (advance sc (length (pending sc))) = [])
    by (rewrite pending_advance by lia; apply skipn_all).
  assert (Hend : at_end sc = advance sc (length (pending sc))).
  { unfold at_end. replace (S (length (pending sc))) with (length (pending sc) + 1)%nat by lia.
    rewrite <- advance_advance.
    apply all_fit_stop; [apply all_fit_advance, H|exact Hnil]. }
  split; [exact Hend|]. rewrite Hend. split; [exact Hnil|].
  unfold at_end at 1. rewrite Hnil. cbn [length].
  apply all_fit_stop; [apply all_fit_advance, H|exact Hnil].
Qed.

Ltac calls_spec spec :=
  let n := fresh "n" in let IH := fresh "IH" in let sc := fresh "sc" in
  let Hfit := fresh "Hfit" in
  intros n; induction n as [|n IH]; intros sc Hfit; [reflexivity|];
  cbn [Collect_n]; rewrite spec;
  pose proof (split_payloads (pending sc)) as Hs;
  destruct (split_first_match (pending sc)) as [noise [[line p]|]];
  [ destruct Hs as (rest & Hp & Hps);
    assert (Hk : (S (length noise) <= length (pending sc))%nat)
      by (rewrite Hp, length_app; cbn; lia);
    match goal with
    | |- context [Collect_n ?C n ?c] =>
        specialize (IH (advance sc (S (length noise))) (all_fit_advance _ _ Hfit));
        destruct (Collect_n C n c) as [rs c2]
    end;
    cbn [fst] in IH |- *; rewrite IH, Hps, (pending_advance _ _ Hk), Hp;
    replace (skipn (S (length noise)) (noise ++ line :: rest)) with rest
      by (change (noise ++ line :: rest) with (noise ++ [line] ++ rest);
          rewrite app_assoc, skipn_app;
          replace (S (length noise)) with (length (noise ++ [line]))
            by (rewrite length_app; cbn; lia);
          rewrite skipn_all, Nat.sub_diag; reflexivity);
    rewrite (at_end_advance _ _ Hk);
    cbn [firstn map app length Nat.sub]; reflexivity
  | destruct Hs as [Hp Hps];
    destruct (all_fit_at_end sc Hfit) as (Hend & Hnil & Hfix);
    rewrite <- Hp; fold (at_end sc);
    match goal with
    | |- context [Collect_n ?C n ?c] =>
        specialize (IH (at_end sc) ltac:(rewrite Hend; apply all_fit_advance, Hfit));
        destruct (Collect_n C n c) as [rs c2]
    end;
    cbn [fst] in IH |- *; rewrite IH, Hps, Hnil, Hfix;
    change (payloads []) with (@nil string);
    rewrite firstn_nil; cbn [firstn map app length Nat.sub repeat];
    rewrite Nat.sub_0_r; reflexivity ].

Lemma Collect_calls
    (U : string -> gmap string JSONValue + error) (F : float64 -> string)
    (I : float64 -> int64) :
  forall (n : nat) (sc : GoBufio.Scanner),
  all_fit sc = true ->
  fst (Collect_n (DynologCollector.Collect U F I) n {| DynologCollector.scanner := sc |})
  = map (from_payload U F I) (firstn n (payloads (pending sc)))
    ++ repeat (DynologCollector.after_loop (at_end sc))
              (n - length (payloads (pending sc))).
Proof. calls_spec Collect_spec. Qed.

Lemma Collect_typed_calls (U : string -> DynologData + error) :
  forall (n : nat) (sc : GoBufio.Scanner),
  all_fit sc = true ->
  fst (Collect_n (DynologCollectorTyped.Collect U) n {| DynologCollectorTyped.scanner := sc |})
  = map (from_payload_typed U) (firstn n (payloads (pending sc)))
    ++ repeat (DynologCollectorTyped.after_loop (at_end sc))
              (n - length (payloads (pending sc))).
Proof. calls_spec Collect_typed_spec. Qed.

(** X8: on a stream without a line too long for the buffer of the
    scanner, [n] calls in a row return what the payloads of the first [n]
    matching lines decode to, in the order of the stream, a payload that
    fails to decode included; once the matching lines are used up, every
    further call returns the result of the end of the stream.  Both
    revisions. *)
Theorem stream_tail_call_sequence
    (U : string -> gmap string JSONValue + error) (F : float64 -> string)
    (I : float64 -> int64) (UT : string -> DynologData + error)
    (n : nat) (sc : GoBufio.Scanner) :
  all_fit sc = true ->
  fst (Collect_n (DynologCollector.Collect U F I) n {| DynologCollector.scanner := sc |})
  = map (from_payload U F I) (firstn n (payloads (pending sc)))
    ++ repeat (DynologCollector.after_loop (at_end sc))
              (n - length (payloads (pending sc)))
  /\ fst (Collect_n (DynologCollectorTyped.Collect UT) n
            {| DynologCollectorTyped.scanner := sc |})
     = map (from_payload_typed UT) (firstn n (payloads (pending sc)))
       ++ repeat (DynologCollectorTyped.after_loop (at_end sc))
                 (n - length (payloads (pending sc))).
Proof. intros Hfit. split; [apply Collect_calls|apply Collect_typed_calls]; exact Hfit. Qed.

Lemma stream_tail_call_sequence_witness :
  fst (Collect_n
         (DynologCollector.Collect sample_Unmarshal sample_FormatFloat_g sample_indefinite)
         3 {| DynologCollector.scanner := sample_scanner |})
  = [ ([{| ID := "0"; Name := "DCGM-GPU";
           MemoryUsedBytes := 262144; GPUUtilPercent := 50 |}], None);
      ([], Some (errorString "no dynolog JSON lines found yet"));
      ([], Some (errorString "no dynolog JSON lines found yet")) ].
Proof.
  rewrite (proj1 (stream_tail_call_sequence sample_Unmarshal sample_FormatFloat_g
                    sample_indefinite sample_Unmarshal_typed 3 sample_scanner eq_refl)).
  vm_compute. reflexivity.
Defined.

Lemma split_first_match_no_payload (ls : list string) :
  payloads ls = [] -> split_first_match ls = (ls, None).
Proof.
  intros H. pose proof (split_payloads ls) as Hs.
  destruct (split_first_match ls) as [noise [[line p]|]].
  - destruct Hs as (rest & _ & Hps). congruence.
  - destruct Hs as [-> _]. reflexivity.
Qed.

(** The error that [Err] reports once [Scan] has returned false is the
    one on which the scanner stops. *)
Lemma Err_at_end (sc : GoBufio.Scanner) : GoBufio.Err (at_end sc) = GoBufio.err sc.
Proof.
  unfold at_end. remember (length (pending sc)) as n eqn:Hn.
  revert sc Hn. induction n as [|n IH]; intros sc Hn.
  - assert (Hnil : pending sc = []) by (destruct (pending sc); [reflexivity|discriminate]).
    clear Hn. rewrite pending_Scan in Hnil. cbn [advance].
    unfold GoBufio.Scan, GoBufio.Err, GoBufio.err in *.
    destruct (GoBufio.mode sc) eqn:Hmode.
    + destruct (nth_error (GoBufio.stream sc) (GoBufio.cursor sc)) as [l|] eqn:Hnth.
      * rewrite (nth_error_skipn_cons _ _ _ Hnth). cbn [forallb].
        destruct (GoBufio.fits l); [discriminate|reflexivity].
      * cbn [snd]. rewrite Hmode, Hnth.
        rewrite skipn_all2 by (apply nth_error_None; exact Hnth). reflexivity.
    + destruct (nth_error (GoBufio.stream sc) (GoBufio.cursor sc)); [discriminate|reflexivity].
    + cbn [snd]. rewrite Hmode. reflexivity.
  - destruct (pending sc) as [|line rest] eqn:Hp; [discriminate|].
    injection Hn as Hn.
    destruct (Scan_pending_cons sc line rest Hp) as [HS Hrest].
    change (advance sc (S (S n))) with (advance (advance sc 1) (S n)).
    rewrite (IH (advance sc 1)) by (rewrite Hrest; exact Hn).
    cbn [advance]. unfold GoBufio.Scan, GoBufio.err in *.
    destruct (GoBufio.mode sc) eqn:Hmode.
    + destruct (nth_error (GoBufio.stream sc) (GoBufio.cursor sc)) as [l|] eqn:Hnth;
        [|discriminate].
      rewrite (nth_error_skipn_cons _ _ _ Hnth). cbn [forallb].
      destruct (GoBufio.fits l); [reflexivity|discriminate].
    + destruct (nth_error (GoBufio.stream sc) (GoBufio.cursor sc)); [reflexivity|discriminate].
    + discriminate.
Qed.

(** On a stream without a line too long for the buffer, the lines that the
    scanner has yet to hand out are the lines that are left, without
    their carriage returns. *)
Lemma all_fit_pending (sc : GoBufio.Scanner) :
  all_fit sc = true ->
  pending sc = map GoBufio.dropCR (skipn (GoBufio.cursor sc) (GoBufio.stream sc)).
Proof.
  unfold all_fit. destruct (GoBufio.mode sc) eqn:Hmode; try discriminate. intros Hfit.
  destruct (reading_scanner (skipn (GoBufio.cursor sc) (GoBufio.stream sc)) [] sc Hmode)
    as [_ Hpending]; [rewrite app_nil_r; reflexivity|exact Hfit|].
  rewrite Hpending, pending_Scan.
  match goal with
  | |- context [GoBufio.Scan ?s] =>
      destruct (reading_scanner_end s eq_refl) as [-> _];
      [cbn [GoBufio.stream GoBufio.cursor]; rewrite length_skipn; lia|]
  end.
  apply app_nil_r.
Qed.

(** What a call returns when no line that is left matches. *)
Lemma Collect_no_payload
    (U : string -> gmap string JSONValue + error) (F : float64 -> string)
    (I : float64 -> int64) (UT : string -> DynologData + error) (sc : GoBufio.Scanner) :
  payloads (pending sc) = [] ->
  DynologCollector.Collect U F I {| DynologCollector.scanner := sc |}
  = (DynologCollector.after_loop (at_end sc),
     {| DynologCollector.scanner := at_end sc |}, pending sc)
  /\ DynologCollectorTyped.Collect UT {| DynologCollectorTyped.scanner := sc |}
     = (DynologCollectorTyped.after_loop (at_end sc),
        {| DynologCollectorTyped.scanner := at_end sc |}, pending sc).
Proof.
  intros H. rewrite Collect_spec, Collect_typed_spec, (split_first_match_no_payload _ H).
  split; reflexivity.
Qed.

(** X9: on a stream without a line too long for the buffer of the
    scanner, once no line that is left matches, a call echoes the lines
    that are left and returns an error without data, and leaves the
    collector in a state in which the next call returns the same error,
    echoes nothing and changes nothing.  Both revisions. *)
Theorem stream_tail_end_is_final
    (U : string -> gmap string JSONValue + error) (F : float64 -> string)
    (I : float64 -> int64) (UT : string -> DynologData + error) (sc : GoBufio.Scanner) :
  all_fit sc = true ->
  payloads (pending sc) = [] ->
  (exists r c1,
     DynologCollector.Collect U F I {| DynologCollector.scanner := sc |} = (r, c1, pending sc)
     /\ fst r = [] /\ snd r <> None
     /\ DynologCollector.Collect U F I c1 = (r, c1, []))
  /\ (exists r c1,
        DynologCollectorTyped.Collect UT {| DynologCollectorTyped.scanner := sc |}
        = (r, c1, pending sc)
        /\ fst r = DynologData_zero /\ snd r <> None
        /\ DynologCollectorTyped.Collect UT c1 = (r, c1, [])).
Proof.
  intros Hfit H.
  destruct (Collect_no_payload U F I UT sc H) as [H1 H2].
  destruct (all_fit_at_end sc Hfit) as (_ & Hnil & Hfix).
  assert (Hend : payloads (pending (at_end sc)) = [])
    by (rewrite Hnil; reflexivity).
  destruct (Collect_no_payload U F I UT (at_end sc) Hend) as [E1 E2].
  rewrite Hnil, Hfix in E1, E2.
  split; eexists _, _; (split; [eassumption|]).
  - split; [|split; [|exact E1]];
      unfold DynologCollector.after_loop;
      destruct (GoBufio.Err (at_end sc)); reflexivity || discriminate.
  - split; [|split; [|exact E2]];
      unfold DynologCollectorTyped.after_loop;
      destruct (GoBufio.Err (at_end sc)); reflexivity || discriminate.
Qed.

Lemma stream_tail_end_is_final_witness :
  exists r c1,
    DynologCollector.Collect sample_Unmarshal sample_FormatFloat_g sample_indefinite
      {| DynologCollector.scanner := advance sample_scanner 2 |}
    = (r, c1, ["more noise"])
    /\ fst r = [] /\ snd r <> None
    /\ DynologCollector.Collect sample_Unmarshal sample_FormatFloat_g sample_indefinite c1
       = (r, c1, []).
Proof.
  apply (stream_tail_end_is_final sample_Unmarshal sample_FormatFloat_g sample_indefinite
           sample_Unmarshal_typed (advance sample_scanner 2)); reflexivity.
Defined.

(** X10: when reading the stream fails, the error is reported once the
    lines before the failure have been scanned and none of them matched;
    it takes the place of the error "no dynolog JSON lines found yet".
    The revision that builds readings wraps it with the prefix
    "reading dynolog stderr: ", the other returns it as it is. *)
Theorem stream_tail_read_error
    (U : string -> gmap string JSONValue + error) (F : float64 -> string)
    (I : float64 -> int64) (UT : string -> DynologData + error)
    (sc : GoBufio.Scanner) (e : error) :
  payloads (pending sc) = [] -> GoBufio.err sc = Some e ->
  DynologCollector.Collect U F I {| DynologCollector.scanner := sc |}
  = (([], Some (wrapError "reading dynolog stderr: " e)),
     {| DynologCollector.scanner := at_end sc |}, pending sc)
  /\ DynologCollectorTyped.Collect UT {| DynologCollectorTyped.scanner := sc |}
     = ((DynologData_zero, Some e),
        {| DynologCollectorTyped.scanner := at_end sc |}, pending sc).
Proof.
  intros H He.
  destruct (Collect_no_payload U F I UT sc H) as [-> ->].
  unfold DynologCollector.after_loop, DynologCollectorTyped.after_loop.
  rewrite Err_at_end, He. split; reflexivity.
Qed.

Lemma stream_tail_read_error_witness :
  DynologCollector.Collect sample_Unmarshal sample_FormatFloat_g sample_indefinite
    {| DynologCollector.scanner := failing_scanner |}
  = (([], Some (wrapError "reading dynolog stderr: "
                  (errorString "read |0: file already closed"))),
     {| DynologCollector.scanner := at_end failing_scanner |},
     ["noise..."; "more noise"]).
Proof.
  apply (stream_tail_read_error sample_Unmarshal sample_FormatFloat_g sample_indefinite
           sample_Unmarshal_typed failing_scanner
           (errorString "read |0: file already closed")); reflexivity.
Defined.

(** ** Ratios beyond the range of binary64 *)

Lemma ParseFloat_range_not_finite (s num : string) (fn : string) (f : float64) :
  GoStrconv.ParseFloat s = (f, Some (NumError fn num ErrRange)) ->
  Float64.is_finite f = false.
Proof.
  unfold GoStrconv.ParseFloat.
  destruct (GoStrconv.special s) as [[f' n]|].
  - destruct (Nat.eqb n (String.length s)); discriminate.
  - destruct (GoStrconv.readFloat s) as [[x [|c r]]|]; try discriminate.
    destruct (GoStrconv.mant x); try discriminate.
    destruct (Float64.is_finite _) eqn:Hfin; [discriminate|].
    intros [= <-]. exact Hfin.
Qed.

Lemma mul_not_finite (f : float64) (m : positive) (e : Z) :
  Float64.is_finite f = false ->
  Float64.is_finite (Float64.mul f (S754_finite false m e)) = false.
Proof. destruct f; try discriminate; reflexivity. Qed.

Lemma int64_of_float64_not_finite (I : float64 -> int64) (f : float64) :
  Float64.is_finite f = false -> DynologCollector.int64_of_float64 I f = I f.
Proof. intros H. unfold DynologCollector.int64_of_float64. rewrite H. reflexivity. Qed.

(** X11: a ratio written as a number beyond the range of binary64 is not
    read as zero.  [ParseFloat] returns a number that is not finite
    together with the range error, [parseOptionalFloat] drops the error,
    and the reading carries whatever the conversion to [int64] makes of
    the product, which Go leaves to the implementation. *)
Theorem stream_tail_ratio_out_of_range
    (F : float64 -> string) (I : float64 -> int64) (j : gmap string JSONValue)
    (ratio : string) (f : float64) :
  GoStrconv.ParseFloat ratio = (f, Some (NumError "ParseFloat" ratio ErrRange)) ->
  Float64.is_finite f = false
  /\ (DynologCollector.index j "sm_active_ratio" = JString ratio ->
      GPUUtilPercent (DynologCollector.reading F I j)
      = I (Float64.mul f (Float64.of_Z 100)))
  /\ (DynologCollector.index j "gpu_memory_utilization" = JString ratio ->
      MemoryUsedBytes (DynologCollector.reading F I j)
      = I (Float64.mul (Float64.mul f (Float64.of_Z 1024)) (Float64.of_Z 1024))).
Proof.
  intros HP. pose proof (ParseFloat_range_not_finite _ _ _ _ HP) as Hf.
  split; [exact Hf|].
  unfold DynologCollector.reading, DynologCollector.parseOptionalFloat.
  cbn [GPUUtilPercent MemoryUsedBytes].
  split; intros ->; cbn [GoFmt.Sprint_v]; rewrite HP.
  - apply int64_of_float64_not_finite. apply (mul_not_finite f 7036874417766400 (-46) Hf).
  - apply int64_of_float64_not_finite.
    apply (mul_not_finite _ 4503599627370496 (-42)).
    apply (mul_not_finite f 4503599627370496 (-42) Hf).
Qed.

Lemma stream_tail_ratio_out_of_range_witness :
  GPUUtilPercent (DynologCollector.reading sample_FormatFloat_g sample_indefinite
                    (ratio_object "1e999"))
  = sample_indefinite (Float64.mul (S754_infinity false) (Float64.of_Z 100)).
Proof.
  destruct (stream_tail_ratio_out_of_range sample_FormatFloat_g sample_indefinite
              (ratio_object "1e999") "1e999" (S754_infinity false)
              ltac:(vm_compute; reflexivity)) as (_ & H & _).
  exact (H eq_refl).
Defined.

(** ** What the callbacks record *)

Lemma fold_observe_reading {I64 F64 : Type} (m : meterWithGauges I64 F64)
    (gpuData : list GPUData) (obs : GoMetric.Observer I64 F64) :
  fold_left (observe_reading m) gpuData obs
  = obs ++ flat_map (reading_observations m) gpuData.
Proof.
  revert obs. induction gpuData as [|g gs IH]; intros obs; cbn [fold_left flat_map].
  - rewrite app_nil_r. reflexivity.
  - rewrite IH. unfold observe_reading, reading_observations.
    rewrite <- !app_assoc. reflexivity.
Qed.

Lemma registerCallback_func_spec {I64 F64 C : Type} `{Collector C}
    (m : meterWithGauges I64 F64) (c : C) (obs : GoMetric.Observer I64 F64) :
  let '((gpuData, err), c1, stdout) := Collect c in
  registerCallback_func m c obs
  = (err, c1,
     obs ++ match err with
            | Some _ => []
            | None => flat_map (reading_observations m) gpuData
            end,
     stdout).
Proof.
  unfold registerCallback_func.
  destruct (Collect c) as [[[gpuData err] c1] stdout].
  destruct err as [e|]; [rewrite app_nil_r; reflexivity|].
  rewrite fold_observe_reading. reflexivity.
Qed.

(** X12: a run of the function that [registerCallback] registers calls
    [Collect] once.  On an error it returns the error and records
    nothing; otherwise it records for every reading, in order, the memory
    on the memory gauge and then the utilization on the utilization gauge,
    both with the attributes [gpu_id] and [gpu_name].  Every instrument
    that it observes is one of those registered with it. *)
Theorem callback_records_readings {I64 F64 C : Type} `{Collector C}
    (m : meterWithGauges I64 F64) (c : C) (obs : GoMetric.Observer I64 F64) :
  let '((gpuData, err), c1, stdout) := Collect c in
  registerCallback_func m c obs
  = (err, c1,
     obs ++ match err with
            | Some _ => []
            | None => flat_map (reading_observations m) gpuData
            end,
     stdout)
  /\ Forall (fun o => In (GoMetric.instrument o)
                        (GoMetric.instruments (registerCallback_args (C := C) m)))
            (flat_map (reading_observations m) gpuData).
Proof.
  pose proof (registerCallback_func_spec m c obs) as HS.
  destruct (Collect c) as [[[gpuData err] c1] stdout]. split; [exact HS|].
  apply List.Forall_forall. intros o (g & _ & Ho)%List.in_flat_map.
  cbn in Ho. destruct Ho as [<-|[<-|[]]]; cbn; auto.
Qed.

Lemma reading_smi_gpu (d : device_fields) :
  device_ok d ->
  NvidiaSMICollector.reading (smi_gpu d)
  = {| ID := dev_id d; Name := dev_name d;
       MemoryUsedBytes := int_value (dev_MiB d) * 1048576;
       GPUUtilPercent := int_value (dev_percent d) |}.
Proof.
  intros (Hm & Hmr & Hp & Hpr).
  unfold NvidiaSMICollector.reading, smi_gpu.
  cbn [SmiLog.ID SmiLog.ProductName SmiLog.FBMemory SmiLog.Utilization SmiLog.Used
       SmiLog.GPUUtil].
  unfold parseMemory, parsePercentage.
  fold (numeric_part "MiB" (dev_MiB d +:+ " MiB")).
  fold (numeric_part "%" (dev_percent d +:+ " %")).
  rewrite (numeric_part_MiB _ Hm).
  change (dev_percent d +:+ " %") with ("" +:+ dev_percent d +:+ " " +:+ "%" +:+ "").
  rewrite (numeric_part_padded_percent "" (dev_percent d) " " "") by (reflexivity || exact Hp).
  rewrite (ParseInt_decimal _ Hm) by (unfold minInt64, maxInt64; lia).
  rewrite (ParseInt_decimal _ Hp Hpr).
  rewrite mul64_MiB, wrap64_small by (unfold minInt64, maxInt64; lia).
  reflexivity.
Qed.

(** X13: from the document of nvidia-smi to the observations.  When the
    command succeeds and every device of the document reports its memory
    as ["<n> MiB"] with [-2^43 <= n < 2^43] and its utilization as
    ["<p> %"] with [p] in [int64], a run of the callback records, device
    by device, [n * 2^20] on the memory gauge and [p] on the utilization
    gauge under the id and the name of the device, returns no error and
    prints nothing. *)
Theorem nvidia_callback_end_to_end {I64 F64 : Type}
    (xml_Unmarshal : string -> SmiLog.t + error) (out : string)
    (m : meterWithGauges I64 F64) (devices : list device_fields)
    (obs : GoMetric.Observer I64 F64) :
  xml_Unmarshal out = inl {| SmiLog.GPUs := map smi_gpu devices |} ->
  Forall device_ok devices ->
  registerCallback_func (H := NvidiaSMICollector_Collector xml_Unmarshal (out, None))
    m NvidiaSMICollector_zero obs
  = (None, NvidiaSMICollector_zero, obs ++ flat_map (device_observations m) devices, []).
Proof.
  intros Hdoc Hok.
  pose proof (registerCallback_func_spec
                (H := NvidiaSMICollector_Collector xml_Unmarshal (out, None))
                m NvidiaSMICollector_zero obs) as HC.
  assert (HCollect : Collect (Collector := NvidiaSMICollector_Collector xml_Unmarshal (out, None))
                       NvidiaSMICollector_zero
                     = ((map NvidiaSMICollector.reading (map smi_gpu devices), None),
                        NvidiaSMICollector_zero, [])).
  { unfold Collect, NvidiaSMICollector_Collector, NvidiaSMICollector.Collect.
    rewrite Hdoc. reflexivity. }
  rewrite HCollect in HC. rewrite HC. repeat f_equal.
  clear HC Hdoc HCollect. induction Hok as [|d ds Hd _ IH]; [reflexivity|].
  cbn [map flat_map]. rewrite IH. f_equal.
  unfold reading_observations, device_observations.
  rewrite (reading_smi_gpu d Hd). reflexivity.
Qed.

Lemma nvidia_callback_end_to_end_witness :
  registerCallback_func
    (H := NvidiaSMICollector_Collector sample_xml_Unmarshal ("<nvidia_smi_log/>", None))
    sample_gauges NvidiaSMICollector_zero []
  = (None, NvidiaSMICollector_zero,
     [ GoMetric.ObserveInt64 "gpu.memory_used_bytes" 1073741824
         [("gpu_id", "0"); ("gpu_name", "Test-GPU")];
       GoMetric.ObserveInt64 "gpu.utilization_percent" 42
         [("gpu_id", "0"); ("gpu_name", "Test-GPU")] ],
     []).
Proof.
  exact (nvidia_callback_end_to_end sample_xml_Unmarshal "<nvidia_smi_log/>"
           sample_gauges sample_devices [] eq_refl
           ltac:(repeat constructor; vm_compute; congruence)).
Defined.

(** X14: a run of the callback over the Stream-Tail Collector reports at
    most one device: either [Collect] fails and nothing is recorded, or
    exactly the two observations of its one reading are, both under the
    name "DCGM-GPU". *)
Theorem dynolog_callback_run {I64 F64 : Type}
    (U : string -> gmap string JSONValue + error) (F : float64 -> string)
    (I : float64 -> int64) (m : meterWithGauges I64 F64)
    (c : DynologCollector.t) (obs : GoMetric.Observer I64 F64) :
  let '((gpuData, err), c1, stdout) := DynologCollector.Collect U F I c in
  exists news,
    registerCallback_func (H := DynologCollector_Collector U F I) m c obs
    = (err, c1, obs ++ news, stdout)
    /\ match err with
       | Some _ => news = []
       | None =>
           exists r, gpuData = [r] /\ news = reading_observations m r
                     /\ Forall (fun o => In ("gpu_name", "DCGM-GPU") (GoMetric.attributes o)) news
       end.
Proof.
  pose proof (registerCallback_func_spec (H := DynologCollector_Collector U F I) m c obs) as HC.
  unfold Collect, DynologCollector_Collector in HC.
  destruct c as [sc]. rewrite Collect_spec in HC |- *.
  destruct (split_first_match (pending sc)) as [noise [[line payload]|]].
  - unfold from_payload in *. destruct (U payload) as [j|e].
    + eexists. split; [exact HC|].
      eexists. split; [reflexivity|]. cbn [flat_map]. rewrite app_nil_r.
      split; [reflexivity|].
      unfold reading_observations.
      repeat (apply List.Forall_cons; [right; left; reflexivity|]). apply List.Forall_nil.
    + eexists. split; [exact HC|reflexivity].
  - unfold DynologCollector.after_loop in *.
    destruct (GoBufio.Err _); eexists; (split; [exact HC|reflexivity]).
Qed.

(** X15: a run of the function that [registerDynologCallback] registers
    either returns the error of [Collect] and records nothing, or records
    one observation on each of the sixteen instruments registered with it,
    in the order of the registration, each with the one attribute [gpu_id]
    that is the device number in decimal. *)
Theorem dynolog_typed_callback_run {I64 F64 : Type}
    (U : string -> DynologData + error) (m : GoMetric.Meter I64 F64)
    (c : DynologCollectorTyped.t) (obs : GoMetric.Observer I64 F64) :
  let reg := registerDynologCallback_args U m in
  let '((data, err), c1, stdout) := DynologCollectorTyped.Collect U c in
  exists news,
    GoMetric.f reg c obs = (err, c1, obs ++ news, stdout)
    /\ match err with
       | Some _ => news = []
       | None =>
           map GoMetric.instrument news = GoMetric.instruments reg
           /\ Forall (fun o => GoMetric.attributes o = [("gpu_id", Sprintf_d (Device data))])
                     news
       end.
Proof.
  unfold registerDynologCallback_args.
  repeat match goal with
         | |- context [GoMetric.Int64ObservableGauge m ?name] =>
             destruct (GoMetric.Int64ObservableGauge m name) as [? _]
         | |- context [GoMetric.Float64ObservableGauge m ?name] =>
             destruct (GoMetric.Float64ObservableGauge m name) as [? _]
         end.
  cbn [GoMetric.f GoMetric.instruments].
  destruct (DynologCollectorTyped.Collect U c) as [[[data [e|]] c1] stdout].
  - exists []. rewrite app_nil_r. split; reflexivity.
  - eexists. split; [reflexivity|]. split; [reflexivity|].
    repeat (apply List.Forall_cons; [reflexivity|]). apply List.Forall_nil.
Qed.

Lemma code_digit_byte (d : Z) : 0 <= d <= 9 -> code (digit_byte d) = 48 + d.
Proof.
  intros Hd. unfold code, digit_byte.
  rewrite N_ascii_embedding by lia. lia.
Qed.

Lemma digits_value_app (a b : string) (n : Z) :
  digits_value (a +:+ b) n = digits_value b (digits_value a n).
Proof.
  revert n. induction a as [|c a IH]; intros n; [reflexivity|].
  rewrite append_cons. cbn [digits_value]. apply IH.
Qed.

(** The digit loop writes the decimal digits of [u], none of them a
    leading zero unless [u] is zero, in front of the buffer. *)
Lemma fmtInteger_loop_spec (fuel : nat) :
  forall (u : Z) (buf : string),
  0 <= u < 10 ^ Z.of_nat (S fuel) ->
  exists d, fmtInteger_loop (S fuel) u buf = d +:+ buf
            /\ d <> "" /\ string_forall is_digit_byte d = true
            /\ forall n, digits_value d n = n * 10 ^ Z.of_nat (String.length d) + u.
Proof.
  assert (Hlast : forall u buf, 0 <= u < 10 ->
            exists d, String (digit_byte u) buf = d +:+ buf
              /\ d <> "" /\ string_forall is_digit_byte d = true
              /\ forall n, digits_value d n = n * 10 ^ Z.of_nat (String.length d) + u).
  { intros u buf Hu. exists (String (digit_byte u) ""). split; [reflexivity|].
    split; [discriminate|]. split.
    - cbn [string_forall]. unfold is_digit_byte. rewrite code_digit_byte by lia.
      rewrite andb_true_r. apply andb_true_iff. split; apply Z.leb_le; lia.
    - intros n. cbn [digits_value String.length]. rewrite code_digit_byte by lia.
      change (10 ^ Z.of_nat 1) with 10. lia. }
  induction fuel as [|fuel IH]; intros u buf Hu.
  - cbn [fmtInteger_loop]. change (10 ^ Z.of_nat 1) with 10 in Hu.
    replace (10 <=? u) with false by (symmetry; apply Z.leb_gt; lia).
    apply Hlast. lia.
  - cbn [fmtInteger_loop]. destruct (10 <=? u) eqn:H10.
    + apply Z.leb_le in H10.
      assert (Hq : 0 <= u / 10 < 10 ^ Z.of_nat (S fuel)).
      { split; [apply Z.div_pos; lia|].
        apply Z.div_lt_upper_bound; [lia|].
        rewrite (Nat2Z.inj_succ (S fuel)), Z.pow_succ_r in Hu by lia. lia. }
      pose proof (Z.mod_pos_bound u 10 ltac:(lia)) as Hr.
      destruct (IH (u / 10) (String (digit_byte (u mod 10)) buf) Hq)
        as (d & Hloop & Hne & Hd & Hv).
      cbn [fmtInteger_loop] in Hloop. rewrite Hloop.
      exists (d +:+ String (digit_byte (u mod 10)) "").
      rewrite append_assoc. split; [reflexivity|]. split; [|split].
      * destruct d; [contradiction|discriminate].
      * rewrite string_forall_app, Hd. cbn [string_forall andb].
        unfold is_digit_byte. rewrite code_digit_byte by lia.
        rewrite andb_true_r. apply andb_true_iff. split; apply Z.leb_le; lia.
      * intros n. rewrite digits_value_app, Hv. cbn [digits_value].
        rewrite code_digit_byte by lia.
        replace (String.length (d +:+ String (digit_byte (u mod 10)) ""))
          with (S (String.length d)).
        2:{ clear. induction d as [|c d IH]; [reflexivity|].
            rewrite append_cons. cbn [String.length]. rewrite <- IH. reflexivity. }
        rewrite Nat2Z.inj_succ, Z.pow_succ_r by lia.
        pose proof (Z.div_mod u 10 ltac:(lia)). lia.
    + apply Z.leb_gt in H10. apply Hlast. lia.
Qed.

Lemma Sprintf_d_decimal (i : int64) :
  in_int64 i -> is_decimal_integer (Sprintf_d i) = true /\ int_value (Sprintf_d i) = i.
Proof.
  unfold in_int64, minInt64, maxInt64. intros Hi. unfold Sprintf_d.
  destruct (i <? 0) eqn:Hneg.
  - apply Z.ltb_lt in Hneg.
    destruct (fmtInteger_loop_spec 19 (- i) "" ltac:(lia)) as (d & -> & Hne & Hd & Hv).
    rewrite append_nil_r. split.
    + unfold is_decimal_integer. change (is_sign_byte "-") with true. cbv iota.
      rewrite Hd. destruct d; [contradiction|reflexivity].
    + unfold int_value. change (code "-" =? 45) with true. cbv iota.
      rewrite (Hv 0). lia.
  - apply Z.ltb_ge in Hneg.
    destruct (fmtInteger_loop_spec 19 i "" ltac:(lia)) as (d & -> & Hne & Hd & Hv).
    rewrite append_nil_r.
    destruct d as [|c t]; [contradiction|].
    pose proof Hd as Hd'. cbn [string_forall] in Hd'.
    apply andb_true_iff in Hd' as [Hc _]. unfold is_digit_byte in Hc.
    apply andb_true_iff in Hc as [H1 H2]. apply Z.leb_le in H1, H2.
    assert (Hs : is_sign_byte c = false).
    { unfold is_sign_byte. apply orb_false_iff. split; apply Z.eqb_neq; lia. }
    split.
    + unfold is_decimal_integer. rewrite Hs. exact Hd.
    + unfold int_value.
      replace (code c =? 45) with false by (symmetry; apply Z.eqb_neq; lia).
      replace (code c =? 43) with false by (symmetry; apply Z.eqb_neq; lia).
      rewrite (Hv 0). lia.
Qed.

(** X16: the attribute [gpu_id] of that revision identifies the device:
    the text that [%d] prints for an [int64] parses back to it, so that two
    device numbers with the same text are equal. *)
Theorem gpu_id_round_trip (i j : int64) :
  in_int64 i -> in_int64 j ->
  GoStrconv.ParseInt (Sprintf_d i) = (i, None)
  /\ (Sprintf_d i = Sprintf_d j -> i = j).
Proof.
  intros Hi Hj.
  destruct (Sprintf_d_decimal i Hi) as [Hd Hv].
  destruct (Sprintf_d_decimal j Hj) as [_ Hw].
  split.
  - rewrite <- Hv at 2. apply ParseInt_decimal; [exact Hd|]. rewrite Hv. exact Hi.
  - intros E. rewrite <- Hv, <- Hw, E. reflexivity.
Qed.

Lemma gpu_id_round_trip_witness :
  GoStrconv.ParseInt (Sprintf_d (-9223372036854775808)) = (-9223372036854775808, None)
  /\ (Sprintf_d (-9223372036854775808) = Sprintf_d 7 -> -9223372036854775808 = 7).
Proof.
  apply (gpu_id_round_trip (-9223372036854775808) 7);
    vm_compute; split; discriminate.
Defined.

(** ** Configuration, set-up and shutdown *)

Lemma loadConfig_main (environ : gmap string string) :
  loadConfig environ main_viper
  = {| ServiceName := "gpu-mon";
       HoneycombKey := default "" (environ !! "HONEYCOMB_API_KEY");
       MetricInterval := 15000000000 |}.
Proof.
  unfold loadConfig.
  assert (Hname : GoViper.GetString environ main_viper "service_name" = "gpu-mon")
    by reflexivity.
  assert (Hkey : GoViper.GetString environ main_viper "honeycomb_key"
                 = default "" (environ !! "HONEYCOMB_API_KEY")).
  { change (GoViper.GetString environ main_viper "honeycomb_key")
      with (match match GoViper.getEnv environ "HONEYCOMB_API_KEY" with
                  | Some val => Some val
                  | None => None
                  end with
            | Some val => val
            | None => ""
            end).
    unfold GoViper.getEnv.
    destruct (environ !! "HONEYCOMB_API_KEY") as [val|]; cbn [default]; [|reflexivity].
    destruct (String.eqb val "") eqn:Hv; [|reflexivity].
    apply String.eqb_eq in Hv. subst val. reflexivity. }
  rewrite Hname, Hkey. reflexivity.
Qed.

(** X17: the configuration that the commands run with.  After the set-up
    of [main] the service name is "gpu-mon" whatever the environment
    holds, the key is the value of the variable HONEYCOMB_API_KEY, empty
    when the variable is unset, and the interval is fifteen seconds. *)
Theorem loadConfig_of_environment (environ : gmap string string) :
  loadConfig environ main_viper
  = {| ServiceName := "gpu-mon";
       HoneycombKey := default "" (environ !! "HONEYCOMB_API_KEY");
       MetricInterval := 15000000000 |}.
Proof. apply loadConfig_main. Qed.

Lemma initProvider_cases {I64 F64 : Type} (sdk : SDK I64 F64) (cfg : Config) :
  (exists e, initProvider sdk cfg = ([], inr e))
  \/ (exists install, initProvider sdk cfg = ([install], inl (shutdown_events sdk))
                      /\ is_install install = true).
Proof.
  unfold initProvider.
  destruct (resource_New sdk _) as [e|]; [left; eauto|].
  destruct (otlpmetricgrpc_New sdk _ _) as [e|]; [left; eauto|].
  right. eexists. split; reflexivity.
Qed.

Lemma await_Done_disciplined {I64 F64 : Type} (sdk : SDK I64 F64) (ctx : Context)
    (install info : event) :
  is_install install = true -> is_shutdown info = false ->
  disciplined sdk ctx (await_Done ctx ([install] ++ [info]) (shutdown_events sdk)).
Proof.
  intros Hi Hs. unfold await_Done, disciplined.
  destruct (Done_closes ctx) eqn:Hd.
  - split; [reflexivity|]. exists ([install] ++ [info]).
    split; [reflexivity|]. cbn. rewrite Hi, Hs.
    destruct install; try discriminate. auto.
  - split; [reflexivity|]. cbn. rewrite Hi, Hs.
    destruct install; try discriminate. auto.
Qed.

Lemma failed_after_install {I64 F64 : Type} (sdk : SDK I64 F64) (install : event) :
  is_install install = true -> shut_down_last sdk ([install] ++ shutdown_events sdk).
Proof.
  intros Hi. exists [install]. split; [reflexivity|]. cbn. rewrite Hi.
  destruct install; try discriminate. auto.
Qed.

Lemma runners_disciplined {I64 F64 C : Type} `{Collector C}
    (sdk : SDK I64 F64) (ctx : Context) (cfg : Config) (collector : C)
    (xml_Unmarshal : string -> SmiLog.t + error) (cmd_Output : string * option error)
    (json_Unmarshal_typed : string -> DynologData + error)
    (dc : DynologCollectorTyped.t) :
  disciplined sdk ctx (runCollector sdk ctx collector cfg)
  /\ disciplined sdk ctx (runNvidiaSmiCollector sdk xml_Unmarshal cmd_Output ctx cfg)
  /\ disciplined sdk ctx (runDynologCollector sdk json_Unmarshal_typed ctx cfg dc).
Proof.
  unfold runCollector, runNvidiaSmiCollector, runDynologCollector.
  destruct (initProvider_cases sdk cfg) as [[e ->]|(install & -> & Hi)].
  { repeat split; left; eauto. }
  split; [|split].
  - destruct (newMeterWithGauges _) as [mwg|e].
    + destruct (registerCallback mwg collector) as [e|].
      * right. split; [apply failed_after_install, Hi|eauto].
      * apply await_Done_disciplined; [exact Hi|reflexivity].
    + right. split; [apply failed_after_install, Hi|eauto].
  - destruct (newMeterWithGauges _) as [mwg|e].
    + destruct (GoMetric.RegisterCallback _ _) as [e|].
      * right. split; [apply failed_after_install, Hi|eauto].
      * apply await_Done_disciplined; [exact Hi|reflexivity].
    + right. split; [apply failed_after_install, Hi|eauto].
  - destruct (registerDynologCallback _ _ _) as [e|].
    + right. split; [apply failed_after_install, Hi|eauto].
    + apply await_Done_disciplined; [exact Hi|reflexivity].
Qed.

(** X18: the three runners keep one discipline.  A failure of
    [initProvider] is returned with the prefix "init error: " and nothing
    else is done.  Once the provider is installed, every return shuts it
    down, exactly once and as the last thing; the runner returns nil only
    when the context is done, and while it waits for that it has not shut
    the provider down. *)
Theorem runners_shutdown_discipline {I64 F64 C : Type} `{Collector C}
    (sdk : SDK I64 F64) (ctx : Context) (cfg : Config) (collector : C)
    (xml_Unmarshal : string -> SmiLog.t + error) (cmd_Output : string * option error)
    (json_Unmarshal_typed : string -> DynologData + error)
    (dc : DynologCollectorTyped.t) :
  disciplined sdk ctx (runCollector sdk ctx collector cfg)
  /\ disciplined sdk ctx (runNvidiaSmiCollector sdk xml_Unmarshal cmd_Output ctx cfg)
  /\ disciplined sdk ctx (runDynologCollector sdk json_Unmarshal_typed ctx cfg dc).
Proof. apply runners_disciplined. Qed.

Lemma disciplined_never_finishes {I64 F64 : Type} (sdk : SDK I64 F64)
    (run : list event * outcome) :
  disciplined sdk Background run -> never_finishes run.
Proof.
  destruct run as [trace [[e|]|]]; cbn.
  - auto.
  - intros [H _]. discriminate.
  - intros (_ & _ & H). exact H.
Qed.

Lemma never_finishes_after_start (args : list string) (run : list event * outcome) :
  never_finishes run ->
  never_finishes (let '(trace', out) := run in ([CmdStart "dynolog" args] ++ trace', out)).
Proof. destruct run as [trace [[e|]|]]; cbn; auto. Qed.

(** X19: the commands pass [context.Background()], which is never done.
    So no command returns nil: it fails with an error, or it waits for
    ever, and then the shutdown of the provider has not run.  The Dynolog
    commands start the child process before anything else; when that
    fails they return the error with the prefix "start dynolog: " and have
    done nothing. *)
Theorem commands_never_finish {I64 F64 : Type} (sdk : SDK I64 F64)
    (environ : gmap string string)
    (json_Unmarshal : string -> gmap string JSONValue + error)
    (FormatFloat_g : float64 -> string) (int64_of_unrepresentable : float64 -> int64)
    (xml_Unmarshal : string -> SmiLog.t + error) (cmd_Output : string * option error)
    (json_Unmarshal_typed : string -> DynologData + error) (p : Subprocess) :
  never_finishes (nvidiaSmiCmd_RunE I64 F64 sdk environ xml_Unmarshal cmd_Output)
  /\ never_finishes (nvidiaSmiCmd_RunE_typed I64 F64 sdk environ xml_Unmarshal cmd_Output)
  /\ (never_finishes
        (dynologCmd_RunE I64 F64 sdk environ json_Unmarshal FormatFloat_g
           int64_of_unrepresentable p)
      /\ child_first dynolog_args
           (dynologCmd_RunE I64 F64 sdk environ json_Unmarshal FormatFloat_g
              int64_of_unrepresentable p))
  /\ (never_finishes (dynologCmd_RunE_typed I64 F64 sdk environ json_Unmarshal_typed p)
      /\ child_first dynolog_args_typed
           (dynologCmd_RunE_typed I64 F64 sdk environ json_Unmarshal_typed p)).
Proof.
  set (cfg := loadConfig environ main_viper).
  pose proof (fun C (H : Collector C) (c : C) dc =>
                runners_disciplined (H := H) sdk Background cfg c xml_Unmarshal cmd_Output
                  json_Unmarshal_typed dc) as HD.
  split; [|split; [|split]].
  - unfold nvidiaSmiCmd_RunE. fold cfg.
    eapply disciplined_never_finishes.
    exact (proj1 (HD _ _ NvidiaSMICollector_zero {| DynologCollectorTyped.scanner := NewScanner p |})).
  - unfold nvidiaSmiCmd_RunE_typed. fold cfg.
    eapply disciplined_never_finishes.
    exact (proj1 (proj2 (HD _ (NvidiaSMICollector_Collector xml_Unmarshal cmd_Output)
                           NvidiaSMICollector_zero
                           {| DynologCollectorTyped.scanner := NewScanner p |}))).
  - unfold dynologCmd_RunE, Start. fold cfg.
    destruct (StderrPipe_err p) as [e|]; [split; [exact I|right; eauto]|].
    destruct (Start_err p) as [e|]; [split; [exact I|right; eauto]|].
    split.
    + apply never_finishes_after_start. eapply disciplined_never_finishes.
      exact (proj1 (HD _ _ _ {| DynologCollectorTyped.scanner := NewScanner p |})).
    + destruct (runCollector _ _ _ _) as [trace' out]. left. eexists. reflexivity.
  - unfold dynologCmd_RunE_typed, Start. fold cfg.
    destruct (StderrPipe_err p) as [e|]; [split; [exact I|right; eauto]|].
    destruct (Start_err p) as [e|]; [split; [exact I|right; eauto]|].
    split.
    + apply never_finishes_after_start. eapply disciplined_never_finishes.
      exact (proj2 (proj2 (HD _ (NvidiaSMICollector_Collector xml_Unmarshal cmd_Output)
                             NvidiaSMICollector_zero _))).
    + destruct (runDynologCollector _ _ _ _ _) as [trace' out]. left. eexists. reflexivity.
Qed.

Lemma runners_install_configured {I64 F64 C : Type} `{Collector C}
    (sdk : SDK I64 F64) (environ : gmap string string) (ctx : Context) (collector : C)
    (xml_Unmarshal : string -> SmiLog.t + error) (cmd_Output : string * option error)
    (json_Unmarshal_typed : string -> DynologData + error)
    (dc : DynologCollectorTyped.t) :
  let cfg := loadConfig environ main_viper in
  installs_configured environ (runCollector sdk ctx collector cfg)
  /\ installs_configured environ
       (runNvidiaSmiCollector sdk xml_Unmarshal cmd_Output ctx cfg)
  /\ installs_configured environ
       (runDynologCollector sdk json_Unmarshal_typed ctx cfg dc).
Proof.
  cbn zeta. rewrite loadConfig_main.
  unfold installs_configured, runCollector, runNvidiaSmiCollector, runDynologCollector,
    initProvider, await_Done.
  cbn [ServiceName HoneycombKey MetricInterval].
  destruct (resource_New sdk _) as [e|];
    [repeat split; cbn; solve [apply List.Forall_nil | lia]|].
  destruct (otlpmetricgrpc_New sdk _ _) as [e|];
    [repeat split; cbn; solve [apply List.Forall_nil | lia]|].
  destruct (prov_Shutdown sdk) as [e|], (Done_closes ctx);
    (split; [|split]);
    repeat match goal with
           | |- context [newMeterWithGauges ?m] => destruct (newMeterWithGauges m)
           | |- context [registerCallback ?m ?c] => destruct (registerCallback m c)
           | |- context [GoMetric.RegisterCallback ?m ?r] =>
               destruct (GoMetric.RegisterCallback m r)
           | |- context [registerDynologCallback ?u ?m ?c] =>
               destruct (registerDynologCallback u m c)
           end;
    cbn; (split; [repeat constructor|lia]).
Qed.

Lemma installs_configured_after_start (environ : gmap string string) (args : list string)
    (run : list event * outcome) :
  installs_configured environ run ->
  installs_configured environ
    (let '(trace', out) := run in ([CmdStart "dynolog" args] ++ trace', out)).
Proof.
  destruct run as [trace out]. unfold installs_configured. cbn.
  intros [H1 H2]. split; [constructor; [exact I|exact H1]|exact H2].
Qed.

(** X20: whatever a command installs is the provider of the
    configuration above: at most one provider per run, for the service
    "gpu-mon", exporting to api.honeycomb.io:443 with the key of the
    environment in the header x-honeycomb-team, every fifteen seconds. *)
Theorem commands_install_configured {I64 F64 : Type} (sdk : SDK I64 F64)
    (environ : gmap string string)
    (json_Unmarshal : string -> gmap string JSONValue + error)
    (FormatFloat_g : float64 -> string) (int64_of_unrepresentable : float64 -> int64)
    (xml_Unmarshal : string -> SmiLog.t + error) (cmd_Output : string * option error)
    (json_Unmarshal_typed : string -> DynologData + error) (p : Subprocess) :
  installs_configured environ
    (nvidiaSmiCmd_RunE I64 F64 sdk environ xml_Unmarshal cmd_Output)
  /\ installs_configured environ
       (nvidiaSmiCmd_RunE_typed I64 F64 sdk environ xml_Unmarshal cmd_Output)
  /\ installs_configured environ
       (dynologCmd_RunE I64 F64 sdk environ json_Unmarshal FormatFloat_g
          int64_of_unrepresentable p)
  /\ installs_configured environ
       (dynologCmd_RunE_typed I64 F64 sdk environ json_Unmarshal_typed p).
Proof.
  pose proof (fun C (H : Collector C) (c : C) dc =>
                runners_install_configured (H := H) sdk environ Background c
                  xml_Unmarshal cmd_Output json_Unmarshal_typed dc) as HD.
  cbn zeta in HD.
  assert (Hnil : forall out, installs_configured environ ([], out)).
  { intros out. split; [constructor|cbn; lia]. }
  split; [|split; [|split]].
  - exact (proj1 (HD _ _ NvidiaSMICollector_zero
                    {| DynologCollectorTyped.scanner := NewScanner p |})).
  - exact (proj1 (proj2 (HD _ (NvidiaSMICollector_Collector xml_Unmarshal cmd_Output)
                           NvidiaSMICollector_zero
                           {| DynologCollectorTyped.scanner := NewScanner p |}))).
  - unfold dynologCmd_RunE, Start.
    destruct (StderrPipe_err p) as [e|]; [apply Hnil|].
    destruct (Start_err p) as [e|]; [apply Hnil|].
    apply installs_configured_after_start.
    exact (proj1 (HD _ _ _ {| DynologCollectorTyped.scanner := NewScanner p |})).
  - unfold dynologCmd_RunE_typed, Start.
    destruct (StderrPipe_err p) as [e|]; [apply Hnil|].
    destruct (Start_err p) as [e|]; [apply Hnil|].
    apply installs_configured_after_start.
    exact (proj2 (proj2 (HD _ (NvidiaSMICollector_Collector xml_Unmarshal cmd_Output)
                           NvidiaSMICollector_zero _))).
Qed.
